(** * Spatial classification of iNaturalist observations

    A shallow embedding of [src/spatial_analysis.py]: the buffer generator
    [create_geodesic_buffer], the data frame operations the script applies to
    the table of observations, and the script itself from the load of the
    cleaned file down to the distance filter that feeds the maps.

    Python floats are IEEE 754 binary64 numbers and are modelled by Rocq's
    primitive floats.  A pandas data frame is an index and an ordered list of
    named, typed columns.  Console output and exceptions are threaded through
    a small writer and error monad.  The geometry libraries the script calls
    (pyproj through geopandas, shapely) are an interface, [GeoLib], over which
    every statement is quantified; what pandas and geopandas do with the
    columns the script hands them is written out where the script calls
    them. *)

From Stdlib Require Import Floats.
From Stdlib Require Import ZArith.
From stdpp Require Import base option list strings pretty.

Local Open Scope Z_scope.
Local Open Scope string_scope.

(* Decimal float literals denote the nearest binary64 number, as in Python. *)
Set Warnings "-inexact-float".

(** ** Python numbers *)

(** [float(n)] for a Python int: the nearest binary64 number, ties to even. *)
Definition float_of_int (n : Z) : float :=
  SF2Prim (SpecFloat.binary_normalize prec emax n 0 false).

(** A value passed where the source annotates [float]: the script passes the
    ints of [BUFFER_RADII_MILES]. *)
Inductive number : Type :=
  | NInt (n : Z)
  | NFloat (f : float).

(** ** Exceptions and results *)

Inductive exn : Type :=
  | SystemExit
  | KeyError (key : string)
  | TypeError
  | ValueError
  | OverflowError
  | IndexError
  | AttributeError
  | GEOSException.

Inductive result (A : Type) : Type :=
  | Ok (a : A)
  | Raise (e : exn).
Arguments Ok {A} a.
Arguments Raise {A} e.

#[global] Instance result_ret : MRet result := fun _ a => Ok a.
#[global] Instance result_bind : MBind result := fun _ _ f m =>
  match m with
  | Ok a => f a
  | Raise e => Raise e
  end.

(** [n * x] with [x] a float: an int operand is converted first, and Python
    raises [OverflowError] when it is too large for a float. *)
Definition mul_float (n : number) (x : float) : result float :=
  match n with
  | NFloat f => Ok (f * x)%float
  | NInt z =>
      let f := float_of_int z in
      if is_infinity f then Raise OverflowError else Ok (f * x)%float
  end.

(** ** Geometries *)

Definition crs : Type := string.
Definition coord : Type := (float * float)%type.

(** The two shapely geometries of the script: [Point(x, y)] and a [Polygon]
    given by its exterior ring and its holes. *)
Inductive geometry : Type :=
  | Point (x y : float)
  | Polygon (shell : list coord) (holes : list (list coord)).

(** What the script takes from pyproj and shapely. *)
Class GeoLib : Type := {
  (** pyproj: one coordinate pair from a source CRS to a target CRS *)
  transform : crs -> crs -> coord -> coord;
  (** shapely: [geom.buffer(distance)], for a distance that is finite *)
  buffer : geometry -> float -> geometry;
  (** shapely: [a.contains(b)] *)
  contains : geometry -> geometry -> bool;
  (** shapely: [a.distance(b)] *)
  distance : geometry -> geometry -> float;
  (** shapely: [geom.centroid], as its coordinate pair *)
  centroid : geometry -> coord;
}.

Definition Point_of (c : coord) : geometry := Point (fst c) (snd c).

(** [GeoSeries.to_crs] on one geometry: every vertex goes through pyproj. *)
Definition geom_to_crs `{GeoLib} (src dst : crs) (g : geometry) : geometry :=
  match g with
  | Point x y => Point_of (transform src dst (x, y))
  | Polygon shell holes =>
      Polygon (transform src dst <$> shell) (fmap (M:=list) (transform src dst) <$> holes)
  end.

(** A [geopandas.GeoSeries]: geometries and the CRS they are expressed in. *)
Record GeoSeries : Type := mkGeoSeries {
  gs_geoms : list geometry;
  gs_crs : crs;
}.

Definition GeoSeries_to_crs `{GeoLib} (s : GeoSeries) (dst : crs) : GeoSeries :=
  mkGeoSeries (geom_to_crs (gs_crs s) dst <$> gs_geoms s) dst.

(** [s.buffer(d)]: the buffer operation refuses a distance that is not
    finite, infinite or NaN, with a [GEOSException]. *)
Definition GeoSeries_buffer `{GeoLib} (s : GeoSeries) (d : float)
    : result GeoSeries :=
  if is_finite d
  then Ok (mkGeoSeries ((fun g => buffer g d) <$> gs_geoms s) (gs_crs s))
  else Raise GEOSException.

(** [s.iloc[i]] *)
Definition iloc (s : GeoSeries) (i : nat) : result geometry :=
  match gs_geoms s !! i with
  | Some g => Ok g
  | None => Raise IndexError
  end.

(** ** The buffer generator *)

Definition MILES_TO_METERS : float := 1609.34%float.

Definition create_geodesic_buffer `{GeoLib}
    (center_point_lon_lat : coord) (radius_miles : number)
    (target_crs source_crs : crs) : result geometry :=
  let center_gdf := mkGeoSeries [Point_of center_point_lon_lat] source_crs in
  let center_gdf_proj := GeoSeries_to_crs center_gdf target_crs in
  buffer_meters ← mul_float radius_miles MILES_TO_METERS;
  buffered ← GeoSeries_buffer center_gdf_proj buffer_meters;
  buffered_polygon_proj ← iloc buffered 0;
  iloc (GeoSeries_to_crs (mkGeoSeries [buffered_polygon_proj] target_crs) source_crs) 0.

(** ** Data frames *)

(** A pandas column with its dtype: float64 (missing cells are NaN), int64,
    object (strings, missing cells are None), bool, and the geometry dtype of
    geopandas. *)
Inductive series : Type :=
  | SFloat (l : list float)
  | SInt (l : list Z)
  | SObj (l : list (option string))
  | SBool (l : list bool)
  | SGeom (l : list geometry).

Definition series_len (s : series) : nat :=
  match s with
  | SFloat l => length l
  | SInt l => length l
  | SObj l => length l
  | SBool l => length l
  | SGeom l => length l
  end.

(** [s.isna()] *)
Definition series_isna (s : series) : list bool :=
  match s with
  | SFloat l => is_nan <$> l
  | SInt l => (fun _ => false) <$> l
  | SObj l => (fun o => bool_decide (o = None)) <$> l
  | SBool l => (fun _ => false) <$> l
  | SGeom l => (fun _ => false) <$> l
  end.

(** The entries of [l] at the positions where [keep] is true. *)
Fixpoint select {A} (keep : list bool) (l : list A) : list A :=
  match keep, l with
  | k :: keep', x :: l' => if k then x :: select keep' l' else select keep' l'
  | _, _ => []
  end.

(** [s[keep]] for a boolean mask. *)
Definition series_select (keep : list bool) (s : series) : series :=
  match s with
  | SFloat l => SFloat (select keep l)
  | SInt l => SInt (select keep l)
  | SObj l => SObj (select keep l)
  | SBool l => SBool (select keep l)
  | SGeom l => SGeom (select keep l)
  end.

(** [s.head(n)] *)
Definition series_head (n : nat) (s : series) : series :=
  match s with
  | SFloat l => SFloat (take n l)
  | SInt l => SInt (take n l)
  | SObj l => SObj (take n l)
  | SBool l => SBool (take n l)
  | SGeom l => SGeom (take n l)
  end.

(** Row labels and named columns, in column order. *)
Record DataFrame : Type := mkDataFrame {
  index : list Z;
  columns : list (string * series);
}.

(** [len(df)] *)
Definition len (df : DataFrame) : Z := Z.of_nat (length (index df)).

(** [df.columns] *)
Definition column_names (df : DataFrame) : list string := fst <$> columns df.

Fixpoint assoc_get (name : string) (cols : list (string * series)) : option series :=
  match cols with
  | [] => None
  | (n, s) :: cols' => if decide (n = name) then Some s else assoc_get name cols'
  end.

(** [df[name] = s] on the column list: an existing column keeps its place
    and takes the new contents, a new one goes last. *)
Fixpoint assoc_set (name : string) (s : series) (cols : list (string * series))
    : list (string * series) :=
  match cols with
  | [] => [(name, s)]
  | (n, s') :: cols' =>
      if decide (n = name) then (n, s) :: cols' else (n, s') :: assoc_set name s cols'
  end.

(** [df[name]] *)
Definition get_col (name : string) (df : DataFrame) : result series :=
  match assoc_get name (columns df) with
  | Some s => Ok s
  | None => Raise (KeyError name)
  end.

(** [df[name] = s].  Every series the script assigns is computed from a
    column of the frame it is assigned to, so it has a cell per row and the
    row labels of the frame. *)
Definition set_col (name : string) (s : series) (df : DataFrame) : DataFrame :=
  mkDataFrame (index df) (assoc_set name s (columns df)).

(** [df.drop(columns=name)] *)
Definition drop_col (name : string) (df : DataFrame) : result DataFrame :=
  match assoc_get name (columns df) with
  | Some _ =>
      Ok (mkDataFrame (index df)
            (filter (fun c => fst c ≠ name) (columns df)))
  | None => Raise (KeyError name)
  end.

(** [df[keep]] for a boolean mask over the rows. *)
Definition select_rows (keep : list bool) (df : DataFrame) : DataFrame :=
  mkDataFrame (select keep (index df))
    ((fun c => (fst c, series_select keep (snd c))) <$> columns df).

(** [df.head(n)] *)
Definition head (n : nat) (df : DataFrame) : DataFrame :=
  mkDataFrame (take n (index df))
    ((fun c => (fst c, series_head n (snd c))) <$> columns df).

(** The rows to keep for [dropna(subset=...)]: those with no missing cell in
    any of the named columns. *)
Fixpoint notna_mask (n : nat) (subset : list string) (df : DataFrame)
    : result (list bool) :=
  match subset with
  | [] => Ok (replicate n true)
  | name :: subset' =>
      s ← get_col name df;
      rest ← notna_mask n subset' df;
      Ok (zip_with (fun na keep => negb na && keep) (series_isna s) rest)
  end.

(** [df.dropna(subset=subset)]; a name that is not a column raises
    [KeyError]. *)
Definition dropna (subset : list string) (df : DataFrame) : result DataFrame :=
  keep ← notna_mask (length (index df)) subset df;
  Ok (select_rows keep df).

(** How Python prints a float in an f-string and reads one from a text,
    [float(s)], which raises [ValueError] for a text that is not a number,
    and how pandas prints a frame. *)
Class Repr : Type := {
  float_str : float -> string;
  float_of_str : string -> option float;
  frame_str : DataFrame -> string;
}.

(** [for x in l: out.append(f(x))], up to the first exception. *)
Fixpoint for_rows {A B} (f : A -> result B) (l : list A) : result (list B) :=
  match l with
  | [] => Ok []
  | x :: l' => y ← f x; ys ← for_rows f l'; Ok (y :: ys)
  end.

(** The cells of a numeric column as float64 numbers. *)
Definition floats (s : series) : list float :=
  match s with
  | SFloat l => l
  | SInt l => float_of_int <$> l
  | SBool l => (fun b : bool => if b then 1%float else 0%float) <$> l
  | SObj _ | SGeom _ => []
  end.

(** [float(c)] for a cell of a column of texts: a missing cell is the float
    NaN. *)
Definition float_of_text `{Repr} (c : option string) : result float :=
  match c with
  | None => Ok nan
  | Some t =>
      match float_of_str t with
      | Some f => Ok f
      | None => Raise ValueError
      end
  end.

(** [np.asarray(s, dtype="float64")]: numpy converts the cells one after the
    other, a text with [float], and has no float for a geometry. *)
Definition to_float64 `{Repr} (s : series) : result (list float) :=
  match s with
  | SFloat _ | SInt _ | SBool _ => Ok (floats s)
  | SObj l => for_rows float_of_text l
  | SGeom [] => Ok []
  | SGeom (_ :: _) => Raise TypeError
  end.

(** [geopandas.points_from_xy(x, y)] *)
Definition points_from_xy `{Repr} (x y : series) : result (list geometry) :=
  xs ← to_float64 x;
  ys ← to_float64 y;
  Ok (zip_with Point xs ys).

(** A [geopandas.GeoDataFrame]: a data frame whose column [geometry] holds
    the geometries, and their CRS. *)
Record GeoDataFrame : Type := mkGeoDataFrame {
  gdf_frame : DataFrame;
  gdf_crs : crs;
}.

(** [geopandas.GeoDataFrame(df, geometry=geoms, crs=c)] *)
Definition GeoDataFrame_new (df : DataFrame) (geoms : list geometry) (c : crs)
    : GeoDataFrame :=
  mkGeoDataFrame (set_col "geometry" (SGeom geoms) df) c.

(** [gdf.geometry] *)
Definition gdf_geometry (gdf : GeoDataFrame) : result (list geometry) :=
  match assoc_get "geometry" (columns (gdf_frame gdf)) with
  | Some (SGeom l) => Ok l
  | _ => Raise AttributeError
  end.

(** [gdf[name] = s] *)
Definition gdf_set_col (name : string) (s : series) (gdf : GeoDataFrame)
    : GeoDataFrame :=
  mkGeoDataFrame (set_col name s (gdf_frame gdf)) (gdf_crs gdf).

(** [gdf.to_crs(dst)] *)
Definition gdf_to_crs `{GeoLib} (gdf : GeoDataFrame) (dst : crs)
    : result GeoDataFrame :=
  geoms ← gdf_geometry gdf;
  Ok (mkGeoDataFrame
        (set_col "geometry" (SGeom (geom_to_crs (gdf_crs gdf) dst <$> geoms))
           (gdf_frame gdf))
        dst).

(** [s.sum()] of a bool column: the number of true cells. *)
Definition sum_bool (l : list bool) : Z :=
  Z.of_nat (length (filter (fun b : bool => b = true) l)).

(** [gdf[col].sum()] for a column that [gdf.geometry.apply] has just
    returned, from a function that gives bools.  geopandas builds the result
    of [apply] with the constructor of a [GeoSeries], which takes a result
    without a cell for a column of geometries; pandas has no sum for such a
    column and raises [TypeError].  A result with cells is a column of
    bools. *)
Definition sum_flags (flags : list bool) : result Z :=
  match flags with
  | [] => Raise TypeError
  | _ :: _ => Ok (sum_bool flags)
  end.

(** [gdf[col] / MILES_TO_METERS] for a column that [gdf.geometry.apply] has
    just returned, from a function that gives floats.  A result in which
    every float is NaN holds missing values only and is taken for a column
    of geometries as well: the division raises [TypeError]. *)
Definition meters_to_miles (meters : list float) : result (list float) :=
  if forallb is_nan meters
  then Raise TypeError
  else Ok ((fun d => d / MILES_TO_METERS)%float <$> meters).

(** ** Console output and exceptions of the script *)

(** The lines printed so far, and the value or the exception raised. *)
Definition Script (A : Type) : Type := (list string * result A)%type.

#[global] Instance Script_ret : MRet Script := fun _ a => ([], Ok a).
#[global] Instance Script_bind : MBind Script := fun _ _ f m =>
  match m with
  | (out, Ok a) => let '(out', r) := f a in ((out ++ out')%list, r)
  | (out, Raise e) => (out, Raise e)
  end.

Definition print (line : string) : Script unit := ([line], Ok tt).
Definition raise {A} (e : exn) : Script A := ([], Raise e).
Definition lift {A} (r : result A) : Script A := ([], r).

(** [for x in l: s = body(x, s)] *)
Fixpoint for_each {A S} (l : list A) (body : A -> S -> Script S) (s : S)
    : Script S :=
  match l with
  | [] => mret s
  | x :: l' => s' ← body x s; for_each l' body s'
  end.

Definition NL : string := String (Ascii.ascii_of_nat 10) "".

(** ** Configuration

    [config.py] is not part of the published sources: its constants are the
    fields of this record.  [property_polygon] is the polygon that
    [wkt.loads(config.PROPERTY_COORDINATES_WKT_POLYGON)] returns. *)
Record Config : Type := mkConfig {
  PROJECTED_CRS : crs;
  GEOGRAPHIC_CRS : crs;
  BUFFER_RADII_MILES : list Z;
  MAX_MAP_DISTANCE_MILES : Z;
  property_polygon : geometry;
  APIARY_LON_DD : float;
  APIARY_LAT_DD : float;
}.

(** What the run finds outside the program: the table [pd.read_csv] returns,
    or nothing when the file is absent, and the exception text, if any, of
    the write to the SQLite database. *)
Record Environment : Type := mkEnvironment {
  cleaned_file : option DataFrame;
  sqlite_error : option string;
}.

Definition cleaned_file_path : string := "data/sludge_hub_cleaned_data.csv".
Definition output_csv_file_path : string :=
  "data/sludge_hub_analyzed_data_with_buffers.csv".
Definition output_db_file_path : string := "data/sludge_hub_observations.db".
Definition table_name : string := "inaturalist_observations_analyzed".

(** The f-string names of the zone columns. *)
Definition property_center_col (radius_miles : Z) : string :=
  "within_" +:+ pretty radius_miles +:+ "mile_property_center".
Definition apiary_center_col (radius_miles : Z) : string :=
  "within_" +:+ pretty radius_miles +:+ "mile_apiary_center".

(** The state the two buffer loops update: the table of observations and
    the list of buffers kept for the maps. *)
Definition zone_state : Type := (GeoDataFrame * list (Z * geometry))%type.

(** One turn of a buffer loop, for the center [center], the column name
    [col] and the label [label] of the printed line.  The count that is
    printed, [gdf_observations[col_name].sum()], is that of the column just
    assigned. *)
Definition zone_step `{GeoLib} (cfg : Config) (center : coord)
    (col : Z -> string) (label : string)
    (radius_miles : Z) (st : zone_state) : Script zone_state :=
  let '(gdf_observations, buffers) := st in
  buffer_polygon ← lift (create_geodesic_buffer center (NInt radius_miles)
                           (PROJECTED_CRS cfg) (GEOGRAPHIC_CRS cfg));
  let buffers := (buffers ++ [(radius_miles, buffer_polygon)])%list in
  let col_name := col radius_miles in
  geoms ← lift (gdf_geometry gdf_observations);
  let flags := contains buffer_polygon <$> geoms in
  let gdf_observations := gdf_set_col col_name (SBool flags) gdf_observations in
  num_within_buffer ← lift (sum_flags flags);
  print ("    Observations within " +:+ pretty radius_miles +:+ " mile(s) of "
         +:+ label +:+ ": " +:+ pretty num_within_buffer);;
  mret (gdf_observations, buffers).

(** What the script has computed when it turns to the maps. *)
Record Outcome : Type := mkOutcome {
  (** the table written to the CSV file and to the database *)
  df_analyzed_final : DataFrame;
  (** the table of observations, with the distance columns *)
  gdf_observations : GeoDataFrame;
  property_center_buffers : list (Z * geometry);
  apiary_center_buffers : list (Z * geometry);
  (** the observations handed to the two maps *)
  gdf_observations_for_map : DataFrame;
}.

(** ** The script

    [spatial_analysis.py] from its first statement to the distance filter.
    The two maps that follow read [gdf_observations_for_map] and the two
    lists of buffers and compute nothing further. *)
Definition spatial_analysis `{GeoLib} `{Repr} (cfg : Config) (env : Environment)
    : Script Outcome :=
  print "Property polygon created successfully!";;
  let property_center := centroid (property_polygon cfg) in
  print ("Property Center (Lon, Lat): (" +:+ float_str (fst property_center)
         +:+ ", " +:+ float_str (snd property_center) +:+ ")");;
  let apiary_center := (APIARY_LON_DD cfg, APIARY_LAT_DD cfg) in
  print ("Apiary Center (Lon, Lat): (" +:+ float_str (fst apiary_center)
         +:+ ", " +:+ float_str (snd apiary_center) +:+ ")");;
  (* Load data *)
  df_cleaned ←
    match cleaned_file env with
    | Some df =>
        print ("Loaded " +:+ pretty (len df) +:+ " observations from "
               +:+ cleaned_file_path);;
        mret df
    | None =>
        print ("Error: " +:+ cleaned_file_path +:+ " not found. Please ensure the "
               +:+ "'inat_data_pull.py' script has been run or the file exists in "
               +:+ "the correct 'data' directory.");;
        raise SystemExit
    end;
  (* Missing coordinates *)
  let original_len := len df_cleaned in
  df_cleaned ← lift (dropna ["latitude"; "longitude"] df_cleaned);
  (if bool_decide (len df_cleaned < original_len)
   then print ("Removed " +:+ pretty (original_len - len df_cleaned)
               +:+ " rows with missing latitude/longitude.")
   else mret tt);;
  longitude ← lift (get_col "longitude" df_cleaned);
  latitude ← lift (get_col "latitude" df_cleaned);
  points ← lift (points_from_xy longitude latitude);
  let gdf_observations := GeoDataFrame_new df_cleaned points (GEOGRAPHIC_CRS cfg) in
  (* Property boundary *)
  geoms ← lift (gdf_geometry gdf_observations);
  let within_property := contains (property_polygon cfg) <$> geoms in
  let gdf_observations :=
    gdf_set_col "within_property" (SBool within_property) gdf_observations in
  num_within_property ← lift (sum_flags within_property);
  print ("Number of observations within your property: "
         +:+ pretty num_within_property);;
  let count_outside_property :=
    len (gdf_frame gdf_observations) - num_within_property in
  print ("Total observations outside your property: "
         +:+ pretty count_outside_property);;
  print (NL +:+ "Sample observations within your property:");;
  print (frame_str (head 5 (select_rows within_property (gdf_frame gdf_observations))));;
  (* Buffer zones *)
  print (NL +:+ "--- Analyzing Circular Buffer Zones ---");;
  print (NL +:+ "  - Buffers around Property Center:");;
  '(gdf_observations, property_center_buffers) ←
    for_each (BUFFER_RADII_MILES cfg)
      (zone_step cfg property_center property_center_col "Property Center")
      (gdf_observations, []);
  print (NL +:+ "  - Buffers around Apiary Center:");;
  '(gdf_observations, apiary_center_buffers) ←
    for_each (BUFFER_RADII_MILES cfg)
      (zone_step cfg apiary_center apiary_center_col "Apiary Center")
      (gdf_observations, []);
  (* Save *)
  df_analyzed_final ← lift (drop_col "geometry" (gdf_frame gdf_observations));
  print (NL +:+ "Analyzed data with buffer zones saved to " +:+ output_csv_file_path);;
  match sqlite_error env with
  | None =>
      print ("Analyzed data also saved to SQLite database: " +:+ output_db_file_path
             +:+ " in table '" +:+ table_name +:+ "'")
  | Some e => print ("Error saving data to SQLite database: " +:+ e)
  end;;
  (* Distance from the property center *)
  print (NL +:+ "--- Preparing Observations for Map Visualization ---");;
  property_center_proj ←
    lift (iloc (GeoSeries_to_crs
                  (mkGeoSeries [Point_of property_center] (GEOGRAPHIC_CRS cfg))
                  (PROJECTED_CRS cfg)) 0);
  gdf_observations_proj ← lift (gdf_to_crs gdf_observations (PROJECTED_CRS cfg));
  geoms_proj ← lift (gdf_geometry gdf_observations_proj);
  let meters := (fun obs_point_proj => distance obs_point_proj property_center_proj)
                  <$> geoms_proj in
  let gdf_observations :=
    gdf_set_col "distance_from_property_center_meters" (SFloat meters)
      gdf_observations in
  miles ← lift (meters_to_miles meters);
  let gdf_observations :=
    gdf_set_col "distance_from_property_center_miles" (SFloat miles)
      gdf_observations in
  let near := (fun d => d <=? float_of_int (MAX_MAP_DISTANCE_MILES cfg))%float
                <$> miles in
  let gdf_observations_for_map := select_rows near (gdf_frame gdf_observations) in
  print ("Filtered " +:+ pretty (len (gdf_frame gdf_observations))
         +:+ " total observations to " +:+ pretty (len gdf_observations_for_map)
         +:+ " for map visualization (within "
         +:+ pretty (MAX_MAP_DISTANCE_MILES cfg)
         +:+ " miles of property center).");;
  mret (mkOutcome df_analyzed_final gdf_observations property_center_buffers
          apiary_center_buffers gdf_observations_for_map).

(** ** A small deployment to run the script on

    A stand-in for the geometry libraries near the 80th meridian west and
    the 39th parallel north, in the UTM zone of the deployment: the
    projection is linear in the degrees, with the meters a degree is worth
    there, and sends a coordinate off the globe or out of reach of the zone
    to infinity, as pyproj does; a buffer is the regular octagon inscribed
    in the circle;
    containment is decided by counting the crossings of a ray, the ring
    itself standing outside; the centroid is that of the exterior ring,
    weighted by area. *)
Module Toy.

(** The meters a degree of longitude and a degree of latitude are worth. *)
Definition east : float := 86500%float.
Definition north : float := 111000%float.

(** Within 80 degrees of the central meridian of the zone, 81 degrees west,
    and between the poles. *)
Definition in_reach (c : coord) : bool :=
  ((abs (fst c + 81) <=? 80) && (abs (snd c) <=? 90))%float.

Definition toy_transform (src dst : crs) (c : coord) : coord :=
  if decide (src = dst) then c
  else if decide (dst = "EPSG:4326")
       then ((fst c - 500000) / east - 81, snd c / north)%float
       else if in_reach c
            then (500000 + (fst c + 81) * east, snd c * north)%float
            else (infinity, infinity).

(** [sqrt(2) / 2] *)
Definition diagonal : float := 0.7071067811865476%float.

Definition toy_buffer (g : geometry) (d : float) : geometry :=
  match g with
  | Point x y =>
      if (0 <? d)%float
      then
        let k := (d * diagonal)%float in
        Polygon [(x + d, y); (x + k, y - k); (x, y - d); (x - k, y - k);
                 (x - d, y); (x - k, y + k); (x, y + d); (x + k, y + k);
                 (x + d, y)]%float []
      else Polygon [] []
  | Polygon _ _ => g
  end.

(** The sides of a ring. *)
Fixpoint sides (ring : list coord) : list (coord * coord) :=
  match ring with
  | a :: (b :: _) as ring' => (a, b) :: sides ring'
  | _ => []
  end.

(** The ray from [p] to the east crosses the side. *)
Definition crosses (p : coord) (side : coord * coord) : bool :=
  let '((x1, y1), (x2, y2)) := side in
  let '(px, py) := p in
  (negb (Bool.eqb (py <? y1) (py <? y2))
   && (px <? x1 + (py - y1) * (x2 - x1) / (y2 - y1)))%float.

(** [p] lies on the side. *)
Definition on_side (p : coord) (side : coord * coord) : bool :=
  let '((x1, y1), (x2, y2)) := side in
  let '(px, py) := p in
  (((x2 - x1) * (py - y1) - (y2 - y1) * (px - x1) =? 0)
   && ((x1 <=? px) && (px <=? x2) || (x2 <=? px) && (px <=? x1))
   && ((y1 <=? py) && (py <=? y2) || (y2 <=? py) && (py <=? y1)))%float.

Definition on_ring (ring : list coord) (p : coord) : bool :=
  existsb (on_side p) (sides ring).

Definition within_ring (ring : list coord) (p : coord) : bool :=
  foldr (fun side odd => xorb (crosses p side) odd) false (sides ring)
  && negb (on_ring ring p).

Definition toy_contains (a b : geometry) : bool :=
  match a, b with
  | Polygon shell holes, Point x y =>
      within_ring shell (x, y)
      && forallb (fun hole => negb (within_ring hole (x, y) || on_ring hole (x, y)))
           holes
  | Point x y, Point x' y' => ((x =? x') && (y =? y'))%float
  | _, _ => false
  end.

Definition toy_distance (a b : geometry) : float :=
  match a, b with
  | Point x y, Point x' y' =>
      PrimFloat.sqrt ((x - x') * (x - x') + (y - y') * (y - y'))%float
  | _, _ => 0%float
  end.

(** Twice the area of the triangle the side makes with the base point, and
    that area times the sums of the coordinates of its three vertices. *)
Definition triangle (base : coord) (side : coord * coord) : float * float * float :=
  let '((x1, y1), (x2, y2)) := side in
  let '(ox, oy) := base in
  let area2 := ((x1 - ox) * (y2 - oy) - (x2 - ox) * (y1 - oy))%float in
  (area2 * (ox + x1 + x2), area2 * (oy + y1 + y2), area2)%float.

Definition toy_centroid (g : geometry) : coord :=
  match g with
  | Point x y => (x, y)
  | Polygon [] _ => (nan, nan)
  | Polygon (base :: _ as shell) _ =>
      let '(sx, sy, area2) :=
        foldr (fun side acc =>
                 let '(tx, ty, t) := triangle base side in
                 let '(sx, sy, s) := acc in
                 (tx + sx, ty + sy, t + s)%float)
          (0, 0, 0)%float (sides shell) in
      (sx / (3 * area2), sy / (3 * area2))%float
  end.

#[export] Instance lib : GeoLib := {|
  transform := toy_transform;
  buffer := toy_buffer;
  contains := toy_contains;
  distance := toy_distance;
  centroid := toy_centroid;
|}.

#[export] Instance repr : Repr := {|
  float_str := fun _ => "<float>";
  float_of_str := fun _ => None;
  frame_str := fun _ => "<frame>";
|}.

(** A property of a hundredth of a degree on each side, and an apiary on
    it. *)
Definition cfg (radii : list Z) : Config := {|
  PROJECTED_CRS := "EPSG:32617";
  GEOGRAPHIC_CRS := "EPSG:4326";
  BUFFER_RADII_MILES := radii;
  MAX_MAP_DISTANCE_MILES := 20;
  property_polygon :=
    Polygon [(-80.01, 39); (-80.01, 39.01); (-80, 39.01); (-80, 39);
             (-80.01, 39)]%float [];
  APIARY_LON_DD := (-80.004)%float;
  APIARY_LAT_DD := 39.004%float;
|}.

(** A property on the Greenwich meridian, out of reach of the zone. *)
Definition far_cfg (radii : list Z) : Config := {|
  PROJECTED_CRS := "EPSG:32617";
  GEOGRAPHIC_CRS := "EPSG:4326";
  BUFFER_RADII_MILES := radii;
  MAX_MAP_DISTANCE_MILES := 20;
  property_polygon :=
    Polygon [(0.5, 0.5); (0.5, 1.5); (1.5, 1.5); (1.5, 0.5); (0.5, 0.5)]%float [];
  APIARY_LON_DD := 2;
  APIARY_LAT_DD := 2;
|}.

Definition table (lat lon : list float) : DataFrame := {|
  index := Z.of_nat <$> seq 0 (length lat);
  columns := [("id", SInt (Z.of_nat <$> seq 101 (length lat)));
              ("latitude", SFloat lat);
              ("longitude", SFloat lon);
              ("taxon.name", SObj ((fun _ => Some "Apis mellifera") <$> lat))];
|}.

Definition env (df : DataFrame) : Environment := {|
  cleaned_file := Some df;
  sqlite_error := None;
|}.

End Toy.

(** Four observations: one in the middle of the property, one without a
    latitude, one at latitude 95, and one east of the property, less than a
    mile from its center. *)
Definition toy_latitude : list float := [39.005; nan; 95; 39.005]%float.
Definition toy_longitude : list float := [-80.005; -80; -80.005; -79.995]%float.

(** Two observations with both coordinates. *)
Definition full_latitude : list float := [39.005; 39.005]%float.
Definition full_longitude : list float := [-80.005; -79.995]%float.

(** ** The run in closed form

    The columns and the polygons the script computes, written as functions of
    its inputs; the theorems below relate them to [spatial_analysis]. *)

(** A radius the buffer generator accepts: an int that Python converts to a
    float, and whose length in meters is finite. *)
Definition float_range (n : Z) : Prop :=
  is_infinity (float_of_int n) = false
  /\ is_finite (float_of_int n * MILES_TO_METERS)%float = true.

(** The buffer around [center] for a radius taken from the configuration. *)
Definition zone_polygon `{GeoLib} (cfg : Config) (center : coord) (radius_miles : Z)
    : geometry :=
  geom_to_crs (PROJECTED_CRS cfg) (GEOGRAPHIC_CRS cfg)
    (buffer (geom_to_crs (GEOGRAPHIC_CRS cfg) (PROJECTED_CRS cfg) (Point_of center))
       (float_of_int radius_miles * MILES_TO_METERS)%float).

(** The rows [dropna] keeps, given the two coordinate columns. *)
Definition kept_rows (df : DataFrame) (latitude longitude : series) : list bool :=
  zip_with (fun na keep => negb na && keep) (series_isna latitude)
    (zip_with (fun na keep => negb na && keep) (series_isna longitude)
       (replicate (length (index df)) true)).

(** The points of the observations that are kept. *)
Definition observation_points (df : DataFrame) (latitude longitude : series)
    : list geometry :=
  let keep := kept_rows df latitude longitude in
  zip_with Point (select keep (floats longitude)) (select keep (floats latitude)).

Definition zone_flags `{GeoLib} (cfg : Config) (center : coord)
    (points : list geometry) (radius_miles : Z) : series :=
  SBool (contains (zone_polygon cfg center radius_miles) <$> points).

(** The zone columns of one center, set one after the other. *)
Definition add_zones `{GeoLib} (cfg : Config) (center : coord) (col : Z -> string)
    (points : list geometry) (radii : list Z) (df : DataFrame) : DataFrame :=
  foldl (fun df r => set_col (col r) (zone_flags cfg center points r) df) df radii.

(** The table of observations after the two buffer loops. *)
Definition classified `{GeoLib} (cfg : Config) (df : DataFrame)
    (latitude longitude : series) : DataFrame :=
  let keep := kept_rows df latitude longitude in
  let points := observation_points df latitude longitude in
  add_zones cfg (APIARY_LON_DD cfg, APIARY_LAT_DD cfg) apiary_center_col points
    (BUFFER_RADII_MILES cfg)
    (add_zones cfg (centroid (property_polygon cfg)) property_center_col points
       (BUFFER_RADII_MILES cfg)
       (set_col "within_property" (SBool (contains (property_polygon cfg) <$> points))
          (set_col "geometry" (SGeom points) (select_rows keep df)))).

(** The distances, in meters, between the projected observations and the
    projected property center. *)
Definition meters_from_property_center `{GeoLib} (cfg : Config)
    (points : list geometry) : list float :=
  let property_center_proj :=
    geom_to_crs (GEOGRAPHIC_CRS cfg) (PROJECTED_CRS cfg)
      (Point_of (centroid (property_polygon cfg))) in
  (fun obs_point_proj => distance obs_point_proj property_center_proj)
    <$> (geom_to_crs (GEOGRAPHIC_CRS cfg) (PROJECTED_CRS cfg) <$> points).

(** The inputs the script reads without an error: the file is there, its
    column names are distinct, its two coordinate columns convert to floats,
    and the buffer generator accepts every radius. *)
Record readable `{Repr} (cfg : Config) (env : Environment) (df : DataFrame)
    (latitude longitude : series) : Prop := {
  readable_file : cleaned_file env = Some df;
  readable_names : NoDup (column_names df);
  readable_latitude : assoc_get "latitude" (columns df) = Some latitude;
  readable_longitude : assoc_get "longitude" (columns df) = Some longitude;
  numeric_latitude : to_float64 latitude = Ok (floats latitude);
  numeric_longitude : to_float64 longitude = Ok (floats longitude);
  readable_radii : Forall float_range (BUFFER_RADII_MILES cfg);
}.

(** An observation has both coordinates: the classification has a row. *)
Definition some_row (df : DataFrame) (latitude longitude : series) : Prop :=
  observation_points df latitude longitude <> [].

(** An observation has a distance from the property center that is a
    number. *)
Definition some_distance `{GeoLib} (cfg : Config) (df : DataFrame)
    (latitude longitude : series) : Prop :=
  forallb is_nan
    (meters_from_property_center cfg (observation_points df latitude longitude))
  = false.

(** A column name the script never assigns to. *)
Definition fresh (name : string) : Prop :=
  name <> "geometry" /\ String.prefix "within_" name = false.

(** The columns [inat_data_pull.py] writes to the cleaned file. *)
Definition selected_columns : list string :=
  ["id"; "uri"; "observed_on"; "latitude"; "longitude";
   "quality_grade"; "public_positional_accuracy";
   "taxon.name"; "taxon.preferred_common_name"; "taxon.rank";
   "user.login"; "license_code"].

(** What the script returns when it runs to the distance filter. *)
Definition outcome_of `{GeoLib} (cfg : Config) (df : DataFrame)
    (latitude longitude : series) : Outcome :=
  let points := observation_points df latitude longitude in
  let table := classified cfg df latitude longitude in
  let meters := meters_from_property_center cfg points in
  let miles := (fun d => d / MILES_TO_METERS)%float <$> meters in
  let near := (fun d => d <=? float_of_int (MAX_MAP_DISTANCE_MILES cfg))%float
                <$> miles in
  let final :=
    set_col "distance_from_property_center_miles" (SFloat miles)
      (set_col "distance_from_property_center_meters" (SFloat meters) table) in
  {| df_analyzed_final :=
       mkDataFrame (index table) (filter (fun c => c.1 ≠ "geometry") (columns table));
     gdf_observations := mkGeoDataFrame final (GEOGRAPHIC_CRS cfg);
     property_center_buffers :=
       (fun r => (r, zone_polygon cfg (centroid (property_polygon cfg)) r))
         <$> BUFFER_RADII_MILES cfg;
     apiary_center_buffers :=
       (fun r => (r, zone_polygon cfg (APIARY_LON_DD cfg, APIARY_LAT_DD cfg) r))
         <$> BUFFER_RADII_MILES cfg;
     gdf_observations_for_map := select_rows near final |}.

(** Every column has one cell per row. *)
Definition well_formed (df : DataFrame) : Prop :=
  Forall (fun c => series_len c.2 = length (index df)) (columns df).

(** No cell of the column is missing. *)
Definition complete (s : series) : Prop := Forall (fun na => na = false) (series_isna s).

(** The lines [spatial_analysis.py] prints before it reads the cleaned file. *)
Definition opening_lines `{GeoLib} `{Repr} (cfg : Config) : list string :=
  ["Property polygon created successfully!";
   "Property Center (Lon, Lat): ("
     +:+ float_str (fst (centroid (property_polygon cfg)))
     +:+ ", " +:+ float_str (snd (centroid (property_polygon cfg))) +:+ ")";
   "Apiary Center (Lon, Lat): (" +:+ float_str (APIARY_LON_DD cfg)
     +:+ ", " +:+ float_str (APIARY_LAT_DD cfg) +:+ ")"].

(** * The data pull

    [pull_inaturalist_data] of [src/inat_data_pull.py].  The iNaturalist
    server is a function from the request to what [requests.get] gives back;
    the function asks for every page once.  The state of the loop is passed
    from turn to turn, with the lines printed, the requests sent and the
    seconds slept.  The loop is [while True]: the embedding runs it for a
    given number of turns. *)

Section InatDataPull.

(** A raw observation, one JSON object of the list [results]. *)
Variable observation : Type.

(** The parameters of one [requests.get]. *)
Record Request : Type := mkRequest {
  req_url : string;
  req_project_id : string;
  req_per_page : Z;
  req_page : Z;
  req_order_by : string;
  req_order : string;
}.

(** What the function reads of a parsed body: the two keys, when present. *)
Record Data : Type := mkData {
  data_total_results : option Z;
  data_results : option (list observation);
}.

(** A response: the text of the [HTTPError] that [raise_for_status] raises
    for it, if any, its text, and its body parsed as JSON, if it is JSON. *)
Record Response : Type := mkResponse {
  status_error : option string;
  text : string;
  json : option Data;
}.

(** [requests.get] raises, or returns a response. *)
Inductive reply : Type :=
  | Failed
  | Replied (response : Response).

(** The exceptions the function lets through. *)
Inductive pull_exn : Type :=
  | RequestException
  | JSONDecodeError.

Record PullState : Type := mkPullState {
  all_observations : list observation;
  page : Z;
  total_results : option Z;
  output : list string;
  requests : list Request;
  slept : nat;
}.

Definition say (line : string) (st : PullState) : PullState :=
  mkPullState (all_observations st) (page st) (total_results st)
    (output st ++ [line]) (requests st) (slept st).

Definition sent (request : Request) (st : PullState) : PullState :=
  mkPullState (all_observations st) (page st) (total_results st)
    (output st) (requests st ++ [request]) (slept st).

Definition set_total_results (total : Z) (st : PullState) : PullState :=
  mkPullState (all_observations st) (page st) (Some total)
    (output st) (requests st) (slept st).

(** [all_observations.extend(observations)] *)
Definition extend (observations : list observation) (st : PullState) : PullState :=
  mkPullState (all_observations st ++ observations) (page st) (total_results st)
    (output st) (requests st) (slept st).

(** [page += 1; time.sleep(1)] *)
Definition next_page (st : PullState) : PullState :=
  mkPullState (all_observations st) (page st + 1) (total_results st)
    (output st) (requests st) (S (slept st)).

Inductive step_result : Type :=
  | Continue (st : PullState)
  | Break (st : PullState)
  | Crash (e : pull_exn) (st : PullState).

(** One turn of the [while True] loop. *)
Definition pull_step (requests_get : Request -> reply)
    (project_id base_url : string) (per_page : Z) (st : PullState) : step_result :=
  let params := mkRequest base_url project_id per_page (page st) "id" "asc" in
  let st := say ("Fetching page " +:+ pretty (page st) +:+ "...") st in
  let st := sent params st in
  match requests_get params with
  | Failed => Crash RequestException st
  | Replied response =>
      match status_error response with
      | Some e =>
          let st := say ("Error fetching data: " +:+ e) st in
          let st := say ("Response content: " +:+ text response) st in
          Break st
      | None =>
          match json response with
          | None => Crash JSONDecodeError st
          | Some data =>
              let first :=
                match total_results st with
                | None =>
                    let total := default 0 (data_total_results data) in
                    let st := set_total_results total st in
                    let st :=
                      say ("Total observations in project (reported by API): "
                           +:+ pretty total) st in
                    if decide (total = 0)
                    then inr (say ("No observations found in the project. "
                                   +:+ "Exiting data pull.") st)
                    else inl st
                | Some _ => inl st
                end in
              match first with
              | inr st => Break st
              | inl st =>
                  let observations := default [] (data_results data) in
                  match observations with
                  | [] =>
                      Break (say ("Page " +:+ pretty (page st)
                                  +:+ " returned no observations. "
                                  +:+ "Assuming all data fetched.") st)
                  | _ :: _ =>
                      let st := extend observations st in
                      let st :=
                        say ("DEBUG: Fetched "
                             +:+ pretty (Z.of_nat (length observations))
                             +:+ " observations on page " +:+ pretty (page st)
                             +:+ ". Total collected so far: "
                             +:+ pretty (Z.of_nat (length (all_observations st)))) st in
                      Continue (next_page st)
                  end
              end
          end
      end
  end.

(** The loop, for at most [fuel] turns: the exception that ended it, if one
    did, and the state it ended in; nothing when the turns run out. *)
Fixpoint pull_loop (fuel : nat) (requests_get : Request -> reply)
    (project_id base_url : string) (per_page : Z) (st : PullState)
    : option (option pull_exn * PullState) :=
  match fuel with
  | O => None
  | S fuel' =>
      match pull_step requests_get project_id base_url per_page st with
      | Continue st' => pull_loop fuel' requests_get project_id base_url per_page st'
      | Break st' => Some (None, st')
      | Crash e st' => Some (Some e, st')
      end
  end.

(** The line printed after the loop. *)
Definition summary (st : PullState) : string :=
  let collected := Z.of_nat (length (all_observations st)) in
  match total_results st with
  | Some total =>
      if bool_decide (collected < total)
      then "Warning: Expected " +:+ pretty total
           +:+ " observations based on initial API report, but only collected "
           +:+ pretty collected +:+ ". Data pull might be incomplete."
      else if bool_decide (collected = total)
      then "Successfully fetched all " +:+ pretty total +:+ " observations."
      else "Data pull completed. Total observations collected: " +:+ pretty collected
  | None => "Data pull completed. Total observations collected: " +:+ pretty collected
  end.

(** How a call ends: with the list it returns, or with an exception. *)
Inductive pull_outcome : Type :=
  | Returned (observations : list observation) (st : PullState)
  | Raised (e : pull_exn) (st : PullState).

Definition pull_inaturalist_data (fuel : nat) (requests_get : Request -> reply)
    (project_id base_url : string) (per_page : Z) : option pull_outcome :=
  let st :=
    mkPullState [] 1 None
      ["Starting data pull for iNaturalist project ID: " +:+ project_id] [] 0 in
  match pull_loop fuel requests_get project_id base_url per_page st with
  | None => None
  | Some (Some e, st) => Some (Raised e st)
  | Some (None, st) => Some (Returned (all_observations st) (say (summary st) st))
  end.

(** The request for page [p]. *)
Definition page_request (project_id base_url : string) (per_page p : Z) : Request :=
  mkRequest base_url project_id per_page p "id" "asc".

(** The server answers the request for page [p] with a success status and a
    JSON body that reads as [data]. *)
Definition serves (requests_get : Request -> reply)
    (project_id base_url : string) (per_page p : Z) (data : Data) : Prop :=
  exists txt,
    requests_get (page_request project_id base_url per_page p)
    = Replied (mkResponse None txt (Some data)).

(** The pages [1, 2, ...] of the server hold the lists [pages], none of them
    empty, and the first announces the total [total], which is not zero. *)
Definition serves_pages (requests_get : Request -> reply)
    (project_id base_url : string) (per_page : Z)
    (total : Z) (pages : list (list observation)) : Prop :=
  total <> 0
  /\ forall i obs, pages !! i = Some obs ->
       obs <> []
       /\ exists announced,
            serves requests_get project_id base_url per_page (Z.of_nat i + 1)
              (mkData announced (Some obs))
            /\ (i = 0%nat -> announced = Some total).

End InatDataPull.

Arguments mkData {observation} _ _.
Arguments mkResponse {observation} _ _ _.
Arguments Failed {observation}.
Arguments Replied {observation} _.
Arguments Returned {observation} _ _.
Arguments Raised {observation} _ _.
Arguments status_error {observation} _.
Arguments text {observation} _.
Arguments json {observation} _.
Arguments data_total_results {observation} _.
Arguments data_results {observation} _.
Arguments all_observations {observation} _.
Arguments page {observation} _.
Arguments total_results {observation} _.
Arguments output {observation} _.
Arguments requests {observation} _.
Arguments slept {observation} _.

Definition BASE_URL : string := "https://api.inaturalist.org/v1/observations".
Definition PER_PAGE : Z := 200.

(** The columns of the cleaned file: those of [selected_columns] that the
    normalized table has. *)
Definition actual_columns (df_columns : list string) : list string :=
  filter (fun col => col ∈ df_columns) selected_columns.

(** * Degrees, minutes and seconds

    [dms_to_dd] of [src/spatial_analysis.py]. *)

(** [str.upper()] on ASCII text: the letters a to z go to A to Z. *)
Definition ascii_upper (c : Ascii.ascii) : Ascii.ascii :=
  let n := Ascii.nat_of_ascii c in
  if bool_decide (97 <= n <= 122)%nat then Ascii.ascii_of_nat (n - 32) else c.

Fixpoint upper (s : string) : string :=
  match s with
  | EmptyString => EmptyString
  | String c s' => String (ascii_upper c) (upper s')
  end.

(** Text made of ASCII characters only. *)
Fixpoint ascii_only (s : string) : Prop :=
  match s with
  | EmptyString => True
  | String c s' => (Ascii.nat_of_ascii c < 128)%nat /\ ascii_only s'
  end.

(** [float(n)] for a Python int, which raises when [n] is too large. *)
Definition to_float (n : Z) : result float :=
  let f := float_of_int n in
  if is_infinity f then Raise OverflowError else Ok f.

Definition dms_to_dd (degrees minutes seconds : Z) (direction : string)
    : result float :=
  d ← to_float degrees;
  m ← to_float minutes;
  s ← to_float seconds;
  let dd := (d + m / float_of_int 60 + s / float_of_int (60 * 60))%float in
  Ok (if bool_decide (upper direction ∈ ["S"; "W"]) then (dd * -1)%float else dd).

(** * The maps

    The two folium maps of [src/spatial_analysis.py].  A map is the list of
    the layers added to it, in the order they are added. *)

(** A cell of a row of [df.iterrows()].  The table handed to the maps has
    columns of several dtypes, so its rows keep the cells as they are. *)
Inductive cell : Type :=
  | CFloat (f : float)
  | CInt (n : Z)
  | CObj (o : option string)
  | CBool (b : bool)
  | CGeom (g : geometry).

Definition series_cells (s : series) : list cell :=
  match s with
  | SFloat l => CFloat <$> l
  | SInt l => CInt <$> l
  | SObj l => CObj <$> l
  | SBool l => CBool <$> l
  | SGeom l => CGeom <$> l
  end.

(** [row[name]] for the row at position [i]: a name that is not a column
    raises [KeyError].  (A column of a pandas frame has a cell for every
    row; [IndexError] stands for a table that has not.) *)
Definition row_get (df : DataFrame) (i : nat) (name : string) : result cell :=
  s ← get_col name df;
  match series_cells s !! i with
  | Some c => Ok c
  | None => Raise IndexError
  end.

(** [pd.notna(c)] *)
Definition notna (c : cell) : bool :=
  match c with
  | CFloat f => negb (is_nan f)
  | CObj None => false
  | _ => true
  end.

(** The truth value of a cell in an [if]; a missing text is the float NaN,
    which is not zero. *)
Definition truthy (c : cell) : bool :=
  match c with
  | CBool b => b
  | CInt n => negb (n =? 0)%Z
  | CFloat f => negb (f =? 0)%float
  | CObj (Some s) => negb (String.eqb s "")
  | CObj None => true
  | CGeom (Point _ _) => true
  | CGeom (Polygon shell _) => negb (bool_decide (shell = []))
  end.

(** How shapely prints a geometry. *)
Class GeomRepr : Type := {
  geom_str : geometry -> string;
}.

(** A cell in an f-string. *)
Definition cell_str `{Repr} `{GeomRepr} (c : cell) : string :=
  match c with
  | CFloat f => float_str f
  | CInt n => pretty n
  | CObj (Some s) => s
  | CObj None => "nan"
  | CBool true => "True"
  | CBool false => "False"
  | CGeom g => geom_str g
  end.

(** The dict a [style_function] returns. *)
Record Style : Type := mkStyle {
  fillColor : string;
  style_color : string;
  weight : Z;
  fillOpacity : float;
}.

Inductive layer : Type :=
  | GeoJson (data : geometry) (name : string) (style : Style)
  | CircleMarker (location : cell * cell) (radius : Z) (color : string)
      (fill : bool) (fill_color : string) (fill_opacity : float)
      (tooltip : string)
  | LayerControl.

Record FoliumMap : Type := mkFoliumMap {
  map_location : coord;
  zoom_start : Z;
  map_layers : list layer;
}.

(** [any(row[col(r)] for r in radii)]: the cells are read until one is true. *)
Fixpoint any_zone (df : DataFrame) (i : nat) (col : Z -> string) (radii : list Z)
    : result bool :=
  match radii with
  | [] => Ok false
  | r :: radii' =>
      c ← row_get df i (col r);
      if truthy c then Ok true else any_zone df i col radii'
  end.

(** The marker of the row at position [i], on the map whose zone columns
    are named by [col]. *)
Definition observation_marker `{Repr} `{GeomRepr} (cfg : Config)
    (col : Z -> string) (df : DataFrame) (i : nat) : result layer :=
  obs_lat ← row_get df i "latitude";
  obs_lon ← row_get df i "longitude";
  obs_id ← row_get df i "id";
  common_name ← row_get df i "taxon.preferred_common_name";
  obs_taxon ← (if notna common_name
               then row_get df i "taxon.preferred_common_name"
               else row_get df i "taxon.name");
  within_property ← row_get df i "within_property";
  '(color_val, radius_val) ←
    (if truthy within_property then Ok ("red", 5)
     else
       near ← any_zone df i col (BUFFER_RADII_MILES cfg);
       Ok (if near : bool then ("orange", 3) else ("blue", 2)));
  shown ← row_get df i "within_property";
  Ok (CircleMarker (obs_lat, obs_lon) radius_val color_val true color_val
        0.7%float
        ("ID: " +:+ cell_str obs_id +:+ "<br>Species: " +:+ cell_str obs_taxon
         +:+ "<br>Within Property: " +:+ cell_str shown)).

(** One map: the buffers, the markers of the rows of [df] in their order,
    and the layer control. *)
Definition draw_map `{Repr} `{GeomRepr} (cfg : Config) (center : coord)
    (buffers : list (Z * geometry)) (label shade : string)
    (col : Z -> string) (df : DataFrame) : result FoliumMap :=
  let zones :=
    (fun b : Z * geometry =>
       GeoJson b.2 (pretty b.1 +:+ " Mile Buffer (" +:+ label +:+ ")")
         (mkStyle shade shade 1 0.1%float)) <$> buffers in
  markers ← for_rows (observation_marker cfg col df) (seq 0 (length (index df)));
  Ok (mkFoliumMap (snd center, fst center) 12
        (zones ++ markers ++ [LayerControl])).

Definition map1_file_path : string := "docs/maps/sludge_hub_map_property_center.html".
Definition map2_file_path : string := "docs/maps/sludge_hub_map_apiary_center.html".

(** The part of the script that draws and saves the two maps. *)
Definition render_maps `{GeoLib} `{Repr} `{GeomRepr} (cfg : Config) (out : Outcome)
    : Script (FoliumMap * FoliumMap) :=
  print (NL +:+ "--- Generating Map 1: Property Center Buffers ---");;
  m_property_center ←
    lift (draw_map cfg (centroid (property_polygon cfg))
            (property_center_buffers out) "Property Center" "#0000FF"
            property_center_col (gdf_observations_for_map out));
  print ("Interactive Map 1 (Property Center Buffers) saved to " +:+ map1_file_path);;
  print (NL +:+ "--- Generating Map 2: Apiary Center Buffers ---");;
  m_apiary_center ←
    lift (draw_map cfg (APIARY_LON_DD cfg, APIARY_LAT_DD cfg)
            (apiary_center_buffers out) "Apiary Center" "#00FF00"
            apiary_center_col (gdf_observations_for_map out));
  print ("Interactive Map 2 (Apiary Center Buffers) saved to " +:+ map2_file_path);;
  mret (m_property_center, m_apiary_center).

(** The whole of [spatial_analysis.py]. *)
Definition spatial_analysis_with_maps `{GeoLib} `{Repr} `{GeomRepr}
    (cfg : Config) (env : Environment)
    : Script (Outcome * (FoliumMap * FoliumMap)) :=
  out ← spatial_analysis cfg env;
  maps ← render_maps cfg out;
  mret (out, maps).

(** ** The maps in closed form *)

(** The cell of column [name] at position [i], when there is one. *)
Definition cell_at (df : DataFrame) (i : nat) (name : string) : option cell :=
  s ← assoc_get name (columns df); series_cells s !! i.

(** Colour and radius of a marker, given whether the observation is within
    the property and whether it is within a buffer of the map's center. *)
Definition marker_style (within near : bool) : string * Z :=
  if within then ("red", 5) else if near then ("orange", 3) else ("blue", 2).

(** The marker of the row at position [i], from the cells of the row. *)
Definition marker_of `{Repr} `{GeomRepr} (cfg : Config) (col : Z -> string) (df : DataFrame)
    (i : nat) : layer :=
  let cell name := default (CObj None) (cell_at df i name) in
  let obs_taxon :=
    if notna (cell "taxon.preferred_common_name")
    then cell "taxon.preferred_common_name" else cell "taxon.name" in
  let style :=
    marker_style (truthy (cell "within_property"))
      (existsb (fun r => from_option truthy false (cell_at df i (col r)))
         (BUFFER_RADII_MILES cfg)) in
  CircleMarker (cell "latitude", cell "longitude") style.2 style.1 true style.1
    0.7%float
    ("ID: " +:+ cell_str (cell "id") +:+ "<br>Species: " +:+ cell_str obs_taxon
     +:+ "<br>Within Property: " +:+ cell_str (cell "within_property")).

(** The table has a cell for every row in every column the maps read: the
    coordinates, the identifier, the two names, and the flags. *)
Record drawable (cfg : Config) (col : Z -> string) (df : DataFrame) : Prop := {
  drawable_rows : well_formed df;
  drawable_columns :
    Forall (fun name => is_Some (assoc_get name (columns df)))
      ["latitude"; "longitude"; "id"; "taxon.preferred_common_name";
       "taxon.name"; "within_property"];
  drawable_zones :
    Forall (fun r => is_Some (assoc_get (col r) (columns df)))
      (BUFFER_RADII_MILES cfg);
}.

(** The layers of the buffers, as a map gets them. *)
Definition zone_layers (buffers : list (Z * geometry)) (label shade : string)
    : list layer :=
  (fun b : Z * geometry =>
     GeoJson b.2 (pretty b.1 +:+ " Mile Buffer (" +:+ label +:+ ")")
       (mkStyle shade shade 1 0.1%float)) <$> buffers.

(** Where a marker is and what it says, for a layer that is a marker. *)
Definition marker_place (l : layer) : option (cell * cell * string) :=
  match l with
  | CircleMarker location _ _ _ _ _ tooltip => Some (location, tooltip)
  | _ => None
  end.

(** The points of the observations handed to the maps: those no farther
    from the property center than [MAX_MAP_DISTANCE_MILES]. *)
Definition map_points `{GeoLib} (cfg : Config) (df : DataFrame)
    (latitude longitude : series) : list geometry :=
  let points := observation_points df latitude longitude in
  select
    ((fun d => d <=? float_of_int (MAX_MAP_DISTANCE_MILES cfg))%float
       <$> ((fun d => d / MILES_TO_METERS)%float
              <$> meters_from_property_center cfg points))
    points.

(** ** Stand-ins for the data pull and for the maps *)

Definition toy_geom_repr : GeomRepr := {| geom_str := fun _ => "<geometry>" |}.

(** The stand-in table with a column of common names. *)
Definition named_table (lat lon : list float) (names : list (option string))
    : DataFrame :=
  set_col "taxon.preferred_common_name" (SObj names) (Toy.table lat lon).

(** A server whose first page holds two observations of three: [second] is
    what it gives for the second page, and it is out of reach after that. *)
Definition toy_server (second : reply nat) (request : Request) : reply nat :=
  if decide (req_page request = 1)
  then Replied (mkResponse None "" (Some (mkData (Some 3) (Some [1; 2]%nat))))
  else if decide (req_page request = 2) then second else Failed.

(** A server that announces no observation and sends one all the same. *)
Definition empty_project_server (request : Request) : reply nat :=
  Replied (mkResponse None "" (Some (mkData (Some 0) (Some [1]%nat)))).

(** A server that announces one observation on its first page, nothing
    after it, and has one on every page. *)
Definition endless_server (request : Request) : reply nat :=
  Replied (mkResponse None ""
             (Some (mkData (if decide (req_page request = 1) then Some 1 else None)
                      (Some [7]%nat)))).

(** The stand-in table of two observations with a column that bears the name
    of the boundary flag. *)
Definition flagged_table : DataFrame :=
  set_col "within_property" (SObj [Some "no"; Some "yes"])
    (Toy.table full_latitude full_longitude).

(** A table of two classified observations, as the maps get it. *)
Definition toy_map_table : DataFrame := {|
  index := [0; 1];
  columns :=
    [("id", SInt [101; 102]);
     ("latitude", SFloat [1; 0.5]%float);
     ("longitude", SFloat [1; 0.5]%float);
     ("taxon.preferred_common_name", SObj [Some "Western honey bee"; None]);
     ("taxon.name", SObj [Some "Apis mellifera"; Some "Bombus impatiens"]);
     ("within_property", SBool [true; false]);
     ("within_1mile_property_center", SBool [false; true]);
     ("within_1mile_apiary_center", SBool [false; false])];
|}.

(** ** The console output of a run *)

(** The lines a buffer loop prints: for every radius of the list, the number
    of observations its buffer contains. *)
Definition zone_lines `{GeoLib} (cfg : Config) (center : coord) (label : string)
    (points : list geometry) (radii : list Z) : list string :=
  (fun r =>
     "    Observations within " +:+ pretty r +:+ " mile(s) of " +:+ label
     +:+ ": " +:+ pretty (sum_bool (contains (zone_polygon cfg center r) <$> points)))
    <$> radii.

(** What [spatial_analysis.py] prints on a readable table with a row: the
    lines down to the header of the distances, when the table has been
    saved, and then [rest]. *)
Definition printed `{GeoLib} `{Repr} (cfg : Config) (env : Environment)
    (df : DataFrame) (latitude longitude : series) (rest : list string)
    : list string :=
  let keep := kept_rows df latitude longitude in
  let points := observation_points df latitude longitude in
  let kept := Z.of_nat (length (select keep (index df))) in
  let within := contains (property_polygon cfg) <$> points in
  let table :=
    set_col "within_property" (SBool within)
      (set_col "geometry" (SGeom points) (select_rows keep df)) in
  (opening_lines cfg
   ++ ["Loaded " +:+ pretty (len df) +:+ " observations from " +:+ cleaned_file_path]
   ++ (if bool_decide (kept < len df)
       then ["Removed " +:+ pretty (len df - kept)
             +:+ " rows with missing latitude/longitude."]
       else [])
   ++ ["Number of observations within your property: " +:+ pretty (sum_bool within);
       "Total observations outside your property: "
         +:+ pretty (kept - sum_bool within);
       NL +:+ "Sample observations within your property:";
       frame_str (head 5 (select_rows within table));
       NL +:+ "--- Analyzing Circular Buffer Zones ---";
       NL +:+ "  - Buffers around Property Center:"]
   ++ zone_lines cfg (centroid (property_polygon cfg)) "Property Center" points
        (BUFFER_RADII_MILES cfg)
   ++ [NL +:+ "  - Buffers around Apiary Center:"]
   ++ zone_lines cfg (APIARY_LON_DD cfg, APIARY_LAT_DD cfg) "Apiary Center" points
        (BUFFER_RADII_MILES cfg)
   ++ [NL +:+ "Analyzed data with buffer zones saved to " +:+ output_csv_file_path;
       match sqlite_error env with
       | None =>
           "Analyzed data also saved to SQLite database: " +:+ output_db_file_path
           +:+ " in table '" +:+ table_name +:+ "'"
       | Some e => "Error saving data to SQLite database: " +:+ e
       end;
       NL +:+ "--- Preparing Observations for Map Visualization ---"]
   ++ rest)%list.

(** What [spatial_analysis.py] prints, down to the distance filter, when it
    gets there. *)
Definition run_output `{GeoLib} `{Repr} (cfg : Config) (env : Environment)
    (df : DataFrame) (latitude longitude : series) : list string :=
  let kept :=
    Z.of_nat (length (select (kept_rows df latitude longitude) (index df))) in
  let out := outcome_of cfg df latitude longitude in
  printed cfg env df latitude longitude
    ["Filtered " +:+ pretty kept +:+ " total observations to "
       +:+ pretty (len (gdf_observations_for_map out))
       +:+ " for map visualization (within "
       +:+ pretty (MAX_MAP_DISTANCE_MILES cfg)
       +:+ " miles of property center)."].
(** * Properties *)

(** ** The monad of the script *)

Lemma snd_bind {A B} (m : Script A) (f : A -> Script B) :
  snd (m ≫= f) = match snd m with Ok a => snd (f a) | Raise e => Raise e end.
Proof.
  destruct m as [out [a|e]]; simpl; [|done].
  unfold mbind, Script_bind. by destruct (f a).
Qed.

Lemma fst_bind_Ok {A B} (m : Script A) (f : A -> Script B) a :
  snd m = Ok a -> fst (m ≫= f) = (fst m ++ fst (f a))%list.
Proof.
  destruct m as [out r]; simpl; intros ->.
  unfold mbind, Script_bind. by destruct (f a).
Qed.

Lemma bind_lift_Ok {A B} (a : A) (f : A -> Script B) : lift (Ok a) ≫= f = f a.
Proof. unfold lift, mbind, Script_bind. by destruct (f a). Qed.

Lemma bind_lift_Raise {A B} e (f : A -> Script B) :
  lift (Raise e) ≫= f = ([], Raise e).
Proof. done. Qed.

(** ** Lists and columns *)


Lemma select_fmap {A B} (f : A -> B) keep l :
  select keep (f <$> l) = f <$> select keep l.
Proof.
  revert l; induction keep as [|k keep IH]; intros [|x l]; simpl; try done.
  destruct k; simpl; by rewrite IH.
Qed.

Lemma select_sublist {A} keep (l : list A) : sublist (select keep l) l.
Proof.
  revert l; induction keep as [|k keep IH]; intros [|x l]; simpl;
    try apply sublist_nil_l.
  destruct k; [apply sublist_skip | apply sublist_cons]; apply IH.
Qed.

Lemma select_nil {A} keep : select keep (@nil A) = [].
Proof. by destruct keep as [|[] keep]. Qed.

Lemma for_rows_nil {A B} (f : A -> result B) l : for_rows f l = Ok [] -> l = [].
Proof.
  destruct l as [|x l]; [done|]. simpl.
  destruct (f x); [|done]. simpl. by destruct (for_rows f l).
Qed.

Lemma to_float64_select `{Repr} keep s :
  to_float64 s = Ok (floats s) ->
  to_float64 (series_select keep s) = Ok (select keep (floats s)).
Proof.
  destruct s as [l|l|l|l|l]; simpl; try (intros _; by rewrite select_fmap).
  - done.
  - intros ->%for_rows_nil. by rewrite !select_nil.
  - destruct l; [|done]. by rewrite !select_nil.
Qed.

Lemma assoc_get_Some name cols s :
  assoc_get name cols = Some s -> (name, s) ∈ cols.
Proof.
  induction cols as [|[n s'] cols IH]; simpl; [done|].
  case_decide; [intros [= ->]; subst; left | right; auto].
Qed.

Lemma assoc_get_set name name' s cols :
  assoc_get name (assoc_set name' s cols)
  = if decide (name' = name) then Some s else assoc_get name cols.
Proof.
  induction cols as [|[n s'] cols IH]; simpl.
  - by repeat case_decide.
  - repeat (case_decide; simpl; subst); try done.
Qed.

(** Assigning to a column keeps the names of the others, in order, and puts a
    new name last. *)
Lemma assoc_set_names name s cols :
  (assoc_set name s cols).*1
  = if decide (name ∈ cols.*1) then cols.*1 else (cols.*1 ++ [name])%list.
Proof.
  induction cols as [|[n s'] cols IH].
  - case_decide as Hin; [by apply elem_of_nil in Hin | done].
  - cbn [assoc_set]. rewrite fmap_cons. cbn [fst].
    destruct (decide (n = name)) as [->|Hne].
    + rewrite fmap_cons. cbn [fst]. rewrite decide_True; [done | left].
    + rewrite fmap_cons, IH. cbn [fst].
      destruct (decide (name ∈ cols.*1)) as [Hin|Hin].
      * rewrite decide_True; [done | by right].
      * rewrite decide_False; [done|]. rewrite not_elem_of_cons. done.
Qed.

Lemma assoc_set_NoDup name s cols :
  NoDup cols.*1 -> NoDup (assoc_set name s cols).*1.
Proof.
  intros Hnd. rewrite assoc_set_names. case_decide; [done|].
  apply NoDup_app. split_and!; [done | | apply NoDup_singleton].
  intros x Hx ->%list_elem_of_singleton. done.
Qed.

Lemma assoc_get_fmap name (f : series -> series) cols :
  assoc_get name ((fun c => (c.1, f c.2)) <$> cols) = f <$> assoc_get name cols.
Proof.
  induction cols as [|[n s'] cols IH]; simpl; [done|]. by case_decide.
Qed.

Lemma assoc_get_filter name name' cols :
  name <> name' ->
  assoc_get name (filter (fun c => c.1 ≠ name') cols) = assoc_get name cols.
Proof.
  intros Hne. induction cols as [|[n s'] cols IH]; simpl; [done|].
  destruct (decide (n = name')) as [->|Hn].
  - rewrite filter_cons_False by (simpl; auto). by rewrite decide_False.
  - rewrite filter_cons_True by done. simpl. by rewrite IH.
Qed.

(** ** Column names *)

Lemma append_cons x (a b : string) : String x a +:+ b = String x (a +:+ b).
Proof. reflexivity. Qed.

Lemma append_assoc (a b c : string) : (a +:+ b) +:+ c = a +:+ (b +:+ c).
Proof.
  induction a as [|x a IH]; [done|]. rewrite !append_cons. by f_equal.
Qed.

Lemma chars_append (a b : string) :
  String.list_ascii_of_string (a +:+ b)
  = (String.list_ascii_of_string a ++ String.list_ascii_of_string b)%list.
Proof.
  induction a as [|c a IH]; [done|]. rewrite append_cons. simpl. by rewrite IH.
Qed.

Lemma chars_length s : length (String.list_ascii_of_string s) = String.length s.
Proof. induction s; simpl; congruence. Qed.

(** Two strings that end in suffixes of the same length are equal only if
    the suffixes and the parts before them are. *)
Lemma append_inj_2 (a b a' b' : string) :
  String.length b = String.length b' ->
  a +:+ b = a' +:+ b' -> a = a' /\ b = b'.
Proof.
  intros Hlen Heq. apply (f_equal String.list_ascii_of_string) in Heq.
  rewrite !chars_append in Heq. apply app_inj_2 in Heq as [Ha Hb].
  - split.
    + by rewrite <- (String.string_of_list_ascii_of_string a), Ha,
        String.string_of_list_ascii_of_string.
    + by rewrite <- (String.string_of_list_ascii_of_string b), Hb,
        String.string_of_list_ascii_of_string.
  - by rewrite !chars_length.
Qed.

Lemma property_center_col_inj r r' :
  property_center_col r = property_center_col r' -> r = r'.
Proof.
  unfold property_center_col. intros Heq%(inj (String.append _)).
  apply append_inj_2 in Heq as [Heq _]; [|done]. by apply pretty_Z_inj in Heq.
Qed.

Lemma apiary_center_col_inj r r' :
  apiary_center_col r = apiary_center_col r' -> r = r'.
Proof.
  unfold apiary_center_col. intros Heq%(inj (String.append _)).
  apply append_inj_2 in Heq as [Heq _]; [|done]. by apply pretty_Z_inj in Heq.
Qed.

(** The columns of the two centers never share a name. *)
Lemma property_apiary_col_ne r r' : property_center_col r <> apiary_center_col r'.
Proof.
  unfold property_center_col, apiary_center_col. intros Heq%(inj (String.append _)).
  change "mile_property_center" with ("mile_proper" +:+ "ty_center") in Heq.
  change "mile_apiary_center" with ("mile_apia" +:+ "ry_center") in Heq.
  rewrite <- !append_assoc in Heq.
  apply append_inj_2 in Heq as [_ Heq]; done.
Qed.

Lemma prefix_append (p s : string) : String.prefix p (p +:+ s) = true.
Proof.
  induction p as [|c p IH]; [by destruct s|].
  rewrite append_cons. simpl. by destruct (Ascii.ascii_dec c c).
Qed.

Lemma property_center_col_prefix r :
  String.prefix "within_" (property_center_col r) = true.
Proof. apply prefix_append. Qed.

Lemma apiary_center_col_prefix r :
  String.prefix "within_" (apiary_center_col r) = true.
Proof. apply prefix_append. Qed.

Lemma within_property_ne_property r : property_center_col r <> "within_property".
Proof.
  unfold property_center_col.
  change "within_property" with ("within_" +:+ "" +:+ "property").
  intros Heq%(inj (String.append _)).
  change "mile_property_center" with ("mile_propert" +:+ "y_center") in Heq.
  rewrite <- append_assoc in Heq.
  apply append_inj_2 in Heq as [_ Heq]; done.
Qed.

Lemma within_property_ne_apiary r : apiary_center_col r <> "within_property".
Proof.
  unfold apiary_center_col.
  change "within_property" with ("within_" +:+ "" +:+ "property").
  intros Heq%(inj (String.append _)).
  change "mile_apiary_center" with ("mile_apiar" +:+ "y_center") in Heq.
  rewrite <- append_assoc in Heq.
  apply append_inj_2 in Heq as [_ Heq]; done.
Qed.

Lemma fresh_ne_property name r : fresh name -> property_center_col r <> name.
Proof.
  intros [_ Hp] <-. by rewrite property_center_col_prefix in Hp.
Qed.

Lemma fresh_ne_apiary name r : fresh name -> apiary_center_col r <> name.
Proof.
  intros [_ Hp] <-. by rewrite apiary_center_col_prefix in Hp.
Qed.

Lemma property_center_col_ne_geometry r : property_center_col r <> "geometry".
Proof. intros Heq. pose proof (property_center_col_prefix r) as Hp. by rewrite Heq in Hp. Qed.

Lemma apiary_center_col_ne_geometry r : apiary_center_col r <> "geometry".
Proof. intros Heq. pose proof (apiary_center_col_prefix r) as Hp. by rewrite Heq in Hp. Qed.

(** The columns the data pull selects are all left alone by the script. *)
Lemma selected_columns_fresh : Forall fresh selected_columns.
Proof. unfold selected_columns, fresh. repeat constructor; done. Qed.

Section Run.
Context `{GeoLib} `{Repr}.

(** ** The buffer generator *)

Lemma create_geodesic_buffer_bind center radius target source :
  create_geodesic_buffer center radius target source
  = (meters ← mul_float radius MILES_TO_METERS;
     if is_finite meters
     then Ok (geom_to_crs target source
                (buffer (geom_to_crs source target (Point_of center)) meters))
     else Raise GEOSException).
Proof.
  unfold create_geodesic_buffer, GeoSeries_buffer.
  destruct (mul_float radius MILES_TO_METERS) as [meters|e]; [|done].
  cbn [mbind result_bind]. by destruct (is_finite meters).
Qed.

Lemma create_geodesic_buffer_int cfg center r :
  float_range r ->
  create_geodesic_buffer center (NInt r) (PROJECTED_CRS cfg) (GEOGRAPHIC_CRS cfg)
  = Ok (zone_polygon cfg center r).
Proof.
  intros [Hr Hm]. rewrite create_geodesic_buffer_bind. unfold mul_float.
  rewrite Hr. cbn [mbind result_bind]. by rewrite Hm.
Qed.

(** What stops the generator for a radius it does not accept. *)
Lemma create_geodesic_buffer_refused center r target source :
  ~ float_range r ->
  create_geodesic_buffer center (NInt r) target source
  = Raise (if is_infinity (float_of_int r) then OverflowError else GEOSException).
Proof.
  intros Hr. rewrite create_geodesic_buffer_bind. unfold mul_float.
  destruct (is_infinity (float_of_int r)) eqn:Hinf; [done|].
  cbn [mbind result_bind].
  destruct (is_finite (float_of_int r * MILES_TO_METERS)) eqn:Hfin; [|done].
  by destruct Hr.
Qed.

(** ** The buffer loops *)

Lemma assoc_get_add_zones cfg center col points name radii df :
  (forall r, col r <> name) ->
  assoc_get name (columns (add_zones cfg center col points radii df))
  = assoc_get name (columns df).
Proof.
  intros Hcol. revert df. induction radii as [|r radii IH]; intros df; [done|].
  unfold add_zones in *. simpl. rewrite IH. simpl.
  rewrite assoc_get_set. by rewrite decide_False.
Qed.

Lemma add_zones_index cfg center col points radii df :
  index (add_zones cfg center col points radii df) = index df.
Proof.
  revert df. induction radii as [|r radii IH]; intros df; [done|].
  unfold add_zones in *. simpl. by rewrite IH.
Qed.

Lemma sum_flags_Ok {A} (f : A -> bool) l :
  l <> [] -> sum_flags (f <$> l) = Ok (sum_bool (f <$> l)).
Proof. by destruct l. Qed.

(** One turn of a buffer loop on a table with rows, for a radius the
    generator accepts. *)
Lemma zone_step_Ok cfg center col label points r gdf buffers :
  float_range r -> points <> [] ->
  gdf_geometry gdf = Ok points ->
  zone_step cfg center col label r (gdf, buffers)
  = (["    Observations within " +:+ pretty r +:+ " mile(s) of " +:+ label
      +:+ ": "
      +:+ pretty (sum_bool (contains (zone_polygon cfg center r) <$> points))],
     Ok (gdf_set_col (col r) (zone_flags cfg center points r) gdf,
         (buffers ++ [(r, zone_polygon cfg center r)])%list)).
Proof.
  intros Hr Hrows Hgeom. unfold zone_step.
  rewrite create_geodesic_buffer_int by done.
  rewrite bind_lift_Ok, Hgeom, bind_lift_Ok.
  rewrite sum_flags_Ok by done. by rewrite bind_lift_Ok.
Qed.

Lemma for_each_zone_step cfg center col label points radii :
  (forall r, col r <> "geometry") ->
  points <> [] ->
  Forall float_range radii ->
  forall gdf buffers,
    gdf_geometry gdf = Ok points ->
    snd (for_each radii (zone_step cfg center col label) (gdf, buffers))
    = Ok (mkGeoDataFrame (add_zones cfg center col points radii (gdf_frame gdf))
            (gdf_crs gdf),
          (buffers ++ ((fun r => (r, zone_polygon cfg center r)) <$> radii))%list).
Proof.
  intros Hcol Hrows. induction 1 as [|r radii Hr _ IH]; intros gdf buffers Hgeom.
  - simpl. rewrite app_nil_r. by destruct gdf.
  - cbn [for_each]. rewrite snd_bind.
    rewrite (zone_step_Ok _ _ _ _ points) by done. cbn [snd].
    rewrite IH.
    + simpl. by rewrite <- app_assoc.
    + unfold gdf_geometry, gdf_set_col in *. simpl.
      rewrite assoc_get_set. by rewrite decide_False.
Qed.

(** ** The run *)

Lemma dropna_coordinates df latitude longitude :
  assoc_get "latitude" (columns df) = Some latitude ->
  assoc_get "longitude" (columns df) = Some longitude ->
  dropna ["latitude"; "longitude"] df
  = Ok (select_rows (kept_rows df latitude longitude) df).
Proof.
  intros Hlat Hlon. unfold dropna, notna_mask, get_col. by rewrite Hlat, Hlon.
Qed.

Lemma get_col_select_rows name keep df s :
  assoc_get name (columns df) = Some s ->
  get_col name (select_rows keep df) = Ok (series_select keep s).
Proof.
  intros Hs. unfold get_col, select_rows. simpl.
  by rewrite (assoc_get_fmap name (series_select keep)), Hs.
Qed.

Lemma classified_geometry cfg df latitude longitude :
  assoc_get "geometry" (columns (classified cfg df latitude longitude))
  = Some (SGeom (observation_points df latitude longitude)).
Proof.
  unfold classified.
  rewrite !assoc_get_add_zones
    by auto using property_center_col_ne_geometry, apiary_center_col_ne_geometry.
  simpl. rewrite !assoc_get_set. by rewrite decide_False, decide_True.
Qed.

Lemma gdf_geometry_set_col name s gdf :
  name <> "geometry" ->
  gdf_geometry (gdf_set_col name s gdf) = gdf_geometry gdf.
Proof.
  intros Hne. unfold gdf_geometry, gdf_set_col. simpl.
  rewrite assoc_get_set. by rewrite decide_False.
Qed.

Lemma gdf_geometry_new df points c :
  gdf_geometry (GeoDataFrame_new df points c) = Ok points.
Proof.
  unfold gdf_geometry, GeoDataFrame_new. simpl.
  rewrite assoc_get_set. by rewrite decide_True.
Qed.

Lemma snd_if_print (b : bool) line :
  snd (if b then print line else (mret () : Script unit)) = Ok ().
Proof. by destruct b. Qed.

Lemma snd_sqlite (e : option string) :
  snd match e with
      | Some e => print ("Error saving data to SQLite database: " +:+ e)
      | None =>
          print ("Analyzed data also saved to SQLite database: "
                 +:+ output_db_file_path +:+ " in table '" +:+ table_name +:+ "'")
      end
  = Ok ().
Proof. by destruct e. Qed.

Lemma some_distance_some_row cfg df latitude longitude :
  some_distance cfg df latitude longitude -> some_row df latitude longitude.
Proof.
  unfold some_distance, some_row, meters_from_property_center.
  by destruct (observation_points df latitude longitude).
Qed.

Lemma meters_to_miles_Ok cfg df latitude longitude :
  some_distance cfg df latitude longitude ->
  meters_to_miles
    (meters_from_property_center cfg (observation_points df latitude longitude))
  = Ok ((fun d => d / MILES_TO_METERS)%float
          <$> meters_from_property_center cfg
                (observation_points df latitude longitude)).
Proof. intros Hdist. unfold meters_to_miles. by rewrite Hdist. Qed.

(** The script up to the first sum, on a readable table. *)
Ltac load_table Hfile Hlat Hlon Hnlat Hnlon :=
  unfold spatial_analysis;
  do 3 (rewrite snd_bind; cbn [snd print]);
  rewrite snd_bind, Hfile; rewrite snd_bind; cbn [snd print mret Script_ret];
  rewrite (dropna_coordinates _ _ _ Hlat Hlon), bind_lift_Ok;
  rewrite snd_bind, snd_if_print;
  rewrite (get_col_select_rows _ _ _ _ Hlon), bind_lift_Ok;
  rewrite (get_col_select_rows _ _ _ _ Hlat), bind_lift_Ok;
  unfold points_from_xy; rewrite !to_float64_select by done;
  cbn [mbind result_bind]; rewrite bind_lift_Ok;
  rewrite gdf_geometry_new, bind_lift_Ok.

(** From the first sum to the conversion of the distances to miles, on a
    table with a row. *)
Ltac classify_table cfg df latitude longitude :=
  rewrite sum_flags_Ok, bind_lift_Ok by done;
  do 6 (rewrite snd_bind; cbn [snd print]);
  rewrite snd_bind;
  rewrite (for_each_zone_step _ _ _ _ (observation_points df latitude longitude));
    [|apply property_center_col_ne_geometry|done|done|
     by rewrite gdf_geometry_set_col, gdf_geometry_new];
  cbn iota; rewrite snd_bind; cbn [snd print];
  rewrite snd_bind;
  rewrite (for_each_zone_step _ _ _ _ (observation_points df latitude longitude));
    [|apply apiary_center_col_ne_geometry|done|done|]; cycle 1;
  [ unfold gdf_geometry; cbn [gdf_frame];
    rewrite assoc_get_add_zones by apply property_center_col_ne_geometry;
    cbn [gdf_frame gdf_set_col GeoDataFrame_new set_col columns];
    rewrite !assoc_get_set; by rewrite decide_False, decide_True |];
  cbn iota; cbn [gdf_frame gdf_crs gdf_set_col GeoDataFrame_new app];
  fold (observation_points df latitude longitude);
  fold (classified cfg df latitude longitude);
  unfold drop_col; rewrite classified_geometry, bind_lift_Ok;
  rewrite snd_bind; cbn [snd print];
  rewrite snd_bind, snd_sqlite;
  rewrite snd_bind; cbn [snd print];
  cbn [iloc GeoSeries_to_crs gs_geoms gs_crs fmap list_fmap lookup list_lookup];
  rewrite bind_lift_Ok;
  unfold gdf_to_crs, gdf_geometry at 2; cbn [gdf_frame gdf_crs];
  rewrite classified_geometry; cbn [mbind result_bind]; rewrite bind_lift_Ok;
  unfold gdf_geometry, set_col; cbn [gdf_frame columns];
  rewrite assoc_get_set, decide_True by done; rewrite bind_lift_Ok.

(** On a readable table with a distance that is a number the script runs to
    the distance filter and returns [outcome_of]. *)
Lemma run_ok cfg env df latitude longitude :
  readable cfg env df latitude longitude ->
  some_distance cfg df latitude longitude ->
  snd (spatial_analysis cfg env) = Ok (outcome_of cfg df latitude longitude).
Proof.
  intros [Hfile _ Hlat Hlon Hnlat Hnlon Hradii] Hdist.
  pose proof (some_distance_some_row _ _ _ _ Hdist) as Hrows.
  pose proof (meters_to_miles_Ok _ _ _ _ Hdist) as Hmiles.
  unfold some_row in Hrows. unfold meters_from_property_center in Hmiles.
  load_table Hfile Hlat Hlon Hnlat Hnlon.
  classify_table cfg df latitude longitude.
  rewrite Hmiles, bind_lift_Ok.
  rewrite snd_bind; cbn [snd print].
  reflexivity.
Qed.

(** When the observations are classified and every distance is NaN, the
    script stops at the conversion to miles. *)
Lemma run_without_distance cfg env df latitude longitude :
  readable cfg env df latitude longitude ->
  some_row df latitude longitude ->
  forallb is_nan
    (meters_from_property_center cfg (observation_points df latitude longitude))
  = true ->
  snd (spatial_analysis cfg env) = Raise TypeError.
Proof.
  intros [Hfile _ Hlat Hlon Hnlat Hnlon Hradii] Hrows Hnan.
  unfold some_row in Hrows. unfold meters_from_property_center in Hnan.
  load_table Hfile Hlat Hlon Hnlat Hnlon.
  classify_table cfg df latitude longitude.
  unfold meters_to_miles. by rewrite Hnan.
Qed.

(** Without an observation that has both coordinates the script stops at the
    first sum of a column of flags. *)
Lemma run_without_rows cfg env df latitude longitude :
  cleaned_file env = Some df ->
  assoc_get "latitude" (columns df) = Some latitude ->
  assoc_get "longitude" (columns df) = Some longitude ->
  to_float64 latitude = Ok (floats latitude) ->
  to_float64 longitude = Ok (floats longitude) ->
  observation_points df latitude longitude = [] ->
  snd (spatial_analysis cfg env) = Raise TypeError.
Proof.
  intros Hfile Hlat Hlon Hnlat Hnlon Hrows.
  load_table Hfile Hlat Hlon Hnlat Hnlon.
  fold (observation_points df latitude longitude). by rewrite Hrows.
Qed.

(** ** The columns of the classified table *)

Lemma assoc_get_add_zones_col cfg center col points r radii df :
  (forall r r', col r = col r' -> r = r') ->
  assoc_get (col r) (columns (add_zones cfg center col points radii df))
  = if decide (r ∈ radii) then Some (zone_flags cfg center points r)
    else assoc_get (col r) (columns df).
Proof.
  intros Hinj. revert df. induction radii as [|r0 radii IH]; intros df.
  - rewrite decide_False; [done | apply not_elem_of_nil].
  - unfold add_zones in *. cbn [foldl]. rewrite IH.
    destruct (decide (r ∈ radii)) as [Hin|Hin].
    + rewrite decide_True; [done | by right].
    + cbn [set_col columns]. rewrite assoc_get_set.
      destruct (decide (col r0 = col r)) as [Heq|Hne].
      * apply Hinj in Heq as ->. rewrite decide_True; [done | left].
      * rewrite decide_False; [done|]. rewrite not_elem_of_cons.
        split; [congruence | done].
Qed.

Lemma assoc_set_names_elem name name' s cols :
  name ∈ (assoc_set name' s cols).*1 <-> name ∈ cols.*1 \/ name = name'.
Proof.
  rewrite assoc_set_names. case_decide as Hin.
  - split; [auto | intros [?| ->]; done].
  - rewrite elem_of_app, list_elem_of_singleton. done.
Qed.

Lemma add_zones_names_elem cfg center col points name radii df :
  name ∈ (columns (add_zones cfg center col points radii df)).*1
  <-> name ∈ (columns df).*1 \/ exists r, r ∈ radii /\ name = col r.
Proof.
  revert df. induction radii as [|r0 radii IH]; intros df.
  - split; [auto | intros [?|(r & Hr & _)]; [done | by apply elem_of_nil in Hr]].
  - unfold add_zones in *. cbn [foldl]. rewrite IH. cbn [set_col columns].
    rewrite assoc_set_names_elem. split.
    + intros [[?| ->]|(r & Hr & ->)]; [by left | right | right].
      * exists r0. split; [left | done].
      * exists r. split; [by right | done].
    + intros [?|(r & [->|Hr]%elem_of_cons & ->)]; [by left; left | by left; right |].
      right. by exists r.
Qed.

Lemma add_zones_NoDup cfg center col points radii df :
  NoDup (columns df).*1 ->
  NoDup (columns (add_zones cfg center col points radii df)).*1.
Proof.
  revert df. induction radii as [|r0 radii IH]; intros df Hnd; [done|].
  unfold add_zones in *. cbn [foldl]. apply IH. cbn [set_col columns].
  by apply assoc_set_NoDup.
Qed.

(** Assignments only ever extend the list of names at its end. *)
Lemma assoc_set_names_prefix name s cols :
  cols.*1 `prefix_of` (assoc_set name s cols).*1.
Proof.
  rewrite assoc_set_names. case_decide; [done | by apply prefix_app_r].
Qed.

Lemma add_zones_names_prefix cfg center col points radii df :
  (columns df).*1 `prefix_of` (columns (add_zones cfg center col points radii df)).*1.
Proof.
  revert df. induction radii as [|r0 radii IH]; intros df; [done|].
  unfold add_zones in *. cbn [foldl]. etrans; [|apply IH].
  apply assoc_set_names_prefix.
Qed.

Lemma select_rows_names keep df :
  (columns (select_rows keep df)).*1 = (columns df).*1.
Proof.
  unfold select_rows. cbn [columns]. rewrite <- list_fmap_compose.
  by apply list_fmap_ext.
Qed.

Lemma filter_names name (cols : list (string * series)) :
  (filter (fun c => c.1 ≠ name) cols).*1 = filter (fun n => n ≠ name) cols.*1.
Proof.
  induction cols as [|[n s] cols IH]; [done|]. rewrite fmap_cons.
  destruct (decide (n = name)) as [->|Hne].
  - rewrite !filter_cons_False by (simpl; auto). done.
  - rewrite !filter_cons_True by done. rewrite fmap_cons. by f_equal.
Qed.

Lemma classified_index cfg df latitude longitude :
  index (classified cfg df latitude longitude)
  = select (kept_rows df latitude longitude) (index df).
Proof. unfold classified. by rewrite !add_zones_index. Qed.

(** A column of the input that the script does not assign to is still
    there, restricted to the rows that are kept. *)
Lemma classified_original cfg df latitude longitude name s :
  fresh name ->
  assoc_get name (columns df) = Some s ->
  assoc_get name (columns (classified cfg df latitude longitude))
  = Some (series_select (kept_rows df latitude longitude) s).
Proof.
  intros Hfresh Hs. unfold classified.
  rewrite !assoc_get_add_zones by auto using fresh_ne_property, fresh_ne_apiary.
  cbn [set_col columns]. rewrite !assoc_get_set.
  destruct Hfresh as [Hg Hp].
  rewrite !decide_False; [|congruence|by intros <-].
  unfold select_rows. cbn [columns].
  by rewrite (assoc_get_fmap name (series_select _)), Hs.
Qed.

Lemma classified_within_property cfg df latitude longitude :
  assoc_get "within_property" (columns (classified cfg df latitude longitude))
  = Some (SBool (contains (property_polygon cfg)
                   <$> observation_points df latitude longitude)).
Proof.
  unfold classified.
  rewrite !assoc_get_add_zones
    by auto using within_property_ne_property, within_property_ne_apiary.
  cbn [set_col columns]. rewrite assoc_get_set. by rewrite decide_True.
Qed.

Lemma classified_property_zone cfg df latitude longitude r :
  r ∈ BUFFER_RADII_MILES cfg ->
  assoc_get (property_center_col r) (columns (classified cfg df latitude longitude))
  = Some (zone_flags cfg (centroid (property_polygon cfg))
            (observation_points df latitude longitude) r).
Proof.
  intros Hr. unfold classified.
  rewrite assoc_get_add_zones by (intros r'; apply not_eq_sym, property_apiary_col_ne).
  rewrite assoc_get_add_zones_col by apply property_center_col_inj.
  by rewrite decide_True.
Qed.

Lemma classified_apiary_zone cfg df latitude longitude r :
  r ∈ BUFFER_RADII_MILES cfg ->
  assoc_get (apiary_center_col r) (columns (classified cfg df latitude longitude))
  = Some (zone_flags cfg (APIARY_LON_DD cfg, APIARY_LAT_DD cfg)
            (observation_points df latitude longitude) r).
Proof.
  intros Hr. unfold classified.
  rewrite assoc_get_add_zones_col by apply apiary_center_col_inj.
  by rewrite decide_True.
Qed.

Lemma classified_names_elem cfg df latitude longitude name :
  name ∈ (columns (classified cfg df latitude longitude)).*1 <->
  name ∈ column_names df \/ name = "geometry" \/ name = "within_property"
  \/ exists r, r ∈ BUFFER_RADII_MILES cfg
       /\ (name = property_center_col r \/ name = apiary_center_col r).
Proof.
  unfold classified. rewrite !add_zones_names_elem. cbn [set_col columns].
  rewrite !assoc_set_names_elem, select_rows_names. unfold column_names.
  split.
  - intros [[[[?|?]|?]|(r & ? & ?)]|(r & ? & ?)]; eauto 8.
  - intros [?|[?|[?|(r & ? & [?|?])]]]; eauto 8.
Qed.

Lemma classified_NoDup cfg df latitude longitude :
  NoDup (column_names df) ->
  NoDup (columns (classified cfg df latitude longitude)).*1.
Proof.
  intros Hnd. unfold classified. do 2 apply add_zones_NoDup.
  cbn [set_col columns]. do 2 apply assoc_set_NoDup. by rewrite select_rows_names.
Qed.

(** The table that is saved is the classified table without its geometry. *)
Lemma saved_get_col cfg df latitude longitude name :
  name <> "geometry" ->
  get_col name (df_analyzed_final (outcome_of cfg df latitude longitude))
  = match assoc_get name (columns (classified cfg df latitude longitude)) with
    | Some s => Ok s
    | None => Raise (KeyError name)
    end.
Proof.
  intros Hne. unfold get_col, outcome_of. cbn [df_analyzed_final columns].
  by rewrite assoc_get_filter.
Qed.

Lemma saved_names_elem cfg df latitude longitude name :
  name ∈ column_names (df_analyzed_final (outcome_of cfg df latitude longitude)) <->
  name <> "geometry"
  /\ name ∈ (columns (classified cfg df latitude longitude)).*1.
Proof.
  unfold column_names, outcome_of. cbn [df_analyzed_final columns].
  rewrite filter_names, list_elem_of_filter. done.
Qed.

(** ** What the run returns *)

Lemma saved_index cfg df latitude longitude :
  index (df_analyzed_final (outcome_of cfg df latitude longitude))
  = select (kept_rows df latitude longitude) (index df).
Proof. unfold outcome_of. cbn [df_analyzed_final index]. apply classified_index. Qed.

(** The flag columns of the saved table: one test, [contains], for the
    boundary polygon and for every buffer. *)
Lemma saved_flag_columns cfg df latitude longitude :
  let points := observation_points df latitude longitude in
  let saved := df_analyzed_final (outcome_of cfg df latitude longitude) in
  get_col "within_property" saved
  = Ok (SBool (contains (property_polygon cfg) <$> points))
  /\ forall r, r ∈ BUFFER_RADII_MILES cfg ->
       get_col (property_center_col r) saved
       = Ok (zone_flags cfg (centroid (property_polygon cfg)) points r)
       /\ get_col (apiary_center_col r) saved
          = Ok (zone_flags cfg (APIARY_LON_DD cfg, APIARY_LAT_DD cfg) points r).
Proof.
  cbv zeta. split.
  - rewrite saved_get_col by done. by rewrite classified_within_property.
  - intros r Hr. split.
    + rewrite saved_get_col by apply property_center_col_ne_geometry.
      by rewrite classified_property_zone.
    + rewrite saved_get_col by apply apiary_center_col_ne_geometry.
      by rewrite classified_apiary_zone.
Qed.


(** C3, as the code has it: on a run that reaches the distance filter,
    every observation with both coordinates gets, in the table that is saved,
    the boundary flag and one flag per center and radius value, and no
    distance; the table kept for the maps adds the distance from the property
    center, in meters and in miles, and nothing for the apiary center. *)
Theorem classification_columns cfg env df latitude longitude :
  readable cfg env df latitude longitude ->
  some_distance cfg df latitude longitude ->
  exists out,
    snd (spatial_analysis cfg env) = Ok out
    /\ let points := observation_points df latitude longitude in
       let saved := df_analyzed_final out in
       let table := gdf_frame (gdf_observations out) in
       get_col "within_property" saved
       = Ok (SBool (contains (property_polygon cfg) <$> points))
       /\ (forall r, r ∈ BUFFER_RADII_MILES cfg ->
             get_col (property_center_col r) saved
             = Ok (zone_flags cfg (centroid (property_polygon cfg)) points r)
             /\ get_col (apiary_center_col r) saved
                = Ok (zone_flags cfg (APIARY_LON_DD cfg, APIARY_LAT_DD cfg) points r))
       /\ (forall name, name ∈ column_names saved ->
             name ∈ column_names df \/ name = "within_property"
             \/ exists r, r ∈ BUFFER_RADII_MILES cfg
                  /\ (name = property_center_col r \/ name = apiary_center_col r))
       /\ get_col "distance_from_property_center_miles" table
          = Ok (SFloat ((fun d => d / MILES_TO_METERS)%float
                          <$> meters_from_property_center cfg points))
       /\ (forall name, name ∈ column_names table ->
             name ∈ column_names saved \/ name = "geometry"
             \/ name = "distance_from_property_center_meters"
             \/ name = "distance_from_property_center_miles").
Proof.
  intros Hread Hdist. eexists. split; [by apply run_ok|]. cbv zeta. split_and!.
  - apply saved_flag_columns.
  - apply saved_flag_columns.
  - intros name [Hne Hin]%saved_names_elem.
    apply classified_names_elem in Hin as [?|[?|[?|?]]]; auto. done.
  - unfold get_col, outcome_of. cbn [gdf_observations gdf_frame set_col columns].
    rewrite assoc_get_set. by rewrite decide_True.
  - intros name. unfold column_names at 1, outcome_of.
    cbn [gdf_observations gdf_frame set_col columns].
    rewrite !assoc_set_names_elem. intros [[Hin| ->]| ->]; auto.
    destruct (decide (name = "geometry")) as [->|Hne]; auto.
    left. apply saved_names_elem. done.
Qed.

(** C4, as the code has it: on a run that reaches the distance filter, a
    radius list with repeated values raises no error and yields one buffer
    per entry, but a zone column is named after the value of its radius, so
    the entries of one value share one column: no two columns of the saved
    table have the same name. *)
Theorem duplicate_radii_share_a_column cfg env df latitude longitude :
  readable cfg env df latitude longitude ->
  some_distance cfg df latitude longitude ->
  exists out,
    snd (spatial_analysis cfg env) = Ok out
    /\ NoDup (column_names (df_analyzed_final out))
    /\ (forall r, r ∈ BUFFER_RADII_MILES cfg ->
          property_center_col r ∈ column_names (df_analyzed_final out)
          /\ apiary_center_col r ∈ column_names (df_analyzed_final out))
    /\ length (property_center_buffers out) = length (BUFFER_RADII_MILES cfg)
    /\ length (apiary_center_buffers out) = length (BUFFER_RADII_MILES cfg)
    /\ (forall i r, BUFFER_RADII_MILES cfg !! i = Some r ->
          property_center_buffers out !! i
          = Some (r, zone_polygon cfg (centroid (property_polygon cfg)) r)
          /\ apiary_center_buffers out !! i
             = Some (r, zone_polygon cfg (APIARY_LON_DD cfg, APIARY_LAT_DD cfg) r)).
Proof.
  intros Hread Hdist. eexists. split; [by apply run_ok|]. split_and!.
  - unfold column_names, outcome_of. cbn [df_analyzed_final columns].
    rewrite filter_names. apply NoDup_filter, classified_NoDup, Hread.
  - intros r Hr. split; apply saved_names_elem.
    + split; [apply property_center_col_ne_geometry|].
      apply classified_names_elem. eauto 8.
    + split; [apply apiary_center_col_ne_geometry|].
      apply classified_names_elem. eauto 8.
  - unfold outcome_of. cbn [property_center_buffers]. by rewrite length_fmap.
  - unfold outcome_of. cbn [apiary_center_buffers]. by rewrite length_fmap.
  - intros i r Hi. unfold outcome_of.
    cbn [property_center_buffers apiary_center_buffers].
    by rewrite !list_lookup_fmap, Hi.
Qed.

(** C6, as the code has it: the radii are not validated.  The sign of a
    radius is never looked at: the buffer generator is called for every
    radius of the list, in order, with the radius times 1609.34 as the
    distance, and a run that reaches the distance filter has kept one buffer
    per radius and center.  The one radius that stops a run is one too large
    for a float or for a finite length in meters. *)
Theorem radii_not_validated cfg env df latitude longitude :
  readable cfg env df latitude longitude ->
  some_distance cfg df latitude longitude ->
  exists out,
    snd (spatial_analysis cfg env) = Ok out
    /\ property_center_buffers out
       = (fun r => (r, zone_polygon cfg (centroid (property_polygon cfg)) r))
           <$> BUFFER_RADII_MILES cfg
    /\ apiary_center_buffers out
       = (fun r => (r, zone_polygon cfg (APIARY_LON_DD cfg, APIARY_LAT_DD cfg) r))
           <$> BUFFER_RADII_MILES cfg
    /\ (forall center r, r ∈ BUFFER_RADII_MILES cfg ->
          create_geodesic_buffer center (NInt r) (PROJECTED_CRS cfg) (GEOGRAPHIC_CRS cfg)
          = Ok (zone_polygon cfg center r)
          /\ zone_polygon cfg center r
             = geom_to_crs (PROJECTED_CRS cfg) (GEOGRAPHIC_CRS cfg)
                 (buffer (geom_to_crs (GEOGRAPHIC_CRS cfg) (PROJECTED_CRS cfg)
                            (Point_of center))
                    (float_of_int r * 1609.34)%float)).
Proof.
  intros Hread Hdist. eexists. split; [by apply run_ok|]. split_and!; [done..|].
  intros center r Hr. split; [|done].
  apply create_geodesic_buffer_int.
  by eapply Forall_forall; [apply Hread|].
Qed.

(** ** Rows *)

Lemma elem_of_fst_bind_l {A B} (m : Script A) (f : A -> Script B) line :
  line ∈ fst m -> line ∈ fst (m ≫= f).
Proof.
  destruct m as [out [a|e]]; simpl; [|done].
  unfold mbind, Script_bind. destruct (f a). simpl. rewrite elem_of_app. auto.
Qed.

Lemma elem_of_fst_bind_r {A B} (m : Script A) (f : A -> Script B) a line :
  snd m = Ok a -> line ∈ fst (f a) -> line ∈ fst (m ≫= f).
Proof.
  intros Hm Hin. rewrite (fst_bind_Ok _ _ _ Hm), elem_of_app. auto.
Qed.

Lemma kept_rows_lookup df latitude longitude i na_lat na_lon :
  (i < length (index df))%nat ->
  series_isna latitude !! i = Some na_lat ->
  series_isna longitude !! i = Some na_lon ->
  kept_rows df latitude longitude !! i = Some (negb na_lat && negb na_lon).
Proof.
  intros Hi Hlat Hlon. unfold kept_rows.
  rewrite !lookup_zip_with, Hlat, Hlon, lookup_replicate_2 by done.
  simpl. by rewrite andb_true_r.
Qed.





Lemma well_formed_lookup df name s :
  well_formed df -> assoc_get name (columns df) = Some s ->
  series_len s = length (index df).
Proof.
  intros Hwf Hs%assoc_get_Some. unfold well_formed in Hwf.
  rewrite Forall_forall in Hwf. by apply Hwf in Hs.
Qed.

Lemma filter_all {A} (P : A -> Prop) `{forall x, Decision (P x)} (l : list A) :
  Forall P l -> filter P l = l.
Proof.
  induction 1 as [|x l Hx _ IH]; [done|].
  rewrite filter_cons_True by done. by f_equal.
Qed.

(** C7, as the code has it: an observation is left out when, and only when,
    its latitude or its longitude is missing; a coordinate that is present is
    never looked at, whatever its value.  When rows were left out, their
    count is printed, also on a run that stops later. *)
Theorem missing_coordinates_dropped cfg env df latitude longitude :
  readable cfg env df latitude longitude ->
  let kept := select (kept_rows df latitude longitude) (index df) in
  (forall i na_lat na_lon,
     (i < length (index df))%nat ->
     series_isna latitude !! i = Some na_lat ->
     series_isna longitude !! i = Some na_lon ->
     kept_rows df latitude longitude !! i = Some (negb na_lat && negb na_lon))
  /\ (Z.of_nat (length kept) < len df ->
      ("Removed " +:+ pretty (len df - Z.of_nat (length kept))
       +:+ " rows with missing latitude/longitude.")
      ∈ fst (spatial_analysis cfg env))
  /\ (some_distance cfg df latitude longitude ->
      exists out,
        snd (spatial_analysis cfg env) = Ok out
        /\ index (df_analyzed_final out) = kept).
Proof.
  intros Hread. cbv zeta. split_and!.
  - intros i na_lat na_lon. apply kept_rows_lookup.
  - intros Hlt.
    destruct Hread as [Hfile _ Hlat Hlon _ _ _]. unfold spatial_analysis.
    do 3 (eapply elem_of_fst_bind_r; [reflexivity|]).
    rewrite Hfile.
    eapply elem_of_fst_bind_r; [reflexivity|].
    rewrite (dropna_coordinates _ _ _ Hlat Hlon), bind_lift_Ok.
    apply elem_of_fst_bind_l. unfold len, select_rows. cbn [index].
    unfold len in Hlt.
    rewrite bool_decide_true by done. apply list_elem_of_singleton. done.
  - intros Hdist. eexists. split; [by apply run_ok|]. apply saved_index.
Qed.

(** C8, as the code has it: on a run that reaches the distance filter, a
    column of the input whose name is none of those the script assigns to
    is in the saved table with the cells it had, for the observations that
    are classified, and the columns of the input keep their order, before
    what the classification adds.  A column of the input named
    [within_property] does not keep its cells: it holds the flags, and a
    column named [geometry] is not saved. *)
Theorem original_fields_unchanged cfg env df latitude longitude :
  readable cfg env df latitude longitude ->
  some_distance cfg df latitude longitude ->
  exists out,
    snd (spatial_analysis cfg env) = Ok out
    /\ index (df_analyzed_final out)
       = select (kept_rows df latitude longitude) (index df)
    /\ (forall name s, fresh name -> assoc_get name (columns df) = Some s ->
          get_col name (df_analyzed_final out)
          = Ok (series_select (kept_rows df latitude longitude) s))
    /\ filter (fun name => name <> "geometry") (column_names df)
       `prefix_of` column_names (df_analyzed_final out)
    /\ get_col "within_property" (df_analyzed_final out)
       = Ok (SBool (contains (property_polygon cfg)
                      <$> observation_points df latitude longitude))
    /\ "geometry" ∉ column_names (df_analyzed_final out).
Proof.
  intros Hread Hdist. eexists. split; [by apply run_ok|]. split_and!.
  - apply saved_index.
  - intros name s Hname Hs.
    rewrite saved_get_col by apply Hname.
    by rewrite (classified_original _ _ _ _ _ _ Hname Hs).
  - unfold column_names at 2, outcome_of. cbn [df_analyzed_final columns].
    rewrite filter_names.
    assert (column_names df `prefix_of`
              (columns (classified cfg df latitude longitude)).*1) as [k ->].
    { unfold classified. etrans; [|apply add_zones_names_prefix].
      etrans; [|apply add_zones_names_prefix]. cbn [set_col columns].
      etrans; [|apply assoc_set_names_prefix].
      etrans; [|apply assoc_set_names_prefix].
      by rewrite select_rows_names. }
    rewrite filter_app. by apply prefix_app_r.
  - apply saved_flag_columns.
  - intros [Hne _]%saved_names_elem. done.
Qed.


End Run.
(** ** Errors and edges of the run *)

Lemma Prim2SF_nan d : is_nan d = true -> Prim2SF d = S754_nan.
Proof.
  unfold is_nan. rewrite FloatAxioms.eqb_spec. intros Hn.
  destruct (Prim2SF d) as [s|s| |s m e] eqn:E; [| |done|].
  - destruct s; cbv in Hn; discriminate.
  - destruct s; cbv in Hn; discriminate.
  - exfalso. unfold SFeqb, SFcompare in Hn.
    rewrite Z.compare_refl, Pos.compare_refl in Hn. destruct s; discriminate.
Qed.

(** NaN compares below nothing. *)
Lemma leb_nan d y : is_nan d = true -> (d <=? y)%float = false.
Proof. intros Hn. rewrite FloatAxioms.leb_spec, (Prim2SF_nan _ Hn). done. Qed.

Lemma is_nan_Prim2SF d : Prim2SF d = S754_nan -> is_nan d = true.
Proof.
  intros Hd. unfold is_nan. by rewrite FloatAxioms.eqb_spec, Hd.
Qed.

(** NaN divided by anything is NaN. *)
Lemma div_nan d y : is_nan d = true -> is_nan (d / y)%float = true.
Proof.
  intros Hn. apply is_nan_Prim2SF.
  rewrite FloatAxioms.div_spec, (Prim2SF_nan _ Hn). done.
Qed.

(** When every distance is NaN the distance filter keeps nothing. *)
Lemma select_all_nan {A} (meters : list float) limit (l : list A) :
  forallb is_nan meters = true ->
  select ((fun d => d <=? limit)%float
            <$> ((fun d => d / MILES_TO_METERS)%float <$> meters)) l
  = [].
Proof.
  revert l. induction meters as [|d meters IH]; intros [|x l] Hall; try done.
  cbn in Hall. apply andb_true_iff in Hall as [Hd Hall].
  cbn [fmap list_fmap select]. rewrite leb_nan by by apply div_nan.
  by apply IH.
Qed.

(** The rows a mask keeps have no missing cell in a column whose missing
    cells the mask leaves out. *)
Lemma select_not_missing (keep nas : list bool) :
  (forall i, keep !! i = Some true -> nas !! i = Some true -> False) ->
  Forall (fun na => na = false) (select keep nas).
Proof.
  revert nas. induction keep as [|k keep IH]; intros [|na nas] Hkeep; simpl;
    try (by constructor).
  assert (Forall (fun na => na = false) (select keep nas)) as Htail.
  { apply IH. intros i. apply (Hkeep (S i)). }
  destruct k; [|done]. constructor; [|done].
  destruct na; [|done]. by destruct (Hkeep 0%nat).
Qed.

Lemma series_isna_select keep s :
  series_isna (series_select keep s) = select keep (series_isna s).
Proof. destruct s; simpl; by rewrite select_fmap. Qed.

Section Edges.
Context `{GeoLib} `{Repr}.

(** X1: without the cleaned file the script prints where it looked for it
    and exits; it prints nothing else and writes nothing. *)
Theorem missing_file_exits cfg env :
  cleaned_file env = None ->
  spatial_analysis cfg env
  = ((opening_lines cfg
      ++ ["Error: data/sludge_hub_cleaned_data.csv not found. Please ensure the "
          +:+ "'inat_data_pull.py' script has been run or the file exists in "
          +:+ "the correct 'data' directory."])%list,
     Raise SystemExit).
Proof. intros Hfile. unfold spatial_analysis. rewrite Hfile. reflexivity. Qed.

(** X2: a cleaned file without a latitude or a longitude column stops the
    script with a [KeyError] right after the file is loaded: no observation
    is classified and nothing is saved. *)
Theorem missing_coordinate_column_raises cfg env df :
  cleaned_file env = Some df ->
  assoc_get "latitude" (columns df) = None
  \/ assoc_get "longitude" (columns df) = None ->
  exists key,
    spatial_analysis cfg env
    = ((opening_lines cfg
        ++ ["Loaded " +:+ pretty (len df)
            +:+ " observations from data/sludge_hub_cleaned_data.csv"])%list,
       Raise (KeyError key))
    /\ (key = "latitude" \/ key = "longitude").
Proof.
  intros Hfile Hmissing.
  assert (exists key, dropna ["latitude"; "longitude"] df = Raise (KeyError key)
                      /\ (key = "latitude" \/ key = "longitude"))
    as (key & Hdrop & Hkey).
  { unfold dropna. cbn [notna_mask]. unfold get_col.
    destruct (assoc_get "latitude" (columns df)) as [lat|] eqn:Hlat.
    - destruct Hmissing as [|Hlon]; [done|]. rewrite Hlon.
      exists "longitude". split; [reflexivity | by right].
    - exists "latitude". split; [reflexivity | by left]. }
  exists key. split; [|done].
  unfold spatial_analysis. rewrite Hfile.
  cbv beta iota zeta delta [mbind Script_bind print mret Script_ret lift].
  rewrite Hdrop. reflexivity.
Qed.

Lemma for_each_zone_step_refused cfg center col label points good r rest :
  (forall r, col r <> "geometry") ->
  points <> [] ->
  Forall float_range good ->
  ~ float_range r ->
  forall gdf buffers,
    gdf_geometry gdf = Ok points ->
    snd (for_each (good ++ r :: rest) (zone_step cfg center col label)
           (gdf, buffers))
    = Raise (if is_infinity (float_of_int r) then OverflowError
             else GEOSException).
Proof.
  intros Hcol Hrows Hgood Hr.
  induction Hgood as [|r' good Hr' _ IH]; intros gdf buffers Hgeom.
  - cbn [app for_each]. rewrite snd_bind. unfold zone_step.
    by rewrite create_geodesic_buffer_refused.
  - cbn [app for_each]. rewrite snd_bind.
    rewrite (zone_step_Ok _ _ _ _ points) by done. cbn [snd].
    apply IH. by rewrite gdf_geometry_set_col.
Qed.

(** X3: on a table with an observation to classify, the first radius of
    the list that the buffer generator does not accept stops the script:
    with an [OverflowError] when the int is too large for a float, with the
    exception of the buffer operation when its length in meters is not
    finite. *)
Theorem radius_overflow_raises cfg env df latitude longitude good r rest :
  cleaned_file env = Some df ->
  assoc_get "latitude" (columns df) = Some latitude ->
  assoc_get "longitude" (columns df) = Some longitude ->
  to_float64 latitude = Ok (floats latitude) ->
  to_float64 longitude = Ok (floats longitude) ->
  some_row df latitude longitude ->
  BUFFER_RADII_MILES cfg = (good ++ r :: rest)%list ->
  Forall float_range good ->
  ~ float_range r ->
  snd (spatial_analysis cfg env)
  = Raise (if is_infinity (float_of_int r) then OverflowError else GEOSException).
Proof.
  intros Hfile Hlat Hlon Hnlat Hnlon Hrows Hradii Hgood Hr.
  unfold some_row in Hrows.
  pose proof (for_each_zone_step_refused cfg (centroid (property_polygon cfg))
                property_center_col "Property Center"
                (observation_points df latitude longitude) good r rest
                property_center_col_ne_geometry Hrows Hgood Hr) as Hloop.
  unfold spatial_analysis.
  do 3 (rewrite snd_bind; cbn [snd print]).
  rewrite snd_bind, Hfile. rewrite snd_bind; cbn [snd print mret Script_ret].
  rewrite (dropna_coordinates _ _ _ Hlat Hlon), bind_lift_Ok.
  rewrite snd_bind, snd_if_print.
  rewrite (get_col_select_rows _ _ _ _ Hlon), bind_lift_Ok.
  rewrite (get_col_select_rows _ _ _ _ Hlat), bind_lift_Ok.
  unfold points_from_xy. rewrite !to_float64_select by done.
  cbn [mbind result_bind]. rewrite bind_lift_Ok.
  rewrite gdf_geometry_new, bind_lift_Ok.
  rewrite sum_flags_Ok, bind_lift_Ok by done.
  do 6 (rewrite snd_bind; cbn [snd print]).
  rewrite snd_bind, Hradii.
  by rewrite Hloop; [|by rewrite gdf_geometry_set_col, gdf_geometry_new].
Qed.

Lemma kept_rows_latitude df latitude longitude i :
  kept_rows df latitude longitude !! i = Some true ->
  series_isna latitude !! i = Some true -> False.
Proof.
  unfold kept_rows. rewrite lookup_zip_with. intros Hkeep Hna.
  rewrite Hna in Hkeep. simpl in Hkeep.
  destruct (zip_with _ _ _ !! i); simpl in Hkeep; congruence.
Qed.

Lemma kept_rows_longitude df latitude longitude i :
  kept_rows df latitude longitude !! i = Some true ->
  series_isna longitude !! i = Some true -> False.
Proof.
  unfold kept_rows. rewrite !lookup_zip_with. intros Hkeep Hna.
  rewrite Hna in Hkeep. simpl in Hkeep.
  destruct (series_isna latitude !! i) as [na|]; simpl in Hkeep; [|done].
  destruct (replicate _ _ !! i) as [k|]; simpl in Hkeep; [|done].
  destruct na; simpl in Hkeep; congruence.
Qed.

(** X4: on a run that reaches the distance filter, no observation with a
    missing latitude or longitude is among those that are classified and
    saved. *)
Theorem classified_coordinates_present cfg env df latitude longitude :
  readable cfg env df latitude longitude ->
  some_distance cfg df latitude longitude ->
  exists out latitude' longitude',
    snd (spatial_analysis cfg env) = Ok out
    /\ get_col "latitude" (df_analyzed_final out) = Ok latitude'
    /\ get_col "longitude" (df_analyzed_final out) = Ok longitude'
    /\ complete latitude' /\ complete longitude'.
Proof.
  intros Hread Hdist.
  exists (outcome_of cfg df latitude longitude),
    (series_select (kept_rows df latitude longitude) latitude),
    (series_select (kept_rows df latitude longitude) longitude).
  split; [by apply run_ok|]. split_and!.
  - rewrite saved_get_col by done.
    by rewrite (classified_original _ _ _ _ _ latitude);
      [|split; [done|reflexivity]|apply Hread].
  - rewrite saved_get_col by done.
    by rewrite (classified_original _ _ _ _ _ longitude);
      [|split; [done|reflexivity]|apply Hread].
  - unfold complete. rewrite series_isna_select. apply select_not_missing.
    intros i. apply kept_rows_latitude.
  - unfold complete. rewrite series_isna_select. apply select_not_missing.
    intros i. apply kept_rows_longitude.
Qed.

Lemma observation_points_are_points df latitude longitude i p :
  observation_points df latitude longitude !! i = Some p ->
  exists x y, p = Point x y.
Proof.
  unfold observation_points. rewrite lookup_zip_with.
  destruct (select _ (floats longitude) !! i) as [x|]; [|done].
  destruct (select _ (floats latitude) !! i) as [y|]; [|done].
  intros [= <-]. eauto.
Qed.

(** X5: on a run that reaches the distance filter, the distance of an
    observation is the planar distance between its projection and the
    projection of the centroid of the property, the point the property
    buffers are built around; the miles are the meters divided by 1609.34.
    Every observation that is classified is a point and has its distance. *)
Theorem distance_columns cfg env df latitude longitude :
  readable cfg env df latitude longitude ->
  some_distance cfg df latitude longitude ->
  exists out meters miles,
    snd (spatial_analysis cfg env) = Ok out
    /\ get_col "distance_from_property_center_meters"
         (gdf_frame (gdf_observations out)) = Ok (SFloat meters)
    /\ get_col "distance_from_property_center_miles"
         (gdf_frame (gdf_observations out)) = Ok (SFloat miles)
    /\ length meters = length (observation_points df latitude longitude)
    /\ length miles = length (observation_points df latitude longitude)
    /\ forall i p, observation_points df latitude longitude !! i = Some p ->
         exists x y,
           p = Point x y
           /\ let project := transform (GEOGRAPHIC_CRS cfg) (PROJECTED_CRS cfg) in
              let center := project (centroid (property_polygon cfg)) in
              let d := distance
                         (Point (fst (project (x, y))) (snd (project (x, y))))
                         (Point (fst center) (snd center)) in
              meters !! i = Some d /\ miles !! i = Some (d / 1609.34)%float.
Proof.
  intros Hread Hdist.
  exists (outcome_of cfg df latitude longitude),
    (meters_from_property_center cfg (observation_points df latitude longitude)),
    ((fun d => d / MILES_TO_METERS)%float
       <$> meters_from_property_center cfg
             (observation_points df latitude longitude)).
  split; [by apply run_ok|]. split_and!.
  - unfold get_col, outcome_of. cbn [gdf_observations gdf_frame set_col columns].
    rewrite !assoc_get_set. by rewrite decide_False, decide_True.
  - unfold get_col, outcome_of. cbn [gdf_observations gdf_frame set_col columns].
    rewrite assoc_get_set. by rewrite decide_True.
  - unfold meters_from_property_center. by rewrite !length_fmap.
  - unfold meters_from_property_center. by rewrite !length_fmap.
  - intros i p Hp.
    destruct (observation_points_are_points _ _ _ _ _ Hp) as (x & y & ->).
    exists x, y. split; [done|]. cbv zeta. unfold meters_from_property_center.
    rewrite !list_lookup_fmap, Hp.
    cbn [fmap option_fmap option_map geom_to_crs]. unfold Point_of.
    change MILES_TO_METERS with 1609.34%float.
    by destruct (centroid (property_polygon cfg)).
Qed.

(** X6: on a run that reaches the distance filter, the observations handed
    to the maps are those whose distance from the property center is at most
    [MAX_MAP_DISTANCE_MILES], in the order of the table; an observation whose
    distance is NaN is not among them. *)
Theorem map_distance_filter cfg env df latitude longitude :
  readable cfg env df latitude longitude ->
  some_distance cfg df latitude longitude ->
  exists out miles near,
    snd (spatial_analysis cfg env) = Ok out
    /\ get_col "distance_from_property_center_miles"
         (gdf_frame (gdf_observations out)) = Ok (SFloat miles)
    /\ index (gdf_observations_for_map out)
       = select near (index (df_analyzed_final out))
    /\ length near = length miles
    /\ forall i d, miles !! i = Some d ->
         near !! i = Some (d <=? float_of_int (MAX_MAP_DISTANCE_MILES cfg))%float
         /\ (is_nan d = true -> near !! i = Some false).
Proof.
  intros Hread Hdist.
  exists (outcome_of cfg df latitude longitude),
    ((fun d => d / MILES_TO_METERS)%float
       <$> meters_from_property_center cfg
             (observation_points df latitude longitude)),
    ((fun d => d <=? float_of_int (MAX_MAP_DISTANCE_MILES cfg))%float
       <$> ((fun d => d / MILES_TO_METERS)%float
              <$> meters_from_property_center cfg
                    (observation_points df latitude longitude))).
  split; [by apply run_ok|]. split_and!.
  - unfold get_col, outcome_of. cbn [gdf_observations gdf_frame set_col columns].
    rewrite assoc_get_set. by rewrite decide_True.
  - done.
  - by rewrite length_fmap.
  - intros i d Hd. rewrite list_lookup_fmap, Hd. simpl. split; [done|].
    intros Hnan. by rewrite leb_nan.
Qed.

End Edges.

(** ** The data pull *)

Section PullProperties.
Context {observation : Type}.
Variable requests_get : Request -> reply observation.
Variables project_id base_url : string.
Variable per_page : Z.

Local Notation "'step'" :=
  (pull_step observation requests_get project_id base_url per_page).
Local Notation "'loop'" :=
  (fun fuel => pull_loop observation fuel requests_get project_id base_url per_page).
Local Notation "'request_for'" := (page_request project_id base_url per_page).

(** A page with observations, read in a state that has its total or that
    meets a total other than zero: the loop goes on to the next page. *)
Lemma pull_step_continue st obs announced :
  obs <> [] ->
  serves observation requests_get project_id base_url per_page (page st)
    (mkData announced (Some obs)) ->
  (total_results st = None -> default 0 announced <> 0) ->
  exists st',
    step st = Continue observation st'
    /\ all_observations st' = (all_observations st ++ obs)%list
    /\ page st' = page st + 1
    /\ total_results st'
       = Some (default (default 0 announced) (total_results st))
    /\ requests st' = (requests st ++ [request_for (page st)])%list
    /\ slept st' = S (slept st)
    /\ output st `prefix_of` output st'.
Proof.
  intros Hobs [txt Hget] Htotal. unfold pull_step. fold (request_for (page st)).
  rewrite Hget. destruct obs as [|o obs]; [done|].
  cbn -[pretty]. destruct (total_results st) as [t|] eqn:Ht.
  - eexists. split; [reflexivity|]. cbn -[pretty]. rewrite Ht.
    split_and!; try done. rewrite <- !app_assoc. by apply prefix_app_r.
  - specialize (Htotal eq_refl). rewrite decide_False by done.
    eexists. split; [reflexivity|]. cbn -[pretty].
    split_and!; try done. rewrite <- !app_assoc. by apply prefix_app_r.
Qed.

(** The loop reads the pages that have observations one after the other. *)
Lemma pull_loop_pages pages : forall st total fuel,
  total <> 0 ->
  (total_results st = None \/ total_results st = Some total) ->
  (forall i obs, pages !! i = Some obs ->
     obs <> []
     /\ exists announced,
          serves observation requests_get project_id base_url per_page
            (page st + Z.of_nat i) (mkData announced (Some obs))
          /\ (total_results st = None -> i = 0%nat -> announced = Some total)) ->
  exists st',
    loop (length pages + fuel)%nat st = loop fuel st'
    /\ all_observations st' = (all_observations st ++ concat pages)%list
    /\ page st' = page st + Z.of_nat (length pages)
    /\ (pages <> [] -> total_results st' = Some total)
    /\ (pages = [] -> st' = st)
    /\ requests st'
       = (requests st
          ++ ((fun i => request_for (page st + Z.of_nat i)) <$> seq 0 (length pages)))%list
    /\ slept st' = (slept st + length pages)%nat
    /\ output st `prefix_of` output st'.
Proof.
  induction pages as [|obs pages IH]; intros st total fuel Htot Hst Hpages.
  - exists st. cbn [length concat seq fmap list_fmap]. rewrite !app_nil_r, Z.add_0_r.
    split_and!; done.
  - destruct (Hpages 0%nat obs eq_refl) as (Hobs & announced & Hserve & Hfirst).
    rewrite Z.add_0_r in Hserve.
    destruct (pull_step_continue st obs announced Hobs Hserve)
      as (st1 & Hstep & Hall & Hpage & Htotal & Hreq & Hslept & Hout).
    { intros Hnone. rewrite (Hfirst Hnone eq_refl). done. }
    assert (total_results st1 = Some total) as Htotal1.
    { rewrite Htotal. destruct Hst as [Hnone|Hsome].
      - rewrite Hnone, (Hfirst Hnone eq_refl). done.
      - by rewrite Hsome. }
    destruct (IH st1 total fuel Htot (or_intror Htotal1))
      as (st' & Hloop & Hall' & Hpage' & Htotal' & Hnil' & Hreq' & Hslept' & Hout').
    { intros i obs' Hi. destruct (Hpages (S i) obs' Hi) as (Hobs' & ann & Hs & _).
      split; [done|]. exists ann. split; [|by rewrite Htotal1].
      rewrite Hpage. by replace (page st + 1 + Z.of_nat i)
        with (page st + Z.of_nat (S i)) by lia. }
    exists st'. split_and!.
    + cbn [length Nat.add pull_loop]. by rewrite Hstep.
    + rewrite Hall', Hall. cbn [concat]. by rewrite app_assoc.
    + rewrite Hpage', Hpage. cbn [length]. lia.
    + intros _. destruct pages as [|obs' pages].
      * by rewrite (Hnil' eq_refl).
      * by apply Htotal'.
    + done.
    + rewrite Hreq', Hreq. cbn [length seq fmap list_fmap]. rewrite Z.add_0_r.
      rewrite <- app_assoc. cbn [app]. do 2 f_equal.
      rewrite <- (fmap_S_seq 0), <- list_fmap_compose. apply list_fmap_ext.
      intros _ i _. cbn. rewrite Hpage. f_equal. lia.
    + rewrite Hslept', Hslept. cbn [length]. lia.
    + by etrans.
Qed.


(** A page without observations, or a first page that announces no
    observation, ends the loop. *)
Lemma pull_step_empty st announced results :
  serves observation requests_get project_id base_url per_page (page st)
    (mkData announced results) ->
  default [] results = [] \/ (total_results st = None /\ default 0 announced = 0) ->
  exists st',
    step st = Break observation st'
    /\ all_observations st' = all_observations st
    /\ total_results st'
       = Some (default (default 0 announced) (total_results st))
    /\ requests st' = (requests st ++ [request_for (page st)])%list
    /\ slept st' = slept st.
Proof.
  intros [txt Hget] Hstop. unfold pull_step. fold (request_for (page st)).
  rewrite Hget. cbn -[pretty].
  destruct (total_results st) as [t|] eqn:Ht.
  - destruct Hstop as [Hempty|[? _]]; [|done]. rewrite Hempty.
    eexists. split; [reflexivity|]. cbn -[pretty]. by rewrite Ht.
  - destruct (decide (default 0 announced = 0)) as [Hzero|Hnonzero].
    + eexists. split; [reflexivity|]. by cbn -[pretty].
    + destruct Hstop as [Hempty|[_ ?]]; [|done]. rewrite Hempty.
      eexists. split; [reflexivity|]. by cbn -[pretty].
Qed.

Lemma serves_pages_from_start total pages i obs :
  serves_pages observation requests_get project_id base_url per_page total pages ->
  pages !! i = Some obs ->
  obs <> []
  /\ exists announced,
       serves observation requests_get project_id base_url per_page
         (1 + Z.of_nat i) (mkData announced (Some obs))
       /\ (@None Z = None -> i = 0%nat -> announced = Some total).
Proof.
  intros [_ Hpages] Hi. destruct (Hpages i obs Hi) as (Hobs & ann & Hs & Hfirst).
  split; [done|]. exists ann. rewrite Z.add_comm. auto.
Qed.

(** The state after the pages that have observations. *)
Lemma pull_loop_served total pages fuel :
  serves_pages observation requests_get project_id base_url per_page total pages ->
  exists st',
    loop (length pages + fuel)%nat
      (mkPullState observation [] 1 None
         ["Starting data pull for iNaturalist project ID: " +:+ project_id] [] 0)
    = loop fuel st'
    /\ all_observations st' = concat pages
    /\ page st' = Z.of_nat (length pages) + 1
    /\ total_results st' = (if pages is [] then None else Some total)
    /\ requests st'
       = (fun i => request_for (Z.of_nat i + 1)) <$> seq 0 (length pages)
    /\ slept st' = length pages.
Proof.
  intros Hserves.
  destruct (pull_loop_pages pages
              (mkPullState observation [] 1 None
                 ["Starting data pull for iNaturalist project ID: " +:+ project_id]
                 [] 0) total fuel)
    as (st' & Hloop & Hall & Hpage & Htotal & Hnil & Hreq & Hslept & _).
  - apply Hserves.
  - by left.
  - intros i obs Hi. by apply (serves_pages_from_start total pages).
  - exists st'. split; [done|]. cbn in Hall, Hpage, Hreq, Hslept.
    split_and!; try done.
    + rewrite Hpage. lia.
    + destruct pages; [by rewrite (Hnil eq_refl) | by apply Htotal].
    + rewrite Hreq. apply list_fmap_ext. intros _ i _. f_equal. lia.
Qed.

(** X7: when the server holds pages with observations followed by a page
    without any, the function asks for these pages, in order and once each,
    and returns the observations of all of them, in order; it sleeps once
    after every page that had observations. *)
Theorem pull_reads_all_pages total pages announced results fuel :
  serves_pages observation requests_get project_id base_url per_page total pages ->
  serves observation requests_get project_id base_url per_page
    (Z.of_nat (length pages) + 1) (mkData announced results) ->
  default [] results = [] ->
  (length pages < fuel)%nat ->
  exists st,
    pull_inaturalist_data observation fuel requests_get project_id base_url per_page
    = Some (Returned (concat pages) st)
    /\ requests st
       = (fun i => request_for (Z.of_nat i + 1)) <$> seq 0 (S (length pages))
    /\ slept st = length pages.
Proof.
  intros Hserves Hlast Hempty Hfuel.
  destruct (pull_loop_served total pages (fuel - length pages) Hserves)
    as (st' & Hloop & Hall & Hpage & Htotal & Hreq & Hslept).
  replace (length pages + (fuel - length pages))%nat with fuel in Hloop by lia.
  rewrite <- Hpage in Hlast.
  destruct (pull_step_empty st' announced results Hlast (or_introl Hempty))
    as (st'' & Hstep & Hall' & _ & Hreq' & Hslept').
  unfold pull_inaturalist_data. rewrite Hloop.
  destruct (fuel - length pages)%nat as [|k] eqn:Hk; [lia|].
  cbn [pull_loop]. rewrite Hstep. eexists. split_and!.
  - by rewrite Hall', Hall.
  - cbn [requests say]. rewrite Hreq', Hreq, Hpage.
    by rewrite seq_S, fmap_app.
  - cbn [slept say]. by rewrite Hslept'.
Qed.

(** X8: a first page that announces zero observations, or no total at all,
    ends the pull at once: the function returns the empty list, whatever
    the page holds, after this one request. *)
Theorem pull_stops_on_zero_total announced results fuel :
  serves observation requests_get project_id base_url per_page 1
    (mkData announced results) ->
  default 0 announced = 0 ->
  (0 < fuel)%nat ->
  exists st,
    pull_inaturalist_data observation fuel requests_get project_id base_url per_page
    = Some (Returned [] st)
    /\ requests st = [request_for 1]
    /\ slept st = 0%nat
    /\ last (output st) = Some "Successfully fetched all 0 observations.".
Proof.
  intros Hserve Hzero Hfuel. unfold pull_inaturalist_data.
  destruct fuel as [|fuel]; [lia|]. cbn [pull_loop].
  destruct (pull_step_empty
              (mkPullState observation [] 1 None
                 ["Starting data pull for iNaturalist project ID: " +:+ project_id]
                 [] 0) announced results Hserve)
    as (st' & Hstep & Hall & Htotal & Hreq & Hslept); [by right|].
  rewrite Hstep. eexists. split_and!.
  - by rewrite Hall.
  - done.
  - done.
  - cbn [output say]. rewrite last_snoc. f_equal.
    unfold summary. rewrite Hall, Htotal, Hzero. done.
Qed.

(** X9: an error status on a page ends the pull without an exception: the
    function returns what the pages before it held, and warns when that is
    less than the first page announced. *)
Theorem pull_returns_partial_on_http_error total pages response e fuel :
  serves_pages observation requests_get project_id base_url per_page total pages ->
  requests_get (request_for (Z.of_nat (length pages) + 1)) = Replied response ->
  status_error response = Some e ->
  (length pages < fuel)%nat ->
  exists st,
    pull_inaturalist_data observation fuel requests_get project_id base_url per_page
    = Some (Returned (concat pages) st)
    /\ ("Error fetching data: " +:+ e) ∈ output st
    /\ (pages <> [] -> Z.of_nat (length (concat pages)) < total ->
        last (output st)
        = Some ("Warning: Expected " +:+ pretty total
                +:+ " observations based on initial API report, but only collected "
                +:+ pretty (Z.of_nat (length (concat pages)))
                +:+ ". Data pull might be incomplete.")).
Proof.
  intros Hserves Hget Herr Hfuel.
  destruct (pull_loop_served total pages (fuel - length pages) Hserves)
    as (st' & Hloop & Hall & Hpage & Htotal & Hreq & Hslept).
  replace (length pages + (fuel - length pages))%nat with fuel in Hloop by lia.
  unfold pull_inaturalist_data. rewrite Hloop.
  destruct (fuel - length pages)%nat as [|k] eqn:Hk; [lia|].
  cbn [pull_loop]. unfold pull_step. fold (request_for (page st')).
  rewrite Hpage, Hget, Herr. eexists. split_and!.
  - cbn [all_observations say sent]. by rewrite Hall.
  - cbn [output say sent]. rewrite !elem_of_app, !list_elem_of_singleton. auto.
  - intros Hne Hless. cbn [output say]. rewrite last_snoc. f_equal.
    unfold summary. cbn [all_observations total_results say sent].
    rewrite Hall, Htotal. destruct pages; [done|].
    by rewrite bool_decide_true.
Qed.

(** X10: a failure of the request itself and a body that is not JSON are not
    caught: the function raises, and hands nothing of what it had collected
    to its caller. *)
Theorem pull_raises_on_failed_request total pages fuel :
  serves_pages observation requests_get project_id base_url per_page total pages ->
  requests_get (request_for (Z.of_nat (length pages) + 1)) = Failed
  \/ (exists txt,
        requests_get (request_for (Z.of_nat (length pages) + 1))
        = Replied (mkResponse None txt None)) ->
  (length pages < fuel)%nat ->
  exists e st,
    pull_inaturalist_data observation fuel requests_get project_id base_url per_page
    = Some (Raised e st)
    /\ all_observations st = concat pages.
Proof.
  intros Hserves Hget Hfuel.
  destruct (pull_loop_served total pages (fuel - length pages) Hserves)
    as (st' & Hloop & Hall & Hpage & Htotal & Hreq & Hslept).
  replace (length pages + (fuel - length pages))%nat with fuel in Hloop by lia.
  unfold pull_inaturalist_data. rewrite Hloop.
  destruct (fuel - length pages)%nat as [|k] eqn:Hk; [lia|].
  cbn [pull_loop]. unfold pull_step. fold (request_for (page st')).
  rewrite Hpage. destruct Hget as [->|[txt ->]].
  - do 2 eexists. split; [reflexivity|]. by cbn.
  - do 2 eexists. split; [reflexivity|]. by cbn.
Qed.

(** X11: the total the first page announces never ends the loop: when it is
    not zero and every page has observations, whatever the later pages
    announce, the function asks for the next page however many observations
    it has collected, and never returns. *)
Theorem pull_never_stops_on_total fuel :
  (forall p, 1 <= p ->
     exists announced obs,
       obs <> []
       /\ serves observation requests_get project_id base_url per_page p
            (mkData announced (Some obs))
       /\ (p = 1 -> default 0 announced <> 0)) ->
  pull_inaturalist_data observation fuel requests_get project_id base_url per_page
  = None.
Proof.
  intros Hpages. unfold pull_inaturalist_data.
  assert (forall st,
    1 <= page st -> (total_results st = None -> page st = 1) ->
    loop fuel st = None) as Hloop.
  { induction fuel as [|k IH]; intros st Hpage Hfirst; [done|].
    destruct (Hpages (page st) Hpage) as (announced & obs & Hobs & Hserve & Htotal).
    destruct (pull_step_continue st obs announced Hobs Hserve)
      as (st' & Hstep & _ & Hpage' & Htotal' & _); [by auto|].
    cbn [pull_loop]. rewrite Hstep. apply IH; [lia|].
    rewrite Htotal'. done. }
  by rewrite Hloop.
Qed.

End PullProperties.

(** ** The columns of the cleaned file *)

(** X12: the columns selected for the cleaned file are pairwise distinct,
    they are columns of the normalized table and among the twelve selected
    names, in the order of that list, and none of them is a name the
    analysis script assigns to. *)
Theorem actual_columns_selected (df_columns : list string) :
  NoDup (actual_columns df_columns)
  /\ sublist (actual_columns df_columns) selected_columns
  /\ Forall fresh (actual_columns df_columns)
  /\ forall col, col ∈ actual_columns df_columns
       <-> col ∈ selected_columns /\ col ∈ df_columns.
Proof.
  unfold actual_columns. split_and!.
  - apply NoDup_filter. apply (bool_decide_unpack _). vm_compute. exact I.
  - apply sublist_filter.
  - apply Forall_forall. intros col [_ Hcol]%list_elem_of_filter.
    by eapply Forall_forall; [apply selected_columns_fresh|].
  - intros col. rewrite list_elem_of_filter. tauto.
Qed.

(** ** Degrees, minutes and seconds *)

Lemma ascii_upper_idem c : ascii_upper (ascii_upper c) = ascii_upper c.
Proof. destruct c as [[] [] [] [] [] [] [] []]; reflexivity. Qed.

Lemma upper_idem s : upper (upper s) = upper s.
Proof.
  induction s as [|c s IH]; [done|]. simpl. by rewrite ascii_upper_idem, IH.
Qed.

(** X13: the direction is matched without regard to case, south and west
    negate the value north and east give, and any other text, the empty one
    included, is taken for north or east: no direction is refused. *)
Theorem dms_to_dd_direction degrees minutes seconds direction :
  ascii_only direction ->
  dms_to_dd degrees minutes seconds direction
  = dms_to_dd degrees minutes seconds (upper direction)
  /\ (upper direction = "S" \/ upper direction = "W" ->
      dms_to_dd degrees minutes seconds direction
      = match dms_to_dd degrees minutes seconds "N" with
        | Ok dd => Ok (dd * -1)%float
        | Raise e => Raise e
        end)
  /\ (upper direction <> "S" -> upper direction <> "W" ->
      dms_to_dd degrees minutes seconds direction
      = dms_to_dd degrees minutes seconds "N").
Proof.
  intros _. unfold dms_to_dd. split_and!.
  - by rewrite upper_idem.
  - intros Hsw.
    rewrite (bool_decide_true (upper direction ∈ ["S"; "W"]));
      [|rewrite !elem_of_cons; tauto].
    by destruct (to_float degrees), (to_float minutes), (to_float seconds).
  - intros Hs Hw.
    rewrite (bool_decide_false (upper direction ∈ ["S"; "W"])); [done|].
    rewrite !elem_of_cons, elem_of_nil. tauto.
Qed.

(** ** The maps *)

Lemma series_cells_length s : length (series_cells s) = series_len s.
Proof. destruct s; simpl; by rewrite length_fmap. Qed.

Lemma row_get_cell_at df i name c :
  cell_at df i name = Some c -> row_get df i name = Ok c.
Proof.
  unfold cell_at, row_get, get_col.
  destruct (assoc_get name (columns df)) as [s|]; [|done]. simpl. by intros ->.
Qed.

(** In a table with a cell per row, a column has a cell at every position. *)
Lemma cell_at_is_Some df i name :
  well_formed df -> (i < length (index df))%nat ->
  is_Some (assoc_get name (columns df)) -> is_Some (cell_at df i name).
Proof.
  intros Hwf Hi [s Hs]. unfold cell_at. rewrite Hs. simpl.
  apply lookup_lt_is_Some. rewrite series_cells_length.
  by rewrite (well_formed_lookup _ _ _ Hwf Hs).
Qed.

Lemma row_get_missing df i name :
  assoc_get name (columns df) = None -> row_get df i name = Raise (KeyError name).
Proof. intros Hnone. unfold row_get, get_col. by rewrite Hnone. Qed.

Lemma for_rows_Ok {A B} (f : A -> result B) (g : A -> B) l :
  (forall x, x ∈ l -> f x = Ok (g x)) -> for_rows f l = Ok (g <$> l).
Proof.
  induction l as [|x l IH]; intros Hf; [done|]. cbn [for_rows].
  rewrite Hf by left. cbn [mbind result_bind]. rewrite IH; [done|].
  intros y Hy. apply Hf. by right.
Qed.

Lemma any_zone_Ok df i col radii :
  Forall (fun r => is_Some (cell_at df i (col r))) radii ->
  any_zone df i col radii
  = Ok (existsb (fun r => from_option truthy false (cell_at df i (col r))) radii).
Proof.
  induction 1 as [|r radii [c Hc] _ IH]; [done|]. cbn [any_zone existsb].
  rewrite (row_get_cell_at _ _ _ _ Hc), Hc. cbn [mbind result_bind from_option].
  by destruct (truthy c).
Qed.

Section Maps.
Context `{Repr} `{GeomRepr}.

Lemma observation_marker_Ok cfg col df i :
  drawable cfg col df -> (i < length (index df))%nat ->
  observation_marker cfg col df i = Ok (marker_of cfg col df i).
Proof.
  intros [Hwf Hcols Hzones] Hi.
  assert (forall name, is_Some (assoc_get name (columns df)) ->
            exists c, cell_at df i name = Some c /\ row_get df i name = Ok c)
    as Hcell.
  { intros name Hname. destruct (cell_at_is_Some df i name Hwf Hi Hname) as [c Hc].
    exists c. split; [done | by apply row_get_cell_at]. }
  rewrite !Forall_cons in Hcols.
  destruct Hcols as (Hlat & Hlon & Hid & Hcommon & Hname & Hwithin & _).
  destruct (Hcell _ Hlat) as (lat & Hlat1 & Hlat2).
  destruct (Hcell _ Hlon) as (lon & Hlon1 & Hlon2).
  destruct (Hcell _ Hid) as (ident & Hid1 & Hid2).
  destruct (Hcell _ Hcommon) as (common & Hcommon1 & Hcommon2).
  destruct (Hcell _ Hname) as (name & Hname1 & Hname2).
  destruct (Hcell _ Hwithin) as (within & Hwithin1 & Hwithin2).
  unfold observation_marker, marker_of.
  rewrite Hlat2, Hlon2, Hid2, Hcommon2, Hwithin2, Hname2.
  rewrite Hlat1, Hlon1, Hid1, Hcommon1, Hname1, Hwithin1.
  cbn [mbind result_bind default from_option id].
  rewrite any_zone_Ok.
  - destruct (notna common); rewrite ?Hcommon2, ?Hname2;
      cbn [mbind result_bind]; unfold marker_style;
      destruct (truthy within); cbn [mbind result_bind];
      try destruct (existsb _ _); reflexivity.
  - eapply Forall_impl; [apply Hzones|]. intros r Hr.
    by apply cell_at_is_Some.
Qed.


(** The markers of the rows, one after the other. *)
Lemma markers_Ok cfg col df :
  drawable cfg col df ->
  for_rows (observation_marker cfg col df) (seq 0 (length (index df)))
  = Ok (marker_of cfg col df <$> seq 0 (length (index df))).
Proof.
  intros Hdraw. apply for_rows_Ok.
  intros i Hi%elem_of_seq. apply observation_marker_Ok; [done | lia].
Qed.

(** X14: a map is made of one layer per buffer, in the order of the list of
    buffers and labelled with its radius, then of one marker per row of the
    table, in the order of the rows, then of the layer control. *)
Theorem draw_map_layers cfg center buffers label shade col df :
  drawable cfg col df ->
  draw_map cfg center buffers label shade col df
  = Ok (mkFoliumMap (snd center, fst center) 12
          (zone_layers buffers label shade
           ++ (marker_of cfg col df <$> seq 0 (length (index df)))
           ++ [LayerControl])).
Proof.
  intros Hdraw. unfold draw_map. rewrite markers_Ok by done. reflexivity.
Qed.

(** X15: a marker is red and largest when the observation is within the
    property; otherwise it is orange when the observation is within a buffer
    of the center of the map, for one radius of the list at least, and blue
    and smallest when it is within none. *)
Theorem marker_colours cfg center buffers label shade col df i :
  drawable cfg col df ->
  (i < length (index df))%nat ->
  exists m within location tooltip radius color,
    draw_map cfg center buffers label shade col df = Ok m
    /\ map_layers m !! (length buffers + i)%nat
       = Some (CircleMarker location radius color true color 0.7%float tooltip)
    /\ cell_at df i "within_property" = Some within
    /\ (truthy within = true -> color = "red" /\ radius = 5)
    /\ (truthy within = false ->
        (exists r c, r ∈ BUFFER_RADII_MILES cfg
                     /\ cell_at df i (col r) = Some c /\ truthy c = true) ->
        color = "orange" /\ radius = 3)
    /\ (truthy within = false ->
        (forall r c, r ∈ BUFFER_RADII_MILES cfg ->
                     cell_at df i (col r) = Some c -> truthy c = false) ->
        color = "blue" /\ radius = 2).
Proof.
  intros Hdraw Hi.
  destruct (cell_at_is_Some df i "within_property") as [within Hwithin];
    [apply Hdraw | done | |].
  { destruct Hdraw as [_ Hcols _]. rewrite !Forall_cons in Hcols. tauto. }
  eexists _, within, _, _, _, _.
  split; [unfold draw_map; rewrite markers_Ok by done; reflexivity|].
  split_and!.
  - cbn [map_layers]. rewrite lookup_app_r; unfold zone_layers;
      rewrite length_fmap; [|lia].
    replace (length buffers + i - length buffers)%nat with i by lia.
    rewrite lookup_app_l by (rewrite length_fmap, length_seq; lia).
    rewrite list_lookup_fmap, lookup_seq_lt by done.
    change (0 + i)%nat with i. unfold marker_of. cbv zeta. reflexivity.
  - done.
  - rewrite Hwithin. cbn [default from_option id]. by intros ->.
  - rewrite Hwithin. cbn [default from_option id]. intros -> (r & c & Hr & Hc & Ht).
    assert (existsb (fun r => from_option truthy false (cell_at df i (col r)))
              (BUFFER_RADII_MILES cfg) = true) as ->; [|done].
    apply existsb_exists. exists r. rewrite Hc. split; [|done].
    by apply list_elem_of_In.
  - rewrite Hwithin. cbn [default from_option id]. intros -> Hnone.
    assert (existsb (fun r => from_option truthy false (cell_at df i (col r)))
              (BUFFER_RADII_MILES cfg) = false) as ->; [|done].
    apply not_true_is_false. intros (r & Hr%list_elem_of_In & Ht)%existsb_exists.
    destruct (cell_at df i (col r)) as [c|] eqn:Hc; [|done].
    cbn in Ht. by rewrite (Hnone r c Hr Hc) in Ht.
Qed.

Lemma omap_zone_layers buffers label shade :
  omap marker_place (zone_layers buffers label shade) = [].
Proof.
  unfold zone_layers. induction buffers as [|b bs IH]; [done|].
  rewrite fmap_cons. cbn [omap list_omap marker_place]. exact IH.
Qed.

(** X16: drawn from one table, the two maps show the same observations: their
    markers are at the same places and carry the same text, one by one;
    the center of a map changes the colour and the size of a marker only. *)
Theorem maps_show_same_observations cfg center center' buffers buffers'
    label label' shade shade' col col' df :
  drawable cfg col df ->
  drawable cfg col' df ->
  exists m m',
    draw_map cfg center buffers label shade col df = Ok m
    /\ draw_map cfg center' buffers' label' shade' col' df = Ok m'
    /\ omap marker_place (map_layers m) = omap marker_place (map_layers m').
Proof.
  intros Hdraw Hdraw'. do 2 eexists.
  split; [unfold draw_map; rewrite markers_Ok by done; reflexivity|].
  split; [unfold draw_map; rewrite markers_Ok by done; reflexivity|].
  cbn [map_layers]. pose proof omap_zone_layers as Hzones.
  unfold zone_layers in Hzones. rewrite !omap_app, !Hzones. cbn [app]. f_equal.
  induction (seq 0 (length (index df))) as [|i l IH]; [done|].
  cbn. by rewrite IH.
Qed.

(** Without the column of the common names the first row has no marker. *)
Lemma markers_KeyError cfg col df :
  well_formed df ->
  index df <> [] ->
  is_Some (assoc_get "latitude" (columns df)) ->
  is_Some (assoc_get "longitude" (columns df)) ->
  is_Some (assoc_get "id" (columns df)) ->
  assoc_get "taxon.preferred_common_name" (columns df) = None ->
  for_rows (observation_marker cfg col df) (seq 0 (length (index df)))
  = Raise (KeyError "taxon.preferred_common_name").
Proof.
  intros Hwf Hrows Hlat Hlon Hid Hnone.
  destruct (index df) as [|l ls] eqn:Hindex; [done|].
  cbn [length seq for_rows]. unfold observation_marker.
  assert (0 < length (index df))%nat as Hrow by (rewrite Hindex; cbn; lia).
  destruct (cell_at_is_Some df 0 _ Hwf Hrow Hlat) as [lat ->%row_get_cell_at].
  destruct (cell_at_is_Some df 0 _ Hwf Hrow Hlon) as [lon ->%row_get_cell_at].
  destruct (cell_at_is_Some df 0 _ Hwf Hrow Hid) as [ident ->%row_get_cell_at].
  by rewrite (row_get_missing _ _ _ Hnone).
Qed.

(** X17: the maps read the column of the common names for every row, though
    the data pull keeps it only when the server sent it.  Drawn from a table
    without this column, a map stops with a [KeyError] at the first row;
    only a table without rows gives a map, which has no marker. *)
Theorem draw_map_missing_common_name cfg center buffers label shade col df :
  well_formed df ->
  is_Some (assoc_get "latitude" (columns df)) ->
  is_Some (assoc_get "longitude" (columns df)) ->
  is_Some (assoc_get "id" (columns df)) ->
  assoc_get "taxon.preferred_common_name" (columns df) = None ->
  draw_map cfg center buffers label shade col df
  = match index df with
    | [] =>
        Ok (mkFoliumMap (snd center, fst center) 12
              (zone_layers buffers label shade ++ [LayerControl]))
    | _ :: _ => Raise (KeyError "taxon.preferred_common_name")
    end.
Proof.
  intros Hwf Hlat Hlon Hid Hnone. unfold draw_map.
  destruct (index df) as [|l ls] eqn:Hindex; [done|].
  rewrite <- Hindex, markers_KeyError; try done. by rewrite Hindex.
Qed.

End Maps.

(** ** The maps of the run *)

Lemma select_length {A B} keep (l : list A) (k : list B) :
  length l = length k -> length (select keep l) = length (select keep k).
Proof.
  revert l k. induction keep as [|b keep IH]; intros [|x l] [|y k] Hlen;
    simpl in *; try done.
  destruct b; simpl; auto.
Qed.

Lemma series_select_len keep s (l : list Z) :
  series_len s = length l ->
  series_len (series_select keep s) = length (select keep l).
Proof. destruct s; simpl; apply select_length. Qed.

Lemma well_formed_select_rows keep df :
  well_formed df -> well_formed (select_rows keep df).
Proof.
  unfold well_formed, select_rows. cbn [index columns]. intros Hwf.
  apply Forall_fmap. eapply Forall_impl; [apply Hwf|].
  intros [name s] Hs. cbn in *. by apply series_select_len.
Qed.

Lemma well_formed_set_col name s df :
  well_formed df -> series_len s = length (index df) ->
  well_formed (set_col name s df).
Proof.
  unfold well_formed, set_col. cbn [index columns]. intros Hwf Hs.
  induction Hwf as [|[n s'] cols Hc Hcols IH]; cbn [assoc_set].
  - by repeat constructor.
  - case_decide; constructor; try done.
Qed.

Lemma well_formed_add_zones `{GeoLib} cfg center col points radii df :
  well_formed df -> length points = length (index df) ->
  well_formed (add_zones cfg center col points radii df).
Proof.
  revert df. induction radii as [|r radii IH]; intros df Hwf Hlen; [done|].
  unfold add_zones in *. cbn [foldl]. apply IH.
  - apply well_formed_set_col; [done|]. cbn. by rewrite length_fmap.
  - done.
Qed.

Lemma floats_length `{Repr} s :
  to_float64 s = Ok (floats s) -> length (floats s) = series_len s.
Proof.
  destruct s as [l|l|l|l|l]; simpl; try (intros _; by rewrite length_fmap).
  - done.
  - by intros ->%for_rows_nil.
  - by destruct l.
Qed.

Lemma is_Some_assoc_set name name' s cols :
  is_Some (assoc_get name cols) -> is_Some (assoc_get name (assoc_set name' s cols)).
Proof. rewrite assoc_get_set. by case_decide. Qed.

Lemma is_Some_add_zones `{GeoLib} cfg center col points name radii df :
  is_Some (assoc_get name (columns df)) ->
  is_Some (assoc_get name (columns (add_zones cfg center col points radii df))).
Proof.
  revert df. induction radii as [|r radii IH]; intros df Hname; [done|].
  unfold add_zones in *. cbn [foldl]. apply IH. by apply is_Some_assoc_set.
Qed.

Section MapsOfTheRun.
Context `{GeoLib} `{Repr} `{GeomRepr}.

Lemma observation_points_length cfg env df latitude longitude :
  readable cfg env df latitude longitude -> well_formed df ->
  length (observation_points df latitude longitude)
  = length (select (kept_rows df latitude longitude) (index df)).
Proof.
  intros Hread Hwf. unfold observation_points.
  rewrite length_zip_with.
  rewrite (select_length _ (floats longitude) (index df)),
    (select_length _ (floats latitude) (index df)); [lia| |].
  - rewrite floats_length by apply Hread.
    eapply well_formed_lookup; [done | apply Hread].
  - rewrite floats_length by apply Hread.
    eapply well_formed_lookup; [done | apply Hread].
Qed.

Lemma classified_well_formed cfg env df latitude longitude :
  readable cfg env df latitude longitude -> well_formed df ->
  well_formed (classified cfg df latitude longitude).
Proof.
  intros Hread Hwf.
  pose proof (observation_points_length cfg env df latitude longitude Hread Hwf)
    as Hlen.
  unfold classified.
  do 2 (apply well_formed_add_zones; [|by rewrite ?add_zones_index]).
  apply well_formed_set_col; [|cbn; by rewrite length_fmap].
  apply well_formed_set_col; [|done]. by apply well_formed_select_rows.
Qed.


Lemma map_table_columns cfg df latitude longitude name :
  is_Some (assoc_get name (columns (classified cfg df latitude longitude))) ->
  is_Some (assoc_get name
             (columns (gdf_observations_for_map
                         (outcome_of cfg df latitude longitude)))).
Proof.
  intros Hname. unfold outcome_of.
  cbn [gdf_observations_for_map select_rows set_col columns].
  rewrite (assoc_get_fmap name (series_select _)). apply fmap_is_Some.
  by do 2 apply is_Some_assoc_set.
Qed.

Lemma map_table_drawable cfg env df latitude longitude col :
  readable cfg env df latitude longitude -> well_formed df ->
  is_Some (assoc_get "id" (columns df)) ->
  is_Some (assoc_get "taxon.preferred_common_name" (columns df)) ->
  is_Some (assoc_get "taxon.name" (columns df)) ->
  (forall r, r ∈ BUFFER_RADII_MILES cfg ->
     is_Some (assoc_get (col r) (columns (classified cfg df latitude longitude)))) ->
  drawable cfg col
    (gdf_observations_for_map (outcome_of cfg df latitude longitude)).
Proof.
  intros Hread Hwf Hid Hcommon Hname Hzones.
  pose proof (observation_points_length cfg env df latitude longitude Hread Hwf)
    as Hlen.
  assert (forall name, fresh name -> is_Some (assoc_get name (columns df)) ->
            is_Some (assoc_get name
                       (columns (classified cfg df latitude longitude))))
    as Horiginal.
  { intros name Hfresh [s Hs]. by rewrite (classified_original _ _ _ _ _ _ Hfresh Hs). }
  split.
  - unfold outcome_of. cbn [gdf_observations_for_map].
    apply well_formed_select_rows.
    pose proof (classified_well_formed cfg env df latitude longitude Hread Hwf).
    do 2 (apply well_formed_set_col; [|cbn [set_col index series_len];
      unfold meters_from_property_center;
      by rewrite !length_fmap, classified_index]). done.
  - repeat constructor; apply map_table_columns;
      try (apply Horiginal; [split; [done|reflexivity]|]); try done.
    + rewrite (readable_latitude _ _ _ _ _ Hread). by eexists.
    + rewrite (readable_longitude _ _ _ _ _ Hread). by eexists.
    + rewrite classified_within_property. by eexists.
  - apply Forall_forall. intros r Hr. apply map_table_columns. by apply Hzones.
Qed.

(** The cell of a flag column in the table handed to the maps. *)
Lemma map_table_flag cfg df latitude longitude name (test : geometry -> bool) i p :
  assoc_get name (columns (classified cfg df latitude longitude))
  = Some (SBool (test <$> observation_points df latitude longitude)) ->
  String.prefix "within_" name = true ->
  map_points cfg df latitude longitude !! i = Some p ->
  cell_at (gdf_observations_for_map (outcome_of cfg df latitude longitude)) i name
  = Some (CBool (test p)).
Proof.
  intros Hflags Hprefix Hp. unfold cell_at, outcome_of.
  cbn [gdf_observations_for_map select_rows set_col columns].
  rewrite (assoc_get_fmap name (series_select _)), !assoc_get_set.
  rewrite !decide_False by (intros <-; done). rewrite Hflags.
  cbn [fmap option_fmap option_map mbind option_bind series_select series_cells].
  rewrite select_fmap, !list_lookup_fmap.
  unfold map_points in Hp. cbv zeta in Hp. by rewrite Hp.
Qed.

Lemma existsb_ext_elem {A} (f g : A -> bool) l :
  (forall x, x ∈ l -> f x = g x) -> existsb f l = existsb g l.
Proof.
  induction l as [|x l IH]; intros Hfg; [done|]. cbn.
  rewrite Hfg by left. rewrite IH; [done|]. intros y Hy. apply Hfg. by right.
Qed.

(** X18: on a readable table with a cell per row, with the columns of the
    identifier and of the two names and with a distance that is a number,
    the script runs to its end and draws the two maps.  Each shows the buffers of its center, one layer per entry
    of the radius list, and the observations no farther from the property
    center than the limit, on both maps.  A marker is red when the boundary
    polygon contains the observation, else orange when a buffer of the
    center of the map does, else blue. *)
Theorem maps_of_the_run cfg env df latitude longitude :
  readable cfg env df latitude longitude ->
  some_distance cfg df latitude longitude ->
  well_formed df ->
  is_Some (assoc_get "id" (columns df)) ->
  is_Some (assoc_get "taxon.preferred_common_name" (columns df)) ->
  is_Some (assoc_get "taxon.name" (columns df)) ->
  exists out m_property_center m_apiary_center,
    snd (spatial_analysis_with_maps cfg env)
    = Ok (out, (m_property_center, m_apiary_center))
    /\ let shown := map_points cfg df latitude longitude in
       let table := gdf_observations_for_map out in
       let drawn center label shade col (m : FoliumMap) :=
         map_layers m
         = (zone_layers
              ((fun r => (r, zone_polygon cfg center r)) <$> BUFFER_RADII_MILES cfg)
              label shade
            ++ (marker_of cfg col table <$> seq 0 (length shown))
            ++ [LayerControl])%list
         /\ forall i p, shown !! i = Some p ->
              exists location tooltip,
                let style :=
                  marker_style (contains (property_polygon cfg) p)
                    (existsb (fun r => contains (zone_polygon cfg center r) p)
                       (BUFFER_RADII_MILES cfg)) in
                marker_of cfg col table i
                = CircleMarker location style.2 style.1 true style.1
                    0.7%float tooltip in
       drawn (centroid (property_polygon cfg)) "Property Center" "#0000FF"
         property_center_col m_property_center
       /\ drawn (APIARY_LON_DD cfg, APIARY_LAT_DD cfg) "Apiary Center" "#00FF00"
            apiary_center_col m_apiary_center.
Proof.
  intros Hread Hdist Hwf Hid Hcommon Hname.
  pose proof (run_ok cfg env df latitude longitude Hread Hdist) as Hrun.
  set (out := outcome_of cfg df latitude longitude) in *.
  assert (drawable cfg property_center_col (gdf_observations_for_map out))
    as Hdraw1.
  { apply (map_table_drawable cfg env); try done.
    intros r Hr. rewrite classified_property_zone by done. by eexists. }
  assert (drawable cfg apiary_center_col (gdf_observations_for_map out))
    as Hdraw2.
  { apply (map_table_drawable cfg env); try done.
    intros r Hr. rewrite classified_apiary_zone by done. by eexists. }
  assert (length (index (gdf_observations_for_map out))
          = length (map_points cfg df latitude longitude)) as Hrows.
  { unfold out, outcome_of, map_points.
    cbn [gdf_observations_for_map select_rows set_col index].
    apply select_length. rewrite classified_index. symmetry.
    by apply (observation_points_length cfg env). }
  assert (forall center col i p,
    (forall r, String.prefix "within_" (col r) = true) ->
    (forall r, r ∈ BUFFER_RADII_MILES cfg ->
       assoc_get (col r) (columns (classified cfg df latitude longitude))
       = Some (zone_flags cfg center (observation_points df latitude longitude) r)) ->
    map_points cfg df latitude longitude !! i = Some p ->
    exists location tooltip,
      marker_of cfg col (gdf_observations_for_map out) i
      = CircleMarker location
          (marker_style (contains (property_polygon cfg) p)
             (existsb (fun r => contains (zone_polygon cfg center r) p)
                (BUFFER_RADII_MILES cfg))).2
          (marker_style (contains (property_polygon cfg) p)
             (existsb (fun r => contains (zone_polygon cfg center r) p)
                (BUFFER_RADII_MILES cfg))).1
          true
          (marker_style (contains (property_polygon cfg) p)
             (existsb (fun r => contains (zone_polygon cfg center r) p)
                (BUFFER_RADII_MILES cfg))).1
          0.7%float tooltip) as Hmarker.
  { intros center col i p Hprefix Hzone Hp. unfold marker_of, out. cbv zeta.
    rewrite (map_table_flag cfg df latitude longitude "within_property"
               (contains (property_polygon cfg)) i p);
      [|apply classified_within_property|done|done].
    cbn [default from_option id truthy].
    rewrite (existsb_ext_elem _
               (fun r => contains (zone_polygon cfg center r) p)).
    - by do 2 eexists.
    - intros r Hr.
      rewrite (map_table_flag cfg df latitude longitude (col r)
                 (contains (zone_polygon cfg center r)) i p);
        [done | by apply Hzone | apply Hprefix | done]. }
  subst out. do 3 eexists. split.
  - unfold spatial_analysis_with_maps. rewrite snd_bind, Hrun.
    rewrite snd_bind. unfold render_maps.
    rewrite snd_bind; cbn [snd print].
    unfold draw_map. rewrite (markers_Ok _ _ _ Hdraw1).
    cbn [mbind result_bind]. rewrite bind_lift_Ok.
    do 2 (rewrite snd_bind; cbn [snd print]).
    rewrite (markers_Ok _ _ _ Hdraw2).
    cbn [mbind result_bind]. rewrite bind_lift_Ok.
    rewrite snd_bind; cbn [snd print mret Script_ret]. reflexivity.
  - cbv zeta. cbn [map_layers]. rewrite Hrows. split; (split; [reflexivity|]).
    + intros i p Hp. apply Hmarker; [apply property_center_col_prefix | | done].
      intros r Hr. by apply classified_property_zone.
    + intros i p Hp. apply Hmarker; [apply apiary_center_col_prefix | | done].
      intros r Hr. by apply classified_apiary_zone.
Qed.


Lemma classified_missing cfg df latitude longitude name :
  fresh name ->
  assoc_get name (columns df) = None ->
  assoc_get name (columns (classified cfg df latitude longitude)) = None.
Proof.
  intros Hfresh Hnone. unfold classified.
  rewrite !assoc_get_add_zones by auto using fresh_ne_property, fresh_ne_apiary.
  cbn [set_col columns]. rewrite !assoc_get_set.
  destruct Hfresh as [Hg Hp].
  rewrite !decide_False; [|congruence|by intros <-].
  unfold select_rows. cbn [columns].
  by rewrite (assoc_get_fmap name (series_select _)), Hnone.
Qed.

(** X19: when the cleaned file has no column of common names, which the data
    pull leaves out when the server sent none, and an observation is within
    the distance limit, the script classifies and saves the table and then
    stops with a [KeyError] while it draws the first map. *)
Theorem maps_fail_without_common_names cfg env df latitude longitude :
  readable cfg env df latitude longitude ->
  well_formed df ->
  is_Some (assoc_get "id" (columns df)) ->
  assoc_get "taxon.preferred_common_name" (columns df) = None ->
  map_points cfg df latitude longitude <> [] ->
  snd (spatial_analysis cfg env) = Ok (outcome_of cfg df latitude longitude)
  /\ snd (spatial_analysis_with_maps cfg env)
     = Raise (KeyError "taxon.preferred_common_name").
Proof.
  intros Hread Hwf Hid Hnone Hshown.
  assert (some_distance cfg df latitude longitude) as Hdist.
  { unfold some_distance. apply not_true_is_false. intros Hall.
    apply Hshown. unfold map_points. by apply select_all_nan. }
  pose proof (run_ok cfg env df latitude longitude Hread Hdist) as Hrun.
  split; [done|].
  assert (forall name, fresh name -> is_Some (assoc_get name (columns df)) ->
            is_Some (assoc_get name
                       (columns (gdf_observations_for_map
                                   (outcome_of cfg df latitude longitude)))))
    as Hcolumn.
  { intros name Hfresh [s Hs]. apply map_table_columns.
    by rewrite (classified_original _ _ _ _ _ _ Hfresh Hs). }
  unfold spatial_analysis_with_maps. rewrite snd_bind, Hrun.
  rewrite snd_bind. unfold render_maps. rewrite snd_bind; cbn [snd print].
  rewrite snd_bind. cbn [snd lift]. unfold draw_map.
  rewrite markers_KeyError; [reflexivity|..].
  - unfold outcome_of. cbn [gdf_observations_for_map].
    apply well_formed_select_rows.
    pose proof (classified_well_formed cfg env df latitude longitude Hread Hwf).
    pose proof (observation_points_length cfg env df latitude longitude Hread Hwf).
    do 2 (apply well_formed_set_col; [|cbn [set_col index series_len];
      unfold meters_from_property_center;
      by rewrite !length_fmap, classified_index]). done.
  - intros Hnil. apply Hshown. apply length_zero_iff_nil.
    assert (length (index (gdf_observations_for_map
                             (outcome_of cfg df latitude longitude)))
            = length (map_points cfg df latitude longitude)) as Hrows.
    { unfold outcome_of, map_points.
      cbn [gdf_observations_for_map select_rows set_col index].
      apply select_length. rewrite classified_index. symmetry.
      by apply (observation_points_length cfg env). }
    by rewrite <- Hrows, Hnil.
  - apply Hcolumn; [by split|]. rewrite (readable_latitude _ _ _ _ _ Hread).
    by eexists.
  - apply Hcolumn; [by split|]. rewrite (readable_longitude _ _ _ _ _ Hread).
    by eexists.
  - by apply Hcolumn.
  - unfold outcome_of. cbn [gdf_observations_for_map select_rows set_col columns].
    rewrite (assoc_get_fmap _ (series_select _)), !assoc_get_set.
    rewrite !decide_False by done.
    by rewrite classified_missing.
Qed.

End MapsOfTheRun.

(** ** The console output *)

Lemma bind_print {B} line (f : unit -> Script B) :
  print line ≫= f = (line :: fst (f tt), snd (f tt)).
Proof. unfold print, mbind, Script_bind. by destruct (f tt). Qed.

Lemma bind_Ok {A B} out (a : A) (f : A -> Script B) :
  (out, Ok a) ≫= f = ((out ++ fst (f a))%list, snd (f a)).
Proof. unfold mbind, Script_bind. by destruct (f a). Qed.

Lemma fst_bind_print {B} line (f : unit -> Script B) :
  fst (print line ≫= f) = line :: fst (f tt).
Proof. by rewrite bind_print. Qed.

Lemma fst_if_print (b : bool) line :
  fst (if b then print line else (mret () : Script unit))
  = if b then [line] else [].
Proof. by destruct b. Qed.

Ltac emit :=
  rewrite fst_bind_print; cbn [app]; apply (f_equal2 cons); [done|].

Section Output.
Context `{GeoLib} `{Repr}.

(** The geometries are still there after the loop of the property center. *)
Lemma zoned_geometry cfg df (points : list geometry) (within : series) c :
  gdf_geometry
    {| gdf_frame :=
         add_zones cfg (centroid (property_polygon cfg)) property_center_col
           points (BUFFER_RADII_MILES cfg)
           (gdf_frame
              (gdf_set_col "within_property" within
                 (GeoDataFrame_new df points c)));
       gdf_crs := c |}
  = Ok points.
Proof.
  unfold gdf_geometry. cbn [gdf_frame].
  rewrite assoc_get_add_zones by apply property_center_col_ne_geometry.
  cbn [gdf_frame gdf_set_col GeoDataFrame_new set_col columns].
  rewrite !assoc_get_set. by rewrite decide_False, decide_True.
Qed.

Lemma fst_sqlite (e : option string) :
  fst match e with
      | Some e => print ("Error saving data to SQLite database: " +:+ e)
      | None =>
          print ("Analyzed data also saved to SQLite database: "
                 +:+ output_db_file_path +:+ " in table '" +:+ table_name +:+ "'")
      end
  = [match e with
     | None =>
         "Analyzed data also saved to SQLite database: " +:+ output_db_file_path
         +:+ " in table '" +:+ table_name +:+ "'"
     | Some e => "Error saving data to SQLite database: " +:+ e
     end].
Proof. by destruct e. Qed.

Lemma for_each_zone_step_output cfg center col label points radii :
  (forall r, col r <> "geometry") ->
  points <> [] ->
  Forall float_range radii ->
  forall gdf buffers,
    gdf_geometry gdf = Ok points ->
    fst (for_each radii (zone_step cfg center col label) (gdf, buffers))
    = zone_lines cfg center label points radii.
Proof.
  intros Hcol Hrows.
  induction 1 as [|r radii Hr Hradii IH]; intros gdf buffers Hgeom.
  - done.
  - cbn [for_each]. rewrite (zone_step_Ok _ _ _ _ points) by done.
    rewrite bind_Ok. cbn [fst]. rewrite IH; [done|].
    by rewrite gdf_geometry_set_col.
Qed.

(** The lines printed from the first sum to the conversion of the distances
    to miles, on a table with a row. *)
Ltac print_table cfg env df latitude longitude :=
  rewrite sum_flags_Ok, bind_lift_Ok by done;
  do 6 emit;
  erewrite fst_bind_Ok; cycle 1;
  [ apply (for_each_zone_step _ _ _ _ (observation_points df latitude longitude));
      [apply property_center_col_ne_geometry|done|done|
       by rewrite gdf_geometry_set_col, gdf_geometry_new] |];
  rewrite (for_each_zone_step_output _ _ _ _
             (observation_points df latitude longitude));
    [|apply property_center_col_ne_geometry|done|done|
     by rewrite gdf_geometry_set_col, gdf_geometry_new];
  apply (f_equal2 app); [done|]; cbn iota; emit;
  erewrite fst_bind_Ok; cycle 1;
  [ apply (for_each_zone_step _ _ _ _ (observation_points df latitude longitude));
      [apply apiary_center_col_ne_geometry|done|done|by apply zoned_geometry] |];
  rewrite (for_each_zone_step_output _ _ _ _
             (observation_points df latitude longitude));
    [|apply apiary_center_col_ne_geometry|done|done|by apply zoned_geometry];
  apply (f_equal2 app); [done|]; cbn iota;
  cbn [gdf_frame gdf_crs gdf_set_col GeoDataFrame_new];
  fold (classified cfg df latitude longitude);
  unfold drop_col; rewrite classified_geometry, bind_lift_Ok;
  emit;
  rewrite (fst_bind_Ok _ _ ()) by apply snd_sqlite;
  rewrite fst_sqlite; cbn [app]; apply (f_equal2 cons); [done|];
  emit;
  cbn [iloc GeoSeries_to_crs gs_geoms gs_crs fmap list_fmap lookup list_lookup];
  rewrite bind_lift_Ok;
  unfold gdf_to_crs, gdf_geometry at 2; cbn [gdf_frame gdf_crs];
  rewrite classified_geometry; cbn [mbind result_bind]; rewrite bind_lift_Ok;
  unfold gdf_geometry, set_col; cbn [gdf_frame columns];
  rewrite assoc_get_set, decide_True by done; rewrite bind_lift_Ok.

(** The lines printed down to the first sum, on a readable table. *)
Ltac print_load Hfile Hlat Hlon Hnlat Hnlon df latitude longitude :=
  do 3 emit;
  rewrite Hfile; rewrite (fst_bind_Ok _ _ df) by reflexivity;
  rewrite fst_bind_print; cbn [fst mret Script_ret app];
  apply (f_equal2 cons); [done|];
  rewrite (dropna_coordinates _ _ _ Hlat Hlon), bind_lift_Ok;
  rewrite (fst_bind_Ok _ _ ()) by apply snd_if_print;
  rewrite fst_if_print.

Ltac print_points Hlat Hlon df latitude longitude :=
  rewrite (get_col_select_rows _ _ _ _ Hlon), bind_lift_Ok;
  rewrite (get_col_select_rows _ _ _ _ Hlat), bind_lift_Ok;
  unfold points_from_xy; rewrite !to_float64_select by done;
  cbn [mbind result_bind]; rewrite bind_lift_Ok;
  rewrite gdf_geometry_new, bind_lift_Ok;
  fold (observation_points df latitude longitude).

(** X20: what a run that reaches the distance filter prints.  The line
    about removed rows is there when, and only when, rows were removed, with
    their number; the numbers printed for the property and for every buffer
    are the numbers of observations the boundary polygon and that buffer
    contain; a failure of the database is printed and changes nothing
    else. *)
Theorem run_prints cfg env df latitude longitude :
  readable cfg env df latitude longitude ->
  some_distance cfg df latitude longitude ->
  fst (spatial_analysis cfg env) = run_output cfg env df latitude longitude.
Proof.
  intros [Hfile Hnames Hlat Hlon Hnlat Hnlon Hradii] Hdist.
  pose proof (some_distance_some_row _ _ _ _ Hdist) as Hrows.
  pose proof (meters_to_miles_Ok _ _ _ _ Hdist) as Hmiles.
  unfold some_row in Hrows. unfold meters_from_property_center in Hmiles.
  unfold spatial_analysis, run_output, printed, opening_lines. cbv zeta. cbn [app].
  print_load Hfile Hlat Hlon Hnlat Hnlon df latitude longitude.
  apply (f_equal2 app); [done|].
  print_points Hlat Hlon df latitude longitude.
  print_table cfg env df latitude longitude.
  rewrite Hmiles, bind_lift_Ok.
  rewrite fst_bind_print. cbn [fst mret Script_ret]. apply (f_equal2 cons); [|done].
  unfold len, outcome_of.
  cbn [index gdf_observations_for_map select_rows gdf_frame gdf_set_col set_col].
  by rewrite classified_index.
Qed.

(** X21: a table in which no observation has both coordinates, a cleaned
    file without rows among them, stops the script with a [TypeError] at the
    first count of a column of flags: it has printed what it loaded and what
    it removed, and nothing about a classification or a saved table. *)
Theorem no_observation_raises cfg env df latitude longitude :
  cleaned_file env = Some df ->
  assoc_get "latitude" (columns df) = Some latitude ->
  assoc_get "longitude" (columns df) = Some longitude ->
  to_float64 latitude = Ok (floats latitude) ->
  to_float64 longitude = Ok (floats longitude) ->
  observation_points df latitude longitude = [] ->
  let kept :=
    Z.of_nat (length (select (kept_rows df latitude longitude) (index df))) in
  spatial_analysis cfg env
  = ((opening_lines cfg
      ++ ["Loaded " +:+ pretty (len df) +:+ " observations from "
          +:+ cleaned_file_path]
      ++ (if bool_decide (kept < len df)
          then ["Removed " +:+ pretty (len df - kept)
                +:+ " rows with missing latitude/longitude."]
          else []))%list,
     Raise TypeError).
Proof.
  intros Hfile Hlat Hlon Hnlat Hnlon Hrows. cbv zeta.
  apply injective_projections; cbn [fst snd];
    [|by apply (run_without_rows cfg env df latitude longitude)].
  unfold spatial_analysis, opening_lines. cbv zeta. cbn [app].
  print_load Hfile Hlat Hlon Hnlat Hnlon df latitude longitude.
  etrans; [|apply app_nil_r]. apply (f_equal2 app); [done|].
  print_points Hlat Hlon df latitude longitude.
  by rewrite Hrows.
Qed.

(** X22: when the observations are classified but not one of them has a
    distance from the property center that is a number, the script stops
    with a [TypeError] at the conversion to miles: the table has been saved,
    and nothing is printed about the distance filter. *)
Theorem no_distance_raises cfg env df latitude longitude :
  readable cfg env df latitude longitude ->
  some_row df latitude longitude ->
  forallb is_nan
    (meters_from_property_center cfg (observation_points df latitude longitude))
  = true ->
  spatial_analysis cfg env
  = (printed cfg env df latitude longitude [], Raise TypeError).
Proof.
  intros Hread Hrows Hnan.
  apply injective_projections; cbn [fst snd];
    [|by apply (run_without_distance cfg env df latitude longitude)].
  destruct Hread as [Hfile Hnames Hlat Hlon Hnlat Hnlon Hradii].
  unfold some_row in Hrows. unfold meters_from_property_center in Hnan.
  unfold spatial_analysis, printed, opening_lines. cbv zeta. cbn [app].
  print_load Hfile Hlat Hlon Hnlat Hnlon df latitude longitude.
  apply (f_equal2 app); [done|].
  print_points Hlat Hlon df latitude longitude.
  print_table cfg env df latitude longitude.
  unfold meters_to_miles. by rewrite Hnan.
Qed.

End Output.

(** ** The stand-in deployment *)

#[local] Existing Instance Toy.lib.
#[local] Existing Instance Toy.repr.

Ltac toy_radii :=
  repeat first
    [ apply Forall_nil_2
    | apply Forall_cons_2; [split; vm_compute; reflexivity|] ].

Ltac toy_readable :=
  constructor;
  [ reflexivity
  | apply (bool_decide_unpack _); vm_compute; exact I
  | reflexivity
  | reflexivity
  | reflexivity
  | reflexivity
  | toy_radii ].

Ltac toy_distance := unfold some_distance; vm_compute; reflexivity.


Lemma classification_columns_witness :
  exists out,
    snd (spatial_analysis (Toy.cfg [1; 5])
           (Toy.env (Toy.table toy_latitude toy_longitude))) = Ok out
    /\ get_col "within_property" (df_analyzed_final out)
       = Ok (SBool [true; false; false]).
Proof.
  destruct (classification_columns (Toy.cfg [1; 5])
              (Toy.env (Toy.table toy_latitude toy_longitude))
              (Toy.table toy_latitude toy_longitude)
              (SFloat toy_latitude) (SFloat toy_longitude))
    as (out & Hrun & Hflag & _); [toy_readable | toy_distance |].
  exists out. split; [exact Hrun | exact Hflag].
Defined.

(** The saved table has no distance column, and the table kept for the maps
    has the distance from the property center only. *)
Lemma saved_table_has_no_distance :
  exists out,
    snd (spatial_analysis (Toy.cfg [1; 5])
           (Toy.env (Toy.table full_latitude full_longitude))) = Ok out
    /\ column_names (df_analyzed_final out)
       = ["id"; "latitude"; "longitude"; "taxon.name"; "within_property";
          "within_1mile_property_center"; "within_5mile_property_center";
          "within_1mile_apiary_center"; "within_5mile_apiary_center"]
    /\ column_names (gdf_frame (gdf_observations out))
       = ["id"; "latitude"; "longitude"; "taxon.name"; "geometry";
          "within_property";
          "within_1mile_property_center"; "within_5mile_property_center";
          "within_1mile_apiary_center"; "within_5mile_apiary_center";
          "distance_from_property_center_meters";
          "distance_from_property_center_miles"].
Proof. eexists. split_and!; vm_compute; reflexivity. Qed.

Lemma duplicate_radii_share_a_column_witness :
  exists out,
    snd (spatial_analysis (Toy.cfg [1; 1])
           (Toy.env (Toy.table full_latitude full_longitude))) = Ok out
    /\ NoDup (column_names (df_analyzed_final out))
    /\ length (property_center_buffers out) = 2%nat.
Proof.
  destruct (duplicate_radii_share_a_column (Toy.cfg [1; 1])
              (Toy.env (Toy.table full_latitude full_longitude))
              (Toy.table full_latitude full_longitude)
              (SFloat full_latitude) (SFloat full_longitude))
    as (out & Hrun & Hnodup & _ & Hlen & _); [toy_readable | toy_distance |].
  exists out. split_and!; [exact Hrun | exact Hnodup | exact Hlen].
Defined.

(** Two entries of radius 1 leave one zone column per center, not two. *)
Lemma duplicate_radii_one_column :
  exists out,
    snd (spatial_analysis (Toy.cfg [1; 1])
           (Toy.env (Toy.table full_latitude full_longitude))) = Ok out
    /\ length (property_center_buffers out) = 2%nat
    /\ column_names (df_analyzed_final out)
       = ["id"; "latitude"; "longitude"; "taxon.name"; "within_property";
          "within_1mile_property_center"; "within_1mile_apiary_center"].
Proof. eexists. split_and!; vm_compute; reflexivity. Qed.

Lemma radii_not_validated_witness :
  exists out,
    snd (spatial_analysis (Toy.cfg [1; 0; -3])
           (Toy.env (Toy.table full_latitude full_longitude))) = Ok out
    /\ (property_center_buffers out).*1 = [1; 0; -3].
Proof.
  destruct (radii_not_validated (Toy.cfg [1; 0; -3])
              (Toy.env (Toy.table full_latitude full_longitude))
              (Toy.table full_latitude full_longitude)
              (SFloat full_latitude) (SFloat full_longitude))
    as (out & Hrun & Hbuffers & _); [toy_readable | toy_distance |].
  exists out. split; [exact Hrun | by rewrite Hbuffers].
Defined.

(** With the radii 1, 0 and -3 the run raises nothing: the buffer generator
    is called with a distance of zero and with a negative one, and the zones
    of these radii are computed and saved like the others. *)
Lemma non_positive_radius_accepted :
  exists out,
    snd (spatial_analysis (Toy.cfg [1; 0; -3])
           (Toy.env (Toy.table full_latitude full_longitude))) = Ok out
    /\ (property_center_buffers out).*1 = [1; 0; -3]
    /\ (apiary_center_buffers out).*1 = [1; 0; -3]
    /\ column_names (df_analyzed_final out)
       = ["id"; "latitude"; "longitude"; "taxon.name"; "within_property";
          "within_1mile_property_center"; "within_0mile_property_center";
          "within_-3mile_property_center";
          "within_1mile_apiary_center"; "within_0mile_apiary_center";
          "within_-3mile_apiary_center"]
    /\ get_col "within_-3mile_property_center" (df_analyzed_final out)
       = Ok (SBool [false; false])
    /\ mul_float (NInt 0) MILES_TO_METERS = Ok 0%float
    /\ mul_float (NInt (-3)) MILES_TO_METERS = Ok (-3 * 1609.34)%float
    /\ (-3 * 1609.34 <? 0)%float = true.
Proof. eexists. split_and!; vm_compute; reflexivity. Qed.

Lemma missing_coordinates_dropped_witness :
  exists out,
    snd (spatial_analysis (Toy.cfg [1; 5])
           (Toy.env (Toy.table toy_latitude toy_longitude))) = Ok out
    /\ index (df_analyzed_final out) = [0; 2; 3]
    /\ "Removed 1 rows with missing latitude/longitude."
       ∈ fst (spatial_analysis (Toy.cfg [1; 5])
                (Toy.env (Toy.table toy_latitude toy_longitude))).
Proof.
  destruct (missing_coordinates_dropped (Toy.cfg [1; 5])
              (Toy.env (Toy.table toy_latitude toy_longitude))
              (Toy.table toy_latitude toy_longitude)
              (SFloat toy_latitude) (SFloat toy_longitude))
    as (_ & Hprinted & Hrun); [toy_readable|].
  destruct Hrun as (out & Hrun & Hindex); [toy_distance|].
  exists out. split_and!; [exact Hrun | exact Hindex |].
  apply Hprinted. vm_compute. reflexivity.
Defined.

(** The observation at latitude 95, outside the angular range, is kept and
    classified; the one row that is reported is the one without a latitude. *)
Lemma out_of_range_latitude_classified :
  exists out,
    snd (spatial_analysis (Toy.cfg [1; 5])
           (Toy.env (Toy.table toy_latitude toy_longitude))) = Ok out
    /\ index (df_analyzed_final out) = [0; 2; 3]
    /\ get_col "latitude" (df_analyzed_final out)
       = Ok (SFloat [39.005; 95; 39.005]%float)
    /\ get_col "within_property" (df_analyzed_final out)
       = Ok (SBool [true; false; false])
    /\ get_col "within_5mile_apiary_center" (df_analyzed_final out)
       = Ok (SBool [true; false; true])
    /\ "Removed 1 rows with missing latitude/longitude."
       ∈ fst (spatial_analysis (Toy.cfg [1; 5])
                (Toy.env (Toy.table toy_latitude toy_longitude))).
Proof.
  eexists. split_and!; try (vm_compute; reflexivity).
  vm_compute. do 4 right. left.
Qed.

Lemma original_fields_unchanged_witness :
  exists out,
    snd (spatial_analysis (Toy.cfg [1; 5])
           (Toy.env (Toy.table toy_latitude toy_longitude))) = Ok out
    /\ get_col "id" (df_analyzed_final out) = Ok (SInt [101; 103; 104]).
Proof.
  destruct (original_fields_unchanged (Toy.cfg [1; 5])
              (Toy.env (Toy.table toy_latitude toy_longitude))
              (Toy.table toy_latitude toy_longitude)
              (SFloat toy_latitude) (SFloat toy_longitude))
    as (out & Hrun & _ & Hcols & _); [toy_readable | toy_distance |].
  assert (fresh "id") as Hfresh by (split; [discriminate | reflexivity]).
  exists out. split; [exact Hrun | exact (Hcols "id" _ Hfresh eq_refl)].
Defined.

(** A column of the input named [within_property] does not come out as it
    went in: its cells are replaced by the flags. *)
Lemma input_flag_column_overwritten :
  exists out,
    get_col "within_property" flagged_table = Ok (SObj [Some "no"; Some "yes"])
    /\ snd (spatial_analysis (Toy.cfg [1; 5]) (Toy.env flagged_table)) = Ok out
    /\ get_col "within_property" (df_analyzed_final out)
       = Ok (SBool [true; false]).
Proof. eexists. split_and!; vm_compute; reflexivity. Qed.



(** ** The stand-ins for the data pull and for the maps *)

#[local] Existing Instance toy_geom_repr.

Lemma missing_file_exits_witness :
  snd (spatial_analysis (Toy.cfg [1; 5]) (mkEnvironment None None))
  = Raise SystemExit.
Proof.
  by rewrite (missing_file_exits (Toy.cfg [1; 5]) (mkEnvironment None None) eq_refl).
Defined.

Lemma missing_coordinate_column_raises_witness :
  exists key,
    snd (spatial_analysis (Toy.cfg [1; 5])
           (Toy.env (mkDataFrame [0] [("id", SInt [101])])))
    = Raise (KeyError key).
Proof.
  destruct (missing_coordinate_column_raises (Toy.cfg [1; 5])
              (Toy.env (mkDataFrame [0] [("id", SInt [101])]))
              (mkDataFrame [0] [("id", SInt [101])]) eq_refl)
    as (key & Hrun & _); [by left|].
  exists key. by rewrite Hrun.
Defined.

Lemma radius_overflow_raises_witness :
  snd (spatial_analysis (Toy.cfg [1; 10 ^ 400; 5])
         (Toy.env (Toy.table full_latitude full_longitude)))
  = Raise OverflowError.
Proof.
  assert (is_infinity (float_of_int (10 ^ 400)) = true) as Hinf
    by (vm_compute; reflexivity).
  refine (eq_trans
            (radius_overflow_raises (Toy.cfg [1; 10 ^ 400; 5])
               (Toy.env (Toy.table full_latitude full_longitude))
               (Toy.table full_latitude full_longitude)
               (SFloat full_latitude) (SFloat full_longitude) [1] (10 ^ 400) [5]
               eq_refl eq_refl eq_refl eq_refl eq_refl _ eq_refl _ _) _).
  - unfold some_row. vm_compute. discriminate.
  - toy_radii.
  - intros [Hfloat _]. rewrite Hinf in Hfloat. discriminate.
  - by rewrite Hinf.
Defined.

Lemma classified_coordinates_present_witness :
  exists out latitude' longitude',
    snd (spatial_analysis (Toy.cfg [1; 5])
           (Toy.env (Toy.table toy_latitude toy_longitude))) = Ok out
    /\ get_col "latitude" (df_analyzed_final out) = Ok latitude'
    /\ get_col "longitude" (df_analyzed_final out) = Ok longitude'
    /\ complete latitude' /\ complete longitude'.
Proof.
  apply (classified_coordinates_present (Toy.cfg [1; 5])
           (Toy.env (Toy.table toy_latitude toy_longitude))
           (Toy.table toy_latitude toy_longitude)
           (SFloat toy_latitude) (SFloat toy_longitude));
    [toy_readable | toy_distance].
Defined.

Lemma distance_columns_witness :
  exists out meters miles,
    snd (spatial_analysis (Toy.cfg [1; 5])
           (Toy.env (Toy.table full_latitude full_longitude))) = Ok out
    /\ get_col "distance_from_property_center_meters"
         (gdf_frame (gdf_observations out)) = Ok (SFloat meters)
    /\ get_col "distance_from_property_center_miles"
         (gdf_frame (gdf_observations out)) = Ok (SFloat miles)
    /\ length miles = 2%nat.
Proof.
  destruct (distance_columns (Toy.cfg [1; 5])
              (Toy.env (Toy.table full_latitude full_longitude))
              (Toy.table full_latitude full_longitude)
              (SFloat full_latitude) (SFloat full_longitude))
    as (out & meters & miles & Hrun & Hmeters & Hmiles & _ & Hlen & _);
    [toy_readable | toy_distance |].
  exists out, meters, miles. split_and!; [exact Hrun | exact Hmeters | exact Hmiles |].
  exact Hlen.
Defined.

Lemma map_distance_filter_witness :
  exists out,
    snd (spatial_analysis (Toy.cfg [1; 5])
           (Toy.env (Toy.table toy_latitude toy_longitude))) = Ok out
    /\ sublist (index (gdf_observations_for_map out))
         (index (df_analyzed_final out)).
Proof.
  destruct (map_distance_filter (Toy.cfg [1; 5])
              (Toy.env (Toy.table toy_latitude toy_longitude))
              (Toy.table toy_latitude toy_longitude)
              (SFloat toy_latitude) (SFloat toy_longitude))
    as (out & miles & near & Hrun & _ & Hindex & _);
    [toy_readable | toy_distance |].
  exists out. split; [exact Hrun|]. rewrite Hindex. apply select_sublist.
Defined.

Ltac toy_serves_pages :=
  split; [discriminate|];
  intros [|i] obs Hobs; [|destruct i; discriminate];
  injection Hobs as <-; split; [discriminate|];
  exists (Some 3); split; [by exists "" | reflexivity].

Lemma pull_reads_all_pages_witness :
  exists st,
    pull_inaturalist_data nat 5
      (toy_server (Replied (mkResponse None "" (Some (mkData None (Some []))))))
      "sludge-hub" BASE_URL PER_PAGE
    = Some (Returned [1; 2]%nat st)
    /\ slept st = 1%nat.
Proof.
  destruct (pull_reads_all_pages
              (toy_server (Replied (mkResponse None "" (Some (mkData None (Some []))))))
              "sludge-hub" BASE_URL PER_PAGE 3 [[1; 2]%nat] None (Some []) 5)
    as (st & Hrun & _ & Hslept);
    [toy_serves_pages | by exists "" | reflexivity | cbn; lia |].
  exists st. split; [exact Hrun | exact Hslept].
Defined.

Lemma pull_stops_on_zero_total_witness :
  exists st,
    pull_inaturalist_data nat 5 empty_project_server "sludge-hub" BASE_URL PER_PAGE
    = Some (Returned [] st)
    /\ slept st = 0%nat.
Proof.
  destruct (pull_stops_on_zero_total empty_project_server
              "sludge-hub" BASE_URL PER_PAGE (Some 0) (Some [1%nat]) 5)
    as (st & Hrun & _ & Hslept & _); [by exists "" | reflexivity | lia |].
  exists st. split; [exact Hrun | exact Hslept].
Defined.

Lemma pull_returns_partial_on_http_error_witness :
  exists st,
    pull_inaturalist_data nat 5
      (toy_server (Replied (mkResponse (Some "503 Server Error") "busy" None)))
      "sludge-hub" BASE_URL PER_PAGE
    = Some (Returned [1; 2]%nat st)
    /\ last (output st)
       = Some ("Warning: Expected 3 observations based on initial API report, "
               +:+ "but only collected 2. Data pull might be incomplete.").
Proof.
  destruct (pull_returns_partial_on_http_error
              (toy_server (Replied (mkResponse (Some "503 Server Error") "busy" None)))
              "sludge-hub" BASE_URL PER_PAGE 3 [[1; 2]%nat]
              (mkResponse (Some "503 Server Error") "busy" None)
              "503 Server Error" 5)
    as (st & Hrun & _ & Hwarn);
    [toy_serves_pages | reflexivity | reflexivity | cbn; lia |].
  exists st. split; [exact Hrun|]. apply Hwarn; [discriminate | cbn; lia].
Defined.

Lemma pull_raises_on_failed_request_witness :
  exists e st,
    pull_inaturalist_data nat 5 (toy_server Failed) "sludge-hub" BASE_URL PER_PAGE
    = Some (Raised e st)
    /\ all_observations st = [1; 2]%nat.
Proof.
  apply (pull_raises_on_failed_request (toy_server Failed)
           "sludge-hub" BASE_URL PER_PAGE 3 [[1; 2]%nat] 5);
    [toy_serves_pages | by left | cbn; lia].
Defined.

Lemma pull_never_stops_on_total_witness :
  pull_inaturalist_data nat 50 endless_server "sludge-hub" BASE_URL PER_PAGE
  = None.
Proof.
  apply (pull_never_stops_on_total endless_server
           "sludge-hub" BASE_URL PER_PAGE 50).
  intros p _.
  exists (if decide (p = 1) then Some 1 else None), [7%nat].
  split_and!; [discriminate | by exists "" |].
  intros ->. discriminate.
Defined.

Lemma dms_to_dd_direction_witness :
  dms_to_dd 38 30 0 "s" = dms_to_dd 38 30 0 "S"
  /\ dms_to_dd 38 30 0 "north" = dms_to_dd 38 30 0 "N".
Proof.
  destruct (dms_to_dd_direction 38 30 0 "s") as (Hcase & _);
    [cbn [ascii_only]; repeat split; apply Nat.ltb_lt; reflexivity|].
  destruct (dms_to_dd_direction 38 30 0 "north") as (_ & _ & Hother);
    [cbn [ascii_only]; repeat split; apply Nat.ltb_lt; reflexivity|].
  split; [exact Hcase | apply Hother; discriminate].
Defined.

Ltac toy_drawable :=
  constructor;
  [ repeat constructor
  | repeat constructor; by eexists
  | repeat constructor; by eexists ].

Lemma draw_map_layers_witness :
  exists m,
    draw_map (Toy.cfg [1]) (0.5, 0.5)%float [] "Property Center" "#0000FF"
      property_center_col toy_map_table = Ok m
    /\ length (map_layers m) = 3%nat.
Proof.
  eexists. split.
  - apply (draw_map_layers (Toy.cfg [1]) (0.5, 0.5)%float [] "Property Center"
             "#0000FF" property_center_col toy_map_table). toy_drawable.
  - reflexivity.
Defined.

Lemma marker_colours_witness :
  exists m location tooltip,
    draw_map (Toy.cfg [1]) (0.5, 0.5)%float [] "Property Center" "#0000FF"
      property_center_col toy_map_table = Ok m
    /\ map_layers m !! 1%nat
       = Some (CircleMarker location 3 "orange" true "orange" 0.7%float tooltip).
Proof.
  destruct (marker_colours (Toy.cfg [1]) (0.5, 0.5)%float [] "Property Center"
              "#0000FF" property_center_col toy_map_table 1)
    as (m & within & location & tooltip & radius & color
        & Hmap & Hlayer & Hwithin & _ & Horange & _);
    [toy_drawable | cbn; lia |].
  injection Hwithin as <-.
  destruct Horange as [-> ->]; [reflexivity | |].
  - exists 1, (CBool true). split_and!; [left | reflexivity | reflexivity].
  - exists m, location, tooltip. split; [exact Hmap | exact Hlayer].
Defined.

Lemma maps_show_same_observations_witness :
  exists m m',
    draw_map (Toy.cfg [1]) (0.5, 0.5)%float [] "Property Center" "#0000FF"
      property_center_col toy_map_table = Ok m
    /\ draw_map (Toy.cfg [1]) (2, 2)%float [] "Apiary Center" "#00FF00"
         apiary_center_col toy_map_table = Ok m'
    /\ omap marker_place (map_layers m) = omap marker_place (map_layers m').
Proof.
  apply (maps_show_same_observations (Toy.cfg [1]) (0.5, 0.5)%float (2, 2)%float
           [] [] "Property Center" "Apiary Center" "#0000FF" "#00FF00"
           property_center_col apiary_center_col toy_map_table);
    toy_drawable.
Defined.

Lemma draw_map_missing_common_name_witness :
  draw_map (Toy.cfg [1]) (0.5, 0.5)%float [] "Property Center" "#0000FF"
    property_center_col (Toy.table full_latitude full_longitude)
  = Raise (KeyError "taxon.preferred_common_name").
Proof.
  apply (draw_map_missing_common_name (Toy.cfg [1]) (0.5, 0.5)%float []
           "Property Center" "#0000FF" property_center_col
           (Toy.table full_latitude full_longitude));
    [repeat constructor | by eexists.. | reflexivity].
Defined.

Lemma maps_of_the_run_witness :
  exists out m_property_center m_apiary_center,
    snd (spatial_analysis_with_maps (Toy.cfg [1; 5])
           (Toy.env (named_table toy_latitude toy_longitude
                       [Some "Western honey bee"; None; None; None])))
    = Ok (out, (m_property_center, m_apiary_center))
    /\ length (map_layers m_property_center) = 5%nat
    /\ length (map_layers m_apiary_center) = 5%nat.
Proof.
  destruct (maps_of_the_run (Toy.cfg [1; 5])
              (Toy.env (named_table toy_latitude toy_longitude
                          [Some "Western honey bee"; None; None; None]))
              (named_table toy_latitude toy_longitude
                 [Some "Western honey bee"; None; None; None])
              (SFloat toy_latitude) (SFloat toy_longitude))
    as (out & m1 & m2 & Hrun & [Hlayers1 _] & [Hlayers2 _]);
    [toy_readable | toy_distance | repeat constructor | by eexists.. |].
  exists out, m1, m2. split; [exact Hrun|].
  rewrite Hlayers1, Hlayers2. split; reflexivity.
Defined.

Lemma maps_fail_without_common_names_witness :
  snd (spatial_analysis_with_maps (Toy.cfg [1; 5])
         (Toy.env (Toy.table full_latitude full_longitude)))
  = Raise (KeyError "taxon.preferred_common_name").
Proof.
  apply (maps_fail_without_common_names (Toy.cfg [1; 5])
           (Toy.env (Toy.table full_latitude full_longitude))
           (Toy.table full_latitude full_longitude)
           (SFloat full_latitude) (SFloat full_longitude));
    [toy_readable | repeat constructor | by eexists | reflexivity |].
  vm_compute. discriminate.
Defined.

Lemma run_prints_witness :
  fst (spatial_analysis (Toy.cfg [1; 5])
         (Toy.env (Toy.table toy_latitude toy_longitude)))
  = run_output (Toy.cfg [1; 5])
      (Toy.env (Toy.table toy_latitude toy_longitude))
      (Toy.table toy_latitude toy_longitude)
      (SFloat toy_latitude) (SFloat toy_longitude).
Proof.
  apply (run_prints (Toy.cfg [1; 5])
           (Toy.env (Toy.table toy_latitude toy_longitude))
           (Toy.table toy_latitude toy_longitude)
           (SFloat toy_latitude) (SFloat toy_longitude));
    [toy_readable | toy_distance].
Defined.

Lemma no_observation_raises_witness :
  snd (spatial_analysis (Toy.cfg [1; 5])
         (Toy.env (Toy.table [nan]%float [-80]%float)))
  = Raise TypeError
  /\ last (fst (spatial_analysis (Toy.cfg [1; 5])
                  (Toy.env (Toy.table [nan]%float [-80]%float))))
     = Some "Removed 1 rows with missing latitude/longitude.".
Proof.
  rewrite (no_observation_raises (Toy.cfg [1; 5])
             (Toy.env (Toy.table [nan]%float [-80]%float))
             (Toy.table [nan]%float [-80]%float)
             (SFloat [nan]%float) (SFloat [-80]%float));
    try reflexivity.
  split; reflexivity.
Defined.

Lemma no_distance_raises_witness :
  snd (spatial_analysis (Toy.far_cfg [1; 5])
         (Toy.env (Toy.table [1; 0.5]%float [1; 0.5]%float)))
  = Raise TypeError
  /\ (NL +:+ "Analyzed data with buffer zones saved to "
      +:+ "data/sludge_hub_analyzed_data_with_buffers.csv")
     ∈ fst (spatial_analysis (Toy.far_cfg [1; 5])
              (Toy.env (Toy.table [1; 0.5]%float [1; 0.5]%float))).
Proof.
  rewrite (no_distance_raises (Toy.far_cfg [1; 5])
             (Toy.env (Toy.table [1; 0.5]%float [1; 0.5]%float))
             (Toy.table [1; 0.5]%float [1; 0.5]%float)
             (SFloat [1; 0.5]%float) (SFloat [1; 0.5]%float));
    [ | toy_readable | unfold some_row; vm_compute; discriminate
      | vm_compute; reflexivity ].
  split; [reflexivity|]. vm_compute. do 15 right. left.
Defined.
